(** * OpenSati: stress fusion, intervention cooldown and intent tracking

  A shallow embedding of the arithmetic and timing core of OpenSati:
  - [opensati/core/sensors.py]   ([InputSensor]),
  - [opensati/core/detector.py]  ([StressDetector]),
  - [opensati/ai/ollama_client.py] ([OllamaClient.check_intent_match]),
  - [opensati/ai/intent.py]      ([IntentChecker]).

  Conventions of the embedding.
  - Python floats (scores, clock readings, settings) are idealised as
    exact rationals [Q]; every property below is a property of
    comparisons and of the real-number value of the expressions.  Where
    the rounding of double precision matters, the expression is given a
    second time over IEEE 754 binary64 ([Binary64]).
  - [time.time()] is not a function: each clock reading of a method is
    an explicit argument of its model, in the order the method reads it.
  - Mutation of [self] is state passing: a method returns the new object.
  - A callback stored on an object is modelled by a flag (installed or
    [None]) and each invocation is recorded as an [Event] in a log.
  - Exceptions are values of [Py.result]; a mutation performed before the
    exception is raised is kept in the returned object.
  - The per-sensor lock is omitted: the model is sequential. *)

From Stdlib Require Import QArith Qminmax ZArith List Bool String Ascii.
From Stdlib.Strings Require Import Byte.
From Stdlib Require Import Lia Lqa.
From Stdlib Require SpecFloat.
Import ListNotations.
Open Scope Q_scope.

(* ================================================================== *)
(** ** Python primitives used by the modelled code *)

Module Py.

(** [x < y], [x > y] and [x >= y] on numbers. *)
Definition ltb (x y : Q) : bool := negb (Qle_bool y x).
Definition gtb (x y : Q) : bool := ltb y x.
Definition geb (x y : Q) : bool := Qle_bool y x.

Inductive exn : Set := ZeroDivisionError.

Inductive result (A : Type) : Type :=
| Ok (a : A)
| Raise (e : exn).
Arguments Ok {A} a.
Arguments Raise {A} e.

Definition bind {A B} (r : result A) (k : A -> result B) : result B :=
  match r with
  | Ok a => k a
  | Raise e => Raise e
  end.

(** True division [x / y]: raises on a zero divisor. *)
Definition truediv (x y : Q) : result Q :=
  if Qeq_bool y 0 then Raise ZeroDivisionError else Ok (x / y).

(** [min(a, b)]: the first argument unless the second is strictly less. *)
Definition min (a b : Q) : Q := if ltb b a then b else a.

(** [sum(xs)]: a left fold from [0]. *)
Definition sum (xs : list Q) : Q := fold_left Qplus xs 0.

(** [len(xs)] as a number. *)
Definition len {A} (xs : list A) : Q := inject_Z (Z.of_nat (List.length xs)).

(** [collections.deque(maxlen=cap).append(x)]: the oldest entries are
    dropped once the capacity is exceeded. *)
Definition deque_append {A} (cap : nat) (dq : list A) (x : A) : list A :=
  let dq' := dq ++ [x] in
  skipn (List.length dq' - cap) dq'.

(** *** Strings (ASCII fragment of [str]) *)

Definition is_space (a : ascii) : bool :=
  let n := nat_of_ascii a in
  ((9 <=? n) && (n <=? 13) || (28 <=? n) && (n <=? 32))%nat.

Fixpoint lstrip (s : string) : string :=
  match s with
  | EmptyString => EmptyString
  | String a r => if is_space a then lstrip r else s
  end.

Fixpoint rev_onto (s acc : string) : string :=
  match s with
  | EmptyString => acc
  | String a r => rev_onto r (String a acc)
  end.

Definition rev (s : string) : string := rev_onto s EmptyString.

Definition rstrip (s : string) : string := rev (lstrip (rev s)).

Definition strip (s : string) : string := rstrip (lstrip s).

Definition upper_ascii (a : ascii) : ascii :=
  let n := nat_of_ascii a in
  if ((97 <=? n) && (n <=? 122))%nat then ascii_of_nat (n - 32) else a.

Fixpoint upper (s : string) : string :=
  match s with
  | EmptyString => EmptyString
  | String a r => String (upper_ascii a) (upper r)
  end.

Definition startswith (s p : string) : bool := String.prefix p s.

(** [c in s] for a one-character [c]. *)
Fixpoint contains (c : ascii) (s : string) : bool :=
  match s with
  | EmptyString => false
  | String a r => if Ascii.eqb a c then true else contains c r
  end.

(** [s.split(c, 1)[-1]]: what follows the first [c], or [s] itself. *)
Fixpoint split1_last (c : ascii) (s : string) : string :=
  match s with
  | EmptyString => EmptyString
  | String a r =>
      if Ascii.eqb a c then r
      else if contains c r then split1_last c r else s
  end.

(** Truth value of a [str]. *)
Definition truthy (s : string) : bool :=
  match s with EmptyString => false | _ => true end.

Definition lower_ascii (a : ascii) : ascii :=
  let n := nat_of_ascii a in
  if ((65 <=? n) && (n <=? 90))%nat then ascii_of_nat (n + 32) else a.

Fixpoint lower (s : string) : string :=
  match s with
  | EmptyString => EmptyString
  | String a r => String (lower_ascii a) (lower r)
  end.

(** [s.split(c)] for a one-character separator [c]: the pieces between
    the separators, at least one. *)
Fixpoint split_on (c : ascii) (s : string) : list string :=
  match s with
  | EmptyString => [EmptyString]
  | String a r =>
      if Ascii.eqb a c then EmptyString :: split_on c r
      else
        match split_on c r with
        | p :: ps => String a p :: ps
        | [] => [String a EmptyString]
        end
  end.

(** [len(s.split())]: the number of maximal runs of non-blank
    characters.  [in_word] tells whether the previous character was part
    of a word. *)
Fixpoint count_words_from (in_word : bool) (s : string) : nat :=
  match s with
  | EmptyString => 0
  | String a r =>
      if is_space a then count_words_from false r
      else ((if in_word then 0 else 1) + count_words_from true r)%nat
  end.

Definition count_words (s : string) : nat := count_words_from false s.

(** [sub in s] on strings. *)
Fixpoint substring_in (sub s : string) : bool :=
  String.prefix sub s
  || match s with
     | EmptyString => false
     | String _ r => substring_in sub r
     end.

(** [x in xs] for a list of strings. *)
Definition str_in (x : string) (xs : list string) : bool :=
  existsb (String.eqb x) xs.

(** [l[k:]] for an integer index [k], negative indices counting from
    the end. *)
Definition slice_from {A} (k : Z) (l : list A) : list A :=
  if (k <? 0)%Z
  then skipn (Z.to_nat (Z.max 0 (Z.of_nat (List.length l) + k))) l
  else skipn (Z.to_nat k) l.

(** Floor division [x // y] of integers: raises on a zero divisor. *)
Definition floordiv (x y : Z) : result Z :=
  if (y =? 0)%Z then Raise ZeroDivisionError else Ok (x / y)%Z.

End Py.

Import Py.

(* ================================================================== *)
(** ** Double precision *)

Module Binary64.

(** A Python [float] is an IEEE 754 binary64 number.  [spec_float] with
    precision 53 and maximal exponent 1024 is the Standard Library's
    executable specification of that format and of its correctly rounded
    operations (round to nearest, ties to even). *)
Definition prec : Z := 53.
Definition emax : Z := 1024.
Definition float : Set := SpecFloat.spec_float.


Definition is_zero (x : float) : bool :=
  match x with
  | SpecFloat.S754_zero _ => true
  | _ => false
  end.

(** True division [x / y]: raises on a zero divisor. *)
Definition truediv (x y : float) : result float :=
  if is_zero y then Raise ZeroDivisionError
  else Ok (SpecFloat.SFdiv prec emax x y).


(** [min(a, b)]: the first argument unless the second is strictly less. *)
Definition min (a b : float) : float :=
  if SpecFloat.SFltb b a then b else a.


End Binary64.

(* ================================================================== *)
(** ** [opensati/config/settings.py] *)

Module Config.

(** The fields of [Settings] read by the modelled components. *)
Record Settings : Type := {
  sensors_keyboard : bool;
  sensors_mouse : bool;
  detection_stress_threshold : Q;
  detection_baseline_window : Q;
  intervention_cooldown : Q;
  intent_check_interval : Q;
  intent_mismatch_threshold : Q
}.

(** [Settings()] with the dataclass defaults. *)
Definition default_settings : Settings :=
  {| sensors_keyboard := true;
     sensors_mouse := true;
     detection_stress_threshold := 50;
     detection_baseline_window := 1800;
     intervention_cooldown := 120;
     intent_check_interval := 30;
     intent_mismatch_threshold := 2 |}.

End Config.

Import Config.

(* ================================================================== *)
(** ** [opensati/core/sensors.py] *)

Module Sensors.

Record SensorState : Type := {
  keystrokes_per_second : Q;
  mouse_clicks_per_second : Q;
  current_stress_score : Q;
  baseline_typing_speed : Q;
  is_calibrating : bool
}.

(** [InputSensor].  The mouse-position history and the derived
    [mouse_distance_per_second] (a sum of square roots) are left out:
    no other field depends on them. *)
Record InputSensor : Type := {
  window_size : Q;
  baseline_duration : Q;
  stress_threshold : Q;
  on_stress_detected : bool;
  _keystroke_times : list Q;
  _click_times : list Q;
  _baseline_samples : list Q;
  _running : bool;
  _start_time : Q
}.

(** The dataclass constructor followed by [__post_init__], which only
    resets the buffers; no argument is inspected. *)
Definition new (window_size baseline_duration stress_threshold : Q)
  : result InputSensor :=
  Ok {| window_size := window_size;
        baseline_duration := baseline_duration;
        stress_threshold := stress_threshold;
        on_stress_detected := false;
        _keystroke_times := [];
        _click_times := [];
        _baseline_samples := [];
        _running := false;
        _start_time := 0 |}.

Definition start (now : Q) (s : InputSensor) : InputSensor :=
  if _running s then s
  else {| window_size := window_size s;
          baseline_duration := baseline_duration s;
          stress_threshold := stress_threshold s;
          on_stress_detected := on_stress_detected s;
          _keystroke_times := _keystroke_times s;
          _click_times := _click_times s;
          _baseline_samples := _baseline_samples s;
          _running := true;
          _start_time := now |}.

Definition stop (s : InputSensor) : InputSensor :=
  {| window_size := window_size s;
     baseline_duration := baseline_duration s;
     stress_threshold := stress_threshold s;
     on_stress_detected := on_stress_detected s;
     _keystroke_times := _keystroke_times s;
     _click_times := _click_times s;
     _baseline_samples := _baseline_samples s;
     _running := false;
     _start_time := _start_time s |}.

Definition _on_key_press (now : Q) (s : InputSensor) : InputSensor :=
  {| window_size := window_size s;
     baseline_duration := baseline_duration s;
     stress_threshold := stress_threshold s;
     on_stress_detected := on_stress_detected s;
     _keystroke_times := deque_append 1000 (_keystroke_times s) now;
     _click_times := _click_times s;
     _baseline_samples := _baseline_samples s;
     _running := _running s;
     _start_time := _start_time s |}.

Definition _on_mouse_click (now : Q) (pressed : bool) (s : InputSensor)
  : InputSensor :=
  if pressed then
    {| window_size := window_size s;
       baseline_duration := baseline_duration s;
       stress_threshold := stress_threshold s;
       on_stress_detected := on_stress_detected s;
       _keystroke_times := _keystroke_times s;
       _click_times := deque_append 500 (_click_times s) now;
       _baseline_samples := _baseline_samples s;
       _running := _running s;
       _start_time := _start_time s |}
  else s.

Definition with_baseline_samples (s : InputSensor) (b : list Q)
  : InputSensor :=
  {| window_size := window_size s;
     baseline_duration := baseline_duration s;
     stress_threshold := stress_threshold s;
     on_stress_detected := on_stress_detected s;
     _keystroke_times := _keystroke_times s;
     _click_times := _click_times s;
     _baseline_samples := b;
     _running := _running s;
     _start_time := _start_time s |}.

(** [sum(1 for t in times if t > window_start)]. *)
Definition count_recent (window_start : Q) (times : list Q) : Z :=
  fold_left (fun acc t => if gtb t window_start then (acc + 1)%Z else acc)
            times 0%Z.

(** [InputSensor.get_state].  [now] is the method's clock reading.  The
    rates and the score are the exact values of the source's expressions;
    what the two roundings of the score's expression do to it in double
    precision is given by [stress_score_binary64] below. *)
Definition get_state (now : Q) (s : InputSensor)
  : result SensorState * InputSensor :=
  let window_start := now - window_size s in
  let calibrating := ltb (now - _start_time s) (baseline_duration s) in
  let recent_keystrokes := count_recent window_start (_keystroke_times s) in
  match truediv (inject_Z recent_keystrokes) (window_size s) with
  | Raise e => (Raise e, s)
  | Ok kps =>
    let recent_clicks := count_recent window_start (_click_times s) in
    match truediv (inject_Z recent_clicks) (window_size s) with
    | Raise e => (Raise e, s)
    | Ok cps =>
      let s' :=
        if calibrating && (0 <? recent_keystrokes)%Z
        then with_baseline_samples s (_baseline_samples s ++ [kps])
        else s in
      let baseline :=
        match _baseline_samples s' with
        | [] => 0
        | _ => sum (_baseline_samples s') / len (_baseline_samples s')
        end in
      match truediv (inject_Z recent_keystrokes) (stress_threshold s) with
      | Raise e => (Raise e, s')
      | Ok ratio =>
        (Ok {| keystrokes_per_second := kps;
               mouse_clicks_per_second := cps;
               current_stress_score := Py.min 100 (ratio * 100);
               baseline_typing_speed := baseline;
               is_calibrating := calibrating |}, s')
      end
    end
  end.

(** [InputSensor.check_stress]: the score once it reaches 100 outside
    calibration.  The log lists the arguments of the invocations of the
    sensor's own [on_stress_detected]. *)
Definition check_stress (now : Q) (s : InputSensor)
  : result (option Q) * InputSensor * list Q :=
  match get_state now s with
  | (Raise e, s') => (Raise e, s', [])
  | (Ok state, s') =>
      if is_calibrating state then (Ok None, s', [])
      else if geb (current_stress_score state) 100 then
        (Ok (Some (current_stress_score state)), s',
         if on_stress_detected s then [current_stress_score state] else [])
      else (Ok None, s', [])
  end.


End Sensors.

(* ================================================================== *)
(** ** [opensati/core/detector.py] *)

Module Detector.

Inductive StressLevel : Set := CALM | MODERATE | HIGH | CRITICAL.

Definition StressLevel_eqb (a b : StressLevel) : bool :=
  match a, b with
  | CALM, CALM | MODERATE, MODERATE | HIGH, HIGH | CRITICAL, CRITICAL => true
  | _, _ => false
  end.

(** [level in (StressLevel.HIGH, StressLevel.CRITICAL)]. *)
Definition elevated (l : StressLevel) : bool :=
  StressLevel_eqb l HIGH || StressLevel_eqb l CRITICAL.

Record DetectorState : Type := {
  level : StressLevel;
  score : Q;
  input_score : Q;
  breathing_score : Q;
  posture_score : Q;
  last_intervention : Q;
  can_intervene : bool
}.

Record StressDetector : Type := {
  settings : Settings;
  on_stress_detected : bool;
  on_calm_restored : bool;
  _input_sensor : option Sensors.InputSensor;
  _last_intervention_time : Q;
  _current_level : StressLevel
}.

(** Invocations of the two callbacks. *)
Inductive Event : Type :=
| StressDetected (l : StressLevel) (s : Q)
| CalmRestored.

Definition is_calm_restored (e : Event) : bool :=
  match e with CalmRestored => true | _ => false end.

Definition is_stress_detected (e : Event) : bool :=
  match e with StressDetected _ _ => true | _ => false end.

(** The dataclass constructor with default internal state, followed by
    [__post_init__]. *)
Definition new (st : Settings) (on_stress on_calm : bool)
  : result StressDetector :=
  bind (if sensors_keyboard st || sensors_mouse st
        then bind (Sensors.new 10 (detection_baseline_window st)
                               (detection_stress_threshold st))
                  (fun s => Ok (Some s))
        else Ok None)
       (fun sensor =>
          Ok {| settings := st;
                on_stress_detected := on_stress;
                on_calm_restored := on_calm;
                _input_sensor := sensor;
                _last_intervention_time := 0;
                _current_level := CALM |}).

Definition with_sensor (d : StressDetector)
           (s : option Sensors.InputSensor) : StressDetector :=
  {| settings := settings d;
     on_stress_detected := on_stress_detected d;
     on_calm_restored := on_calm_restored d;
     _input_sensor := s;
     _last_intervention_time := _last_intervention_time d;
     _current_level := _current_level d |}.

(** The weighted fusion of line 99. *)
Definition fuse (input_score breathing_score posture_score : Q) : Q :=
  input_score * (1 # 2) + breathing_score * (3 # 10)
  + posture_score * (1 # 5).

(** The threshold chain of lines 102-109. *)
Definition level_of (total_score : Q) : StressLevel :=
  if ltb total_score 30 then CALM
  else if ltb total_score 60 then MODERATE
  else if ltb total_score 85 then HIGH
  else CRITICAL.

(** Lines 84-85 and 98-119 of [get_state]: the state it builds once the
    three sub-scores are known. *)
Definition state_of (now input_score breathing_score posture_score : Q)
           (d : StressDetector) : DetectorState :=
  let cooldown := intervention_cooldown (settings d) in
  let can := gtb (now - _last_intervention_time d) cooldown in
  let total_score := fuse input_score breathing_score posture_score in
  {| level := level_of total_score;
     score := total_score;
     input_score := input_score;
     breathing_score := breathing_score;
     posture_score := posture_score;
     last_intervention := _last_intervention_time d;
     can_intervene := can |}.

(** [StressDetector.get_state].  [now] is its own clock reading and
    [now_sensor] the one made by the input sensor it queries.  The
    breathing and posture scores are the placeholders of lines 95-96. *)
Definition get_state (now now_sensor : Q) (d : StressDetector)
  : result DetectorState * StressDetector :=
  let '(r_input, d') :=
    match _input_sensor d with
    | None => (Ok 0, d)
    | Some s =>
        let '(r, s') := Sensors.get_state now_sensor s in
        (bind r (fun st => Ok (Sensors.current_stress_score st)),
         with_sensor d (Some s'))
    end in
  match r_input with
  | Raise e => (Raise e, d')
  | Ok input_score =>
      let breathing_score := 0 in
      let posture_score := 0 in
      (Ok (state_of now input_score breathing_score posture_score d), d')
  end.

(** Lines 129-146 of [check_and_intervene]: what the method does with
    the [state] it obtained.  [now_fire] is the clock reading of line
    141, made only when an intervention fires. *)
Definition check_and_intervene_on (state : DetectorState) (now_fire : Q)
           (d : StressDetector) : bool * StressDetector * list Event :=
  let previous_level := _current_level d in
  let calm :=
    if elevated previous_level
       && (StressLevel_eqb (level state) CALM && on_calm_restored d)
    then [CalmRestored] else [] in
  if elevated (level state) && can_intervene state then
    (true,
     {| settings := settings d;
        on_stress_detected := on_stress_detected d;
        on_calm_restored := on_calm_restored d;
        _input_sensor := _input_sensor d;
        _last_intervention_time := now_fire;
        _current_level := level state |},
     calm ++ (if on_stress_detected d
              then [StressDetected (level state) (score state)] else []))
  else
    (false,
     {| settings := settings d;
        on_stress_detected := on_stress_detected d;
        on_calm_restored := on_calm_restored d;
        _input_sensor := _input_sensor d;
        _last_intervention_time := _last_intervention_time d;
        _current_level := level state |},
     calm).

(** [StressDetector.check_and_intervene]. *)
Definition check_and_intervene (now now_sensor now_fire : Q)
           (d : StressDetector)
  : result bool * StressDetector * list Event :=
  match get_state now now_sensor d with
  | (Raise e, d') => (Raise e, d', [])
  | (Ok state, d') =>
      let '(fired, d'', evs) := check_and_intervene_on state now_fire d' in
      (Ok fired, d'', evs)
  end.

(** *** Runs of a detector

    What happens to a detector between construction and shutdown: its
    sensor is started and stopped, the listeners record input events, and
    the monitoring loop queries the state and ticks. *)
Inductive Action : Type :=
| Start (t : Q)
| Stop
| KeyPress (t : Q)
| MouseClick (t : Q) (pressed : bool)
| GetState (now now_sensor : Q)
| Tick (now now_sensor now_fire : Q).

Definition on_sensor (f : Sensors.InputSensor -> Sensors.InputSensor)
           (d : StressDetector) : StressDetector :=
  with_sensor d (option_map f (_input_sensor d)).

(** One record per tick: the clock reading stored on firing, the
    outcome of the call and the callbacks it invoked. *)
Record Outcome : Type := {
  fire_time : Q;
  returned : result bool;
  emitted : list Event
}.

Fixpoint run (d : StressDetector) (acts : list Action)
  : StressDetector * list Outcome :=
  match acts with
  | [] => (d, [])
  | Start t :: rest => run (on_sensor (Sensors.start t) d) rest
  | Stop :: rest => run (on_sensor Sensors.stop d) rest
  | GetState now now_sensor :: rest =>
      run (snd (get_state now now_sensor d)) rest
  | KeyPress t :: rest => run (on_sensor (Sensors._on_key_press t) d) rest
  | MouseClick t p :: rest =>
      run (on_sensor (Sensors._on_mouse_click t p) d) rest
  | Tick now now_sensor now_fire :: rest =>
      let '(r, d', evs) := check_and_intervene now now_sensor now_fire d in
      let '(d'', outs) := run d' rest in
      (d'', {| fire_time := now_fire; returned := r; emitted := evs |}
            :: outs)
  end.

Definition fired (o : Outcome) : bool :=
  match returned o with Ok true => true | _ => false end.

(** The instants at which interventions fired during a run. *)
Definition intervention_times (outs : list Outcome) : list Q :=
  map fire_time (filter fired outs).

(** [self._detector.settings = settings], as [OpenSatiApp._on_settings_save]
    does when the settings window is saved ([app.py], lines 368-375). *)
Definition set_settings (st : Settings) (d : StressDetector)
  : StressDetector :=
  {| settings := st;
     on_stress_detected := on_stress_detected d;
     on_calm_restored := on_calm_restored d;
     _input_sensor := _input_sensor d;
     _last_intervention_time := _last_intervention_time d;
     _current_level := _current_level d |}.

End Detector.

(* ================================================================== *)
(** ** [opensati/ai/ollama_client.py] *)

Module Ollama.

Open Scope string_scope.

(** [OllamaClient.analyze_image] as seen by its caller: [None] when the
    backend is not available or the request raised, the text of the
    reply otherwise.  [reply] is what the backend would answer. *)
Definition analyze_image (available : bool) (reply : option string)
  : option string :=
  if available then reply else None.

(** [OllamaClient.check_intent_match], given what [analyze_image]
    returned. *)
Definition check_intent_match (response : option string) : bool * string :=
  match response with
  | None => (true, "Could not analyze")
  | Some r =>
      if negb (truthy r) then (true, "Could not analyze")
      else
        let r := upper (strip r) in
        let matches := startswith r "YES" in
        let explanation :=
          if contains ":" r then strip (split1_last ":" r) else r in
        (matches, explanation)
  end.

(** [OllamaClient]: the configured model names and the cached answer of
    [is_available]. *)
Record OllamaClient : Type := {
  model : string;
  vision_model : string;
  _available : option bool
}.

Definition with_available (a : bool) (c : OllamaClient) : OllamaClient :=
  {| model := model c;
     vision_model := vision_model c;
     _available := Some a |}.

(** What probing the backend does inside [is_available]: the package is
    missing, the request (or reading the answer) raises, or the names of
    the installed models come back. *)
Inductive Probe : Type :=
| ImportError
| ProbeFailed
| Listing (names : list string).

(** [OllamaClient.is_available].  [probe] is what the backend would
    answer if asked now. *)
Definition is_available (probe : Probe) (c : OllamaClient)
  : bool * OllamaClient :=
  match _available c with
  | Some a => (a, c)
  | None =>
      match probe with
      | Listing available_models =>
          let has_text := existsb (substring_in (model c)) available_models in
          let has_vision :=
            existsb (substring_in (vision_model c)) available_models in
          (has_text || has_vision, with_available (has_text || has_vision) c)
      | _ => (false, with_available false c)
      end
  end.

(** [OllamaClient.chat]: [reply] is the text the backend would answer,
    [None] if the request raises. *)
Definition chat (probe : Probe) (reply : option string) (c : OllamaClient)
  : option string * OllamaClient :=
  let '(a, c') := is_available probe c in
  (if a then reply else None, c').

(** [OllamaClient.analyze_image] on a client. *)
Definition analyze_image_on (probe : Probe) (reply : option string)
           (c : OllamaClient) : option string * OllamaClient :=
  let '(a, c') := is_available probe c in
  (analyze_image a reply, c').

(** [OllamaClient.check_intent_match] on a client. *)
Definition check_intent_match_on (probe : Probe) (reply : option string)
           (c : OllamaClient) : (bool * string) * OllamaClient :=
  let '(response, c') := analyze_image_on probe reply c in
  (check_intent_match response, c').

(** One turn of the loop over the lines in [analyze_sentiment]. *)
Definition sentiment_step (acc : string * option string) (line : string)
  : string * option string :=
  let '(sentiment, reframe) := acc in
  if startswith line "SENTIMENT:" then
    (lower (strip (split1_last ":" line)), reframe)
  else if startswith line "REFRAME:" then
    let reframe_text := strip (split1_last ":" line) in
    if negb (String.eqb (lower reframe_text) "none")
    then (sentiment, Some reframe_text)
    else (sentiment, reframe)
  else (sentiment, reframe).

(** [OllamaClient.analyze_sentiment], given what [chat] returned. *)
Definition analyze_sentiment (response : option string)
  : string * option string :=
  match response with
  | None => ("neutral", None)
  | Some r =>
      if negb (truthy r) then ("neutral", None)
      else fold_left sentiment_step (split_on "010" (strip r))
                     ("neutral", None)
  end.

(** [OllamaClient.analyze_sentiment] on a client. *)
Definition analyze_sentiment_on (probe : Probe) (reply : option string)
           (c : OllamaClient) : (string * option string) * OllamaClient :=
  let '(response, c') := chat probe reply c in
  (analyze_sentiment response, c').

End Ollama.

(* ================================================================== *)
(** ** [opensati/ai/sentiment.py] *)

Module Sentiment.

Open Scope string_scope.

Record SentimentResult : Type := {
  sentiment : string;
  original_text : string;
  suggested_reframe : option string;
  needs_reframe : bool
}.

(** [SentimentResult(original_text=...)] with the remaining defaults. *)
Definition default_result (text : string) : SentimentResult :=
  {| sentiment := "neutral";
     original_text := text;
     suggested_reframe := None;
     needs_reframe := false |}.

Record SentimentAnalyzer : Type := {
  trigger_sentiments : list string;
  on_aggressive_detected : bool;
  _enabled : bool
}.

(** The dataclass constructor followed by [__post_init__]. *)
Definition new (triggers : option (list string)) (on_aggressive : bool)
  : SentimentAnalyzer :=
  {| trigger_sentiments :=
       match triggers with
       | None => ["aggressive"; "negative"]
       | Some l => l
       end;
     on_aggressive_detected := on_aggressive;
     _enabled := false |}.

Definition with_enabled (b : bool) (a : SentimentAnalyzer)
  : SentimentAnalyzer :=
  {| trigger_sentiments := trigger_sentiments a;
     on_aggressive_detected := on_aggressive_detected a;
     _enabled := b |}.

Definition start (available : bool) (a : SentimentAnalyzer)
  : bool * SentimentAnalyzer :=
  if negb available then (false, a) else (true, with_enabled true a).

Definition stop (a : SentimentAnalyzer) : SentimentAnalyzer :=
  with_enabled false a.

Definition is_some {A} (o : option A) : bool :=
  match o with Some _ => true | None => false end.

(** [SentimentAnalyzer.analyze].  [response] is what the client's [chat]
    returns for the text; the log lists the arguments of the invocations
    of [on_aggressive_detected]. *)
Definition analyze (text : string) (response : option string)
           (a : SentimentAnalyzer)
  : SentimentResult * list (string * string) :=
  if negb (_enabled a) || negb (truthy (strip text)) then
    (default_result "", [])
  else if (count_words text <? 5)%nat then (default_result text, [])
  else
    let '(sentiment, reframe) := Ollama.analyze_sentiment response in
    let needs := str_in sentiment (trigger_sentiments a) && is_some reframe in
    ({| sentiment := sentiment;
        original_text := text;
        suggested_reframe := reframe;
        needs_reframe := needs |},
     match reframe with
     | Some r => if needs && on_aggressive_detected a then [(text, r)] else []
     | None => []
     end).

(** [SentimentAnalyzer.get_quick_reframe]. *)
Definition get_quick_reframe (text : string) (response : option string)
           (a : SentimentAnalyzer) : option string * list (string * string) :=
  let '(result, log) := analyze text response a in
  (suggested_reframe result, log).

End Sentiment.

(* ================================================================== *)
(** ** [opensati/ai/intent.py] *)

Module Intent.

Record IntentState : Type := {
  current_intent : string;
  last_check_time : Q;
  last_match : bool;
  last_explanation : string;
  mismatch_duration : Q;
  is_enabled : bool
}.

(** [IntentState(is_enabled=...)] with the remaining defaults. *)
Definition default_state (intent : string) (enabled : bool) : IntentState :=
  {| current_intent := intent;
     last_check_time := 0;
     last_match := true;
     last_explanation := EmptyString;
     mismatch_duration := 0;
     is_enabled := enabled |}.

Record IntentChecker : Type := {
  check_interval : Q;
  mismatch_threshold : Q;
  on_mismatch_detected : bool;
  _current_intent : string;
  _last_check : Q;
  _mismatch_start : option Q;
  _last_explanation : string;
  _running : bool
}.

(** Invocations of [on_mismatch_detected(intent, explanation)]. *)
Inductive Event : Type :=
| MismatchDetected (intent explanation : string).

(** The dataclass constructor followed by [__post_init__]: the
    threshold is configured in minutes and kept in seconds. *)
Definition new (st : Settings) (on_mismatch : bool) : IntentChecker :=
  {| check_interval := intent_check_interval st;
     mismatch_threshold := intent_mismatch_threshold st * 60;
     on_mismatch_detected := on_mismatch;
     _current_intent := EmptyString;
     _last_check := 0;
     _mismatch_start := None;
     _last_explanation := EmptyString;
     _running := false |}.

Definition set_intent (intent : string) (c : IntentChecker) : IntentChecker :=
  {| check_interval := check_interval c;
     mismatch_threshold := mismatch_threshold c;
     on_mismatch_detected := on_mismatch_detected c;
     _current_intent := strip intent;
     _last_check := _last_check c;
     _mismatch_start := None;
     _last_explanation := EmptyString;
     _running := _running c |}.

Definition clear_intent (c : IntentChecker) : IntentChecker :=
  {| check_interval := check_interval c;
     mismatch_threshold := mismatch_threshold c;
     on_mismatch_detected := on_mismatch_detected c;
     _current_intent := EmptyString;
     _last_check := _last_check c;
     _mismatch_start := None;
     _last_explanation := _last_explanation c;
     _running := _running c |}.

Definition with_running (b : bool) (c : IntentChecker) : IntentChecker :=
  {| check_interval := check_interval c;
     mismatch_threshold := mismatch_threshold c;
     on_mismatch_detected := on_mismatch_detected c;
     _current_intent := _current_intent c;
     _last_check := _last_check c;
     _mismatch_start := _mismatch_start c;
     _last_explanation := _last_explanation c;
     _running := b |}.

(** [start]: refuses when the backend is not available. *)
Definition start (available : bool) (c : IntentChecker)
  : bool * IntentChecker :=
  if negb available then (false, c) else (true, with_running true c).

Definition stop (c : IntentChecker) : IntentChecker := with_running false c.

(** [now - self._mismatch_start] guarded by the truth value of
    [self._mismatch_start] ([None] and [0.0] are both false). *)
Definition duration_since (now : Q) (start : option Q) : Q :=
  match start with
  | Some t => if Qeq_bool t 0 then 0 else now - t
  | None => 0
  end.

Definition is_none {A} (o : option A) : bool :=
  match o with None => true | Some _ => false end.

(** Truth value of [bytes | None]. *)
Definition has_image (image : option (list byte)) : bool :=
  match image with
  | Some (_ :: _) => true
  | _ => false
  end.

(** [IntentChecker.check].  [now] is the clock reading, [image] what
    the screen capture handed over and [response] what
    [analyze_image] returned for it. *)
Definition check (now : Q) (image : option (list byte))
           (response : option string) (c : IntentChecker)
  : IntentState * IntentChecker * list Event :=
  if negb (_running c) || negb (truthy (_current_intent c)) then
    (default_state EmptyString false, c, [])
  else if ltb (now - _last_check c) (check_interval c) then
    ({| current_intent := _current_intent c;
        last_check_time := _last_check c;
        last_match := is_none (_mismatch_start c);
        last_explanation := _last_explanation c;
        mismatch_duration := duration_since now (_mismatch_start c);
        is_enabled := true |}, c, [])
  else if negb (has_image image) then
    (default_state (_current_intent c) true,
     {| check_interval := check_interval c;
        mismatch_threshold := mismatch_threshold c;
        on_mismatch_detected := on_mismatch_detected c;
        _current_intent := _current_intent c;
        _last_check := now;
        _mismatch_start := _mismatch_start c;
        _last_explanation := _last_explanation c;
        _running := _running c |}, [])
  else
    let '(matches, explanation) := Ollama.check_intent_match response in
    let '(mismatch_start, evs) :=
      if matches then (None, [])
      else
        match _mismatch_start c with
        | None => (Some now, [])
        | Some t0 =>
            (Some t0,
             if geb (now - t0) (mismatch_threshold c)
                && on_mismatch_detected c
             then [MismatchDetected (_current_intent c) explanation]
             else [])
        end in
    ({| current_intent := _current_intent c;
        last_check_time := now;
        last_match := matches;
        last_explanation := explanation;
        mismatch_duration := duration_since now mismatch_start;
        is_enabled := true |},
     {| check_interval := check_interval c;
        mismatch_threshold := mismatch_threshold c;
        on_mismatch_detected := on_mismatch_detected c;
        _current_intent := _current_intent c;
        _last_check := now;
        _mismatch_start := mismatch_start;
        _last_explanation := explanation;
        _running := _running c |},
     evs).

(** *** Runs of a checker: one [check] per simulated tick, every
    callback invocation logged with the tick's clock reading. *)
Record TickInput : Type := {
  at_time : Q;
  image : option (list byte);
  response : option string
}.

Fixpoint run (c : IntentChecker) (ticks : list TickInput)
  : IntentChecker * list (Q * Event) :=
  match ticks with
  | [] => (c, [])
  | i :: rest =>
      let '(_, c', evs) := check (at_time i) (image i) (response i) c in
      let '(c'', log) := run c' rest in
      (c'', map (fun e => (at_time i, e)) evs ++ log)
  end.

(** [IntentChecker.get_state]: the state, without a check.  [now] is the
    clock reading made when a mismatch is running. *)
Definition get_state (now : Q) (c : IntentChecker) : IntentState :=
  if negb (truthy (_current_intent c)) then default_state EmptyString false
  else
    {| current_intent := _current_intent c;
       last_check_time := _last_check c;
       last_match := is_none (_mismatch_start c);
       last_explanation := _last_explanation c;
       mismatch_duration := duration_since now (_mismatch_start c);
       is_enabled := true |}.

End Intent.

(* ================================================================== *)
(** ** [opensati/config/settings.py]: loading and saving *)

Module SettingsFile.

Open Scope string_scope.

(** What a YAML document holds, as [yaml.safe_load] returns it and
    [yaml.dump] takes it.  Dataclasses do not check the types of their
    fields, so a field holds whatever value the file gave it. *)
#[warnings="-register-all"]
Inductive value : Type :=
| VNone
| VBool (b : bool)
| VInt (n : Z)
| VFloat (q : Q)
| VStr (s : string)
| VList (l : list value)
| VMap (m : list (string * value)).

(** A mapping with string keys, in the order of the document. *)
Definition mapping : Type := list (string * value).

(** [key in m] and [m.get(key)]. *)
Fixpoint lookup (key : string) (m : mapping) : option value :=
  match m with
  | [] => None
  | (k, v) :: rest => if String.eqb k key then Some v else lookup key rest
  end.

(** [m.get(key, default)]. *)
Definition get (key : string) (default : value) (m : mapping) : value :=
  match lookup key m with
  | Some v => v
  | None => default
  end.

Inductive exn : Set := TypeError | AttributeError.

(** Calling a dataclass constructor with the entries of a mapping as
    keyword arguments: a keyword that is not a field is a [TypeError]. *)
Definition check_kwargs (fields : list string) (kwargs : mapping)
  : option exn :=
  if forallb (fun kv => str_in (fst kv) fields) kwargs then None
  else Some TypeError.

(** Unpacking a section into keyword arguments: the section has to be
    a mapping. *)
Definition as_kwargs (v : value) : exn + mapping :=
  match v with
  | VMap m => inr m
  | _ => inl TypeError
  end.

Record SensorConfig : Type := {
  keyboard : value;
  mouse : value;
  screen : value;
  webcam : value;
  microphone : value
}.

Record DetectionConfig : Type := {
  stress_threshold : value;
  velocity_multiplier : value;
  tab_switch_limit : value;
  baseline_window : value
}.

Record BreathingConfig : Type := {
  min_rate : value;
  max_rate : value;
  analysis_window : value
}.

Record PostureConfig : Type := {
  neck_angle_threshold : value;
  posture_check_interval : value;
  blur_intensity : value
}.

Record IntentConfig : Type := {
  check_interval : value;
  mismatch_threshold : value
}.

Record InterventionConfig : Type := {
  style : value;
  fade_duration : value;
  recovery_method : value;
  cooldown : value
}.

Record AIConfig : Type := {
  model : value;
  vision_model : value;
  timeout : value
}.

Record MeetingConfig : Type := {
  apps : value;
  decompression_duration : value
}.

Record PrivacyConfig : Type := {
  log_content : value;
  screenshot_retention : value;
  network_requests : value
}.

Record Settings : Type := {
  sensors : SensorConfig;
  detection : DetectionConfig;
  breathing : BreathingConfig;
  posture : PostureConfig;
  intent : IntentConfig;
  intervention : InterventionConfig;
  ai : AIConfig;
  meeting : MeetingConfig;
  privacy : PrivacyConfig
}.

(** The dataclass defaults. *)
Definition default_sensors : SensorConfig :=
  {| keyboard := VBool true; mouse := VBool true; screen := VBool false;
     webcam := VBool false; microphone := VBool false |}.

Definition default_detection : DetectionConfig :=
  {| stress_threshold := VInt 50; velocity_multiplier := VFloat (13 # 10);
     tab_switch_limit := VInt 40; baseline_window := VInt 1800 |}.

Definition default_breathing : BreathingConfig :=
  {| min_rate := VInt 8; max_rate := VInt 20; analysis_window := VInt 60 |}.

Definition default_posture : PostureConfig :=
  {| neck_angle_threshold := VInt 15; posture_check_interval := VInt 10;
     blur_intensity := VFloat (7 # 10) |}.

Definition default_intent : IntentConfig :=
  {| check_interval := VInt 30; mismatch_threshold := VInt 2 |}.

Definition default_intervention : InterventionConfig :=
  {| style := VStr "grayscale"; fade_duration := VInt 5;
     recovery_method := VStr "breath"; cooldown := VInt 120 |}.

Definition default_ai : AIConfig :=
  {| model := VStr "llama3"; vision_model := VStr "llava";
     timeout := VInt 10 |}.

Definition default_apps : value :=
  VList [VStr "zoom.us"; VStr "Microsoft Teams"; VStr "Slack";
         VStr "Google Meet"; VStr "FaceTime"].

Definition default_meeting : MeetingConfig :=
  {| apps := default_apps; decompression_duration := VInt 60 |}.

Definition default_privacy : PrivacyConfig :=
  {| log_content := VBool false; screenshot_retention := VInt 0;
     network_requests := VInt 0 |}.

(** [Settings()]. *)
Definition default_settings : Settings :=
  {| sensors := default_sensors;
     detection := default_detection;
     breathing := default_breathing;
     posture := default_posture;
     intent := default_intent;
     intervention := default_intervention;
     ai := default_ai;
     meeting := default_meeting;
     privacy := default_privacy |}.

(** The constructors called with the keywords of a section. *)
Definition make_sensors (v : value) : exn + SensorConfig :=
  match as_kwargs v with
  | inl e => inl e
  | inr kw =>
      match check_kwargs
              ["keyboard"; "mouse"; "screen"; "webcam"; "microphone"] kw with
      | Some e => inl e
      | None =>
          inr {| keyboard := get "keyboard" (keyboard default_sensors) kw;
                 mouse := get "mouse" (mouse default_sensors) kw;
                 screen := get "screen" (screen default_sensors) kw;
                 webcam := get "webcam" (webcam default_sensors) kw;
                 microphone :=
                   get "microphone" (microphone default_sensors) kw |}
      end
  end.

Definition make_detection (v : value) : exn + DetectionConfig :=
  match as_kwargs v with
  | inl e => inl e
  | inr kw =>
      match check_kwargs
              ["stress_threshold"; "velocity_multiplier";
               "tab_switch_limit"; "baseline_window"] kw with
      | Some e => inl e
      | None =>
          inr {| stress_threshold :=
                   get "stress_threshold"
                       (stress_threshold default_detection) kw;
                 velocity_multiplier :=
                   get "velocity_multiplier"
                       (velocity_multiplier default_detection) kw;
                 tab_switch_limit :=
                   get "tab_switch_limit"
                       (tab_switch_limit default_detection) kw;
                 baseline_window :=
                   get "baseline_window"
                       (baseline_window default_detection) kw |}
      end
  end.

Definition make_breathing (v : value) : exn + BreathingConfig :=
  match as_kwargs v with
  | inl e => inl e
  | inr kw =>
      match check_kwargs ["min_rate"; "max_rate"; "analysis_window"] kw with
      | Some e => inl e
      | None =>
          inr {| min_rate := get "min_rate" (min_rate default_breathing) kw;
                 max_rate := get "max_rate" (max_rate default_breathing) kw;
                 analysis_window :=
                   get "analysis_window"
                       (analysis_window default_breathing) kw |}
      end
  end.

Definition make_posture (v : value) : exn + PostureConfig :=
  match as_kwargs v with
  | inl e => inl e
  | inr kw =>
      match check_kwargs
              ["neck_angle_threshold"; "check_interval"; "blur_intensity"]
              kw with
      | Some e => inl e
      | None =>
          inr {| neck_angle_threshold :=
                   get "neck_angle_threshold"
                       (neck_angle_threshold default_posture) kw;
                 posture_check_interval :=
                   get "check_interval"
                       (posture_check_interval default_posture) kw;
                 blur_intensity :=
                   get "blur_intensity" (blur_intensity default_posture) kw |}
      end
  end.

Definition make_intent (v : value) : exn + IntentConfig :=
  match as_kwargs v with
  | inl e => inl e
  | inr kw =>
      match check_kwargs ["check_interval"; "mismatch_threshold"] kw with
      | Some e => inl e
      | None =>
          inr {| check_interval :=
                   get "check_interval" (check_interval default_intent) kw;
                 mismatch_threshold :=
                   get "mismatch_threshold"
                       (mismatch_threshold default_intent) kw |}
      end
  end.

Definition make_intervention (v : value) : exn + InterventionConfig :=
  match as_kwargs v with
  | inl e => inl e
  | inr kw =>
      match check_kwargs
              ["style"; "fade_duration"; "recovery_method"; "cooldown"]
              kw with
      | Some e => inl e
      | None =>
          inr {| style := get "style" (style default_intervention) kw;
                 fade_duration :=
                   get "fade_duration" (fade_duration default_intervention) kw;
                 recovery_method :=
                   get "recovery_method"
                       (recovery_method default_intervention) kw;
                 cooldown := get "cooldown" (cooldown default_intervention) kw |}
      end
  end.

Definition make_ai (v : value) : exn + AIConfig :=
  match as_kwargs v with
  | inl e => inl e
  | inr kw =>
      match check_kwargs ["model"; "vision_model"; "timeout"] kw with
      | Some e => inl e
      | None =>
          inr {| model := get "model" (model default_ai) kw;
                 vision_model := get "vision_model" (vision_model default_ai) kw;
                 timeout := get "timeout" (timeout default_ai) kw |}
      end
  end.

(** The meeting section is read with [.get], which only a mapping has;
    keys it does not know are ignored. *)
Definition make_meeting (v : value) : exn + MeetingConfig :=
  match v with
  | VMap meeting_data =>
      inr {| apps := get "apps" default_apps meeting_data;
             decompression_duration :=
               get "decompression_duration" (VInt 60) meeting_data |}
  | _ => inl AttributeError
  end.

(** One [if "section" in data: settings.section = C(...)]. *)
Definition load_section {C : Type} (key : string) (make : value -> exn + C)
           (data : mapping) (current : C) : exn + C :=
  match lookup key data with
  | None => inr current
  | Some v => make v
  end.

(** [Settings.load] once the file is read: [data] is
    [yaml.safe_load(f) or {}], a mapping.  The sections are assigned one
    after the other inside one [try]; the first exception ends the
    loading, and what was assigned so far is returned. *)
Definition load_data (data : mapping) : Settings :=
  let s := default_settings in
  match load_section "sensors" make_sensors data (sensors s) with
  | inl _ => s
  | inr x1 =>
    let s1 := {| sensors := x1; detection := detection s;
                 breathing := breathing s; posture := posture s;
                 intent := intent s; intervention := intervention s;
                 ai := ai s; meeting := meeting s; privacy := privacy s |} in
    match load_section "detection" make_detection data (detection s1) with
    | inl _ => s1
    | inr x2 =>
      let s2 := {| sensors := x1; detection := x2;
                   breathing := breathing s; posture := posture s;
                   intent := intent s; intervention := intervention s;
                   ai := ai s; meeting := meeting s; privacy := privacy s |} in
      match load_section "breathing" make_breathing data (breathing s2) with
      | inl _ => s2
      | inr x3 =>
        let s3 := {| sensors := x1; detection := x2; breathing := x3;
                     posture := posture s; intent := intent s;
                     intervention := intervention s; ai := ai s;
                     meeting := meeting s; privacy := privacy s |} in
        match load_section "posture" make_posture data (posture s3) with
        | inl _ => s3
        | inr x4 =>
          let s4 := {| sensors := x1; detection := x2; breathing := x3;
                       posture := x4; intent := intent s;
                       intervention := intervention s; ai := ai s;
                       meeting := meeting s; privacy := privacy s |} in
          match load_section "intent" make_intent data (intent s4) with
          | inl _ => s4
          | inr x5 =>
            let s5 := {| sensors := x1; detection := x2; breathing := x3;
                         posture := x4; intent := x5;
                         intervention := intervention s; ai := ai s;
                         meeting := meeting s; privacy := privacy s |} in
            match load_section "intervention" make_intervention data
                               (intervention s5) with
            | inl _ => s5
            | inr x6 =>
              let s6 := {| sensors := x1; detection := x2; breathing := x3;
                           posture := x4; intent := x5; intervention := x6;
                           ai := ai s; meeting := meeting s;
                           privacy := privacy s |} in
              match load_section "ai" make_ai data (ai s6) with
              | inl _ => s6
              | inr x7 =>
                let s7 := {| sensors := x1; detection := x2; breathing := x3;
                             posture := x4; intent := x5; intervention := x6;
                             ai := x7; meeting := meeting s;
                             privacy := privacy s |} in
                match load_section "meeting" make_meeting data
                                   (meeting s7) with
                | inl _ => s7
                | inr x8 =>
                    {| sensors := x1; detection := x2; breathing := x3;
                       posture := x4; intent := x5; intervention := x6;
                       ai := x7; meeting := x8; privacy := privacy s |}
                end
              end
            end
          end
        end
      end
    end
  end.

(** [Settings.save]: the mapping handed to [yaml.dump]. *)
Definition save_data (s : Settings) : mapping :=
  [ ("sensors",
     VMap [ ("keyboard", keyboard (sensors s));
            ("mouse", mouse (sensors s));
            ("screen", screen (sensors s));
            ("webcam", webcam (sensors s));
            ("microphone", microphone (sensors s)) ]);
    ("detection",
     VMap [ ("stress_threshold", stress_threshold (detection s));
            ("velocity_multiplier", velocity_multiplier (detection s));
            ("tab_switch_limit", tab_switch_limit (detection s));
            ("baseline_window", baseline_window (detection s)) ]);
    ("intervention",
     VMap [ ("style", style (intervention s));
            ("fade_duration", fade_duration (intervention s));
            ("recovery_method", recovery_method (intervention s));
            ("cooldown", cooldown (intervention s)) ]);
    ("ai",
     VMap [ ("model", model (ai s));
            ("vision_model", vision_model (ai s));
            ("timeout", timeout (ai s)) ]) ].

End SettingsFile.

(* ================================================================== *)
(** ** [opensati/core/mac_input.py] *)

Module MacInput.

Record MacInputMonitor : Type := {
  window_size : Q;
  _event_times : list Q;
  _running : bool
}.

(** The callback of the event tap: the time of the event is recorded. *)
Definition record_event (now : Q) (m : MacInputMonitor) : MacInputMonitor :=
  {| window_size := window_size m;
     _event_times := deque_append 500 (_event_times m) now;
     _running := _running m |}.

(** [MacInputMonitor.get_events_per_second]. *)
Definition get_events_per_second (now : Q) (m : MacInputMonitor) : result Q :=
  let window_start := now - window_size m in
  let recent := Sensors.count_recent window_start (_event_times m) in
  truediv (inject_Z recent) (window_size m).

(** [MacInputMonitor.get_intensity]. *)
Definition get_intensity (now : Q) (m : MacInputMonitor) : result Q :=
  bind (get_events_per_second now m) (fun eps => Ok (Py.min 100 (eps * 20))).

End MacInput.

(* ================================================================== *)
(** ** [opensati/core/audio.py] *)

Module Audio.

Record BreathingState : Type := {
  breaths_per_minute : Q;
  is_stressed : bool;
  is_too_slow : bool;
  confidence : Q;
  is_enabled : bool
}.

(** [BreathingState(is_enabled=...)] with the remaining defaults. *)
Definition default_state (enabled : bool) : BreathingState :=
  {| breaths_per_minute := 0;
     is_stressed := false;
     is_too_slow := false;
     confidence := 0;
     is_enabled := enabled |}.

(** The status a stream callback hands back to the audio library. *)
Inductive PaStatus : Set := paComplete | paContinue.

(** Invocations of the two callbacks, with the rate they are given. *)
Inductive BreathingEvent : Type :=
| StressDetected (rate : Q)
| SlowBreathing (rate : Q).

Section Chunks.

(** A chunk of samples, as the audio library delivers it. *)
Variable chunk : Type.

Record AudioSensor : Type := {
  min_rate : Q;
  max_rate : Q;
  sample_rate : Z;
  chunk_size : Z;
  analysis_window : Z;
  on_stress_detected : bool;
  on_slow_breathing : bool;
  _running : bool;
  _audio_buffer : list chunk;
  _last_rate : Q
}.

Definition with_buffer (b : list chunk) (a : AudioSensor) : AudioSensor :=
  {| min_rate := min_rate a;
     max_rate := max_rate a;
     sample_rate := sample_rate a;
     chunk_size := chunk_size a;
     analysis_window := analysis_window a;
     on_stress_detected := on_stress_detected a;
     on_slow_breathing := on_slow_breathing a;
     _running := _running a;
     _audio_buffer := b;
     _last_rate := _last_rate a |}.

(** [AudioSensor._audio_callback]. *)
Definition _audio_callback (audio_data : chunk) (a : AudioSensor)
  : result PaStatus * AudioSensor :=
  if negb (_running a) then (Ok paComplete, a)
  else
    let a1 := with_buffer (_audio_buffer a ++ [audio_data]) a in
    match floordiv (sample_rate a * analysis_window a) (chunk_size a) with
    | Raise e => (Raise e, a1)
    | Ok max_chunks =>
        if (max_chunks <? Z.of_nat (List.length (_audio_buffer a1)))%Z
        then (Ok paContinue,
              with_buffer (slice_from (- max_chunks) (_audio_buffer a1)) a1)
        else (Ok paContinue, a1)
    end.

(** [AudioSensor.get_state].  [estimate] is the [(rate, confidence)]
    that [_estimate_breathing_rate] computes from the buffer, [None]
    when the signal processing raises. *)
Definition get_state (estimate : option (Q * Q)) (a : AudioSensor)
  : BreathingState * AudioSensor :=
  if negb (_running a) then (default_state false, a)
  else
    match estimate with
    | None => (default_state true, a)
    | Some (rate, conf) =>
        ({| breaths_per_minute := rate;
            is_stressed := gtb rate (max_rate a) && gtb conf (1 # 2);
            is_too_slow := ltb rate (min_rate a) && gtb conf (1 # 2);
            confidence := conf;
            is_enabled := true |},
         {| min_rate := min_rate a;
            max_rate := max_rate a;
            sample_rate := sample_rate a;
            chunk_size := chunk_size a;
            analysis_window := analysis_window a;
            on_stress_detected := on_stress_detected a;
            on_slow_breathing := on_slow_breathing a;
            _running := _running a;
            _audio_buffer := _audio_buffer a;
            _last_rate := rate |})
    end.

(** [AudioSensor.check_breathing]. *)
Definition check_breathing (estimate : option (Q * Q)) (a : AudioSensor)
  : option Q * AudioSensor * list BreathingEvent :=
  let '(state, a') := get_state estimate a in
  if negb (is_enabled state) || ltb (confidence state) (1 # 2) then
    (None, a', [])
  else if is_stressed state then
    (Some (Py.min 100 ((breaths_per_minute state - max_rate a) / 10 * 100)),
     a',
     if on_stress_detected a
     then [StressDetected (breaths_per_minute state)] else [])
  else if is_too_slow state then
    (Some 50, a',
     if on_slow_breathing a
     then [SlowBreathing (breaths_per_minute state)] else [])
  else (None, a', []).

End Chunks.

End Audio.

(* ================================================================== *)
(** ** [opensati/interventions/decompression.py] *)

Module Decompression.

(** [DecompressionScreen].  Of the window only its existence matters to
    the logic: [_window] tells whether one has been created and not yet
    destroyed. *)
Record DecompressionScreen : Type := {
  duration : Z;
  meeting_apps : list string;
  on_complete : bool;
  on_skip : bool;
  _window : bool;
  _active : bool;
  _remaining : Z;
  _was_in_meeting : bool;
  _running : bool
}.

(** Invocations of the two callbacks. *)
Inductive Event : Set := Completed | Skipped.

(** [DecompressionScreen._check_meeting_active]: [names] are the names of
    the running processes, [None] for a process without one. *)
Definition _check_meeting_active (names : list (option string))
           (d : DecompressionScreen) : bool :=
  existsb (fun name =>
             match name with
             | None => false
             | Some n =>
                 truthy n
                 && existsb (fun app => substring_in (lower app) (lower n))
                            (meeting_apps d)
             end) names.

(** [DecompressionScreen.hide]. *)
Definition hide (d : DecompressionScreen) : DecompressionScreen :=
  {| duration := duration d;
     meeting_apps := meeting_apps d;
     on_complete := on_complete d;
     on_skip := on_skip d;
     _window := false;
     _active := false;
     _remaining := _remaining d;
     _was_in_meeting := _was_in_meeting d;
     _running := _running d |}.

(** [DecompressionScreen._countdown]: one firing of the timer.  The
    boolean tells whether the next firing was scheduled. *)
Definition _countdown (d : DecompressionScreen)
  : DecompressionScreen * list Event * bool :=
  if negb (_active d) || negb (_window d) then (d, [], false)
  else if (_remaining d <=? 0)%Z then
    (hide d, if on_complete d then [Completed] else [], false)
  else
    ({| duration := duration d;
        meeting_apps := meeting_apps d;
        on_complete := on_complete d;
        on_skip := on_skip d;
        _window := _window d;
        _active := _active d;
        _remaining := (_remaining d - 1)%Z;
        _was_in_meeting := _was_in_meeting d;
        _running := _running d |}, [], true).

(** [DecompressionScreen.show]: the window is created, and the countdown
    started, only when the caller is the main thread. *)
Definition show (on_main_thread : bool) (d : DecompressionScreen)
  : DecompressionScreen * list Event * bool :=
  if _active d then (d, [], false)
  else
    let d1 :=
      {| duration := duration d;
         meeting_apps := meeting_apps d;
         on_complete := on_complete d;
         on_skip := on_skip d;
         _window := _window d;
         _active := true;
         _remaining := duration d;
         _was_in_meeting := _was_in_meeting d;
         _running := _running d |} in
    if on_main_thread then
      _countdown
        {| duration := duration d1;
           meeting_apps := meeting_apps d1;
           on_complete := on_complete d1;
           on_skip := on_skip d1;
           _window := true;
           _active := _active d1;
           _remaining := _remaining d1;
           _was_in_meeting := _was_in_meeting d1;
           _running := _running d1 |}
    else (d1, [], false).

(** [DecompressionScreen._skip]. *)
Definition _skip (d : DecompressionScreen)
  : DecompressionScreen * list Event :=
  (hide d, if on_skip d then [Skipped] else []).

(** One turn of the loop of the monitor thread started by
    [start_monitoring]: [names] is what the process list shows. *)
Definition monitor_step (names : list (option string))
           (d : DecompressionScreen) : DecompressionScreen * list Event :=
  let in_meeting := _check_meeting_active names d in
  let '(d1, evs, _) :=
    if _was_in_meeting d && negb in_meeting then show false d
    else (d, [], false) in
  ({| duration := duration d1;
      meeting_apps := meeting_apps d1;
      on_complete := on_complete d1;
      on_skip := on_skip d1;
      _window := _window d1;
      _active := _active d1;
      _remaining := _remaining d1;
      _was_in_meeting := in_meeting;
      _running := _running d1 |}, evs).

(** The timer firing as long as it is rescheduled, at most [n] times. *)
Fixpoint fire (n : nat) (d : DecompressionScreen)
  : DecompressionScreen * list Event :=
  match n with
  | O => (d, [])
  | S n' =>
      let '(d1, evs, again) := _countdown d in
      if again then
        let '(d2, log) := fire n' d1 in (d2, evs ++ log)
      else (d1, evs)
  end.

(** The loop of the monitor thread, [while self._running], over
    successive views of the process list. *)
Fixpoint monitor (views : list (list (option string)))
         (d : DecompressionScreen) : DecompressionScreen * list Event :=
  match views with
  | [] => (d, [])
  | names :: rest =>
      if _running d then
        let '(d1, evs) := monitor_step names d in
        let '(d2, log) := monitor rest d1 in
        (d2, evs ++ log)
      else (d, [])
  end.

End Decompression.

(* ================================================================== *)
(** ** [opensati/core/vision.py] *)

Module Vision.

(** *** [ScreenCapture]

    The screenshot is an array of pixels of some type [image]; turning it
    into JPEG bytes is the work of an imaging library, [encode_jpeg]. *)
Section Screen.

Variable image : Type.
Variable encode_jpeg : image -> list byte.

Record ScreenCapture : Type := {
  _last_capture : option image
}.

(** [ScreenCapture.capture]: [grabbed] is the downscaled screenshot, or
    [None] when grabbing or converting raised. *)
Definition capture (grabbed : option image) (sc : ScreenCapture)
  : option image * ScreenCapture :=
  match grabbed with
  | Some img => (Some img, {| _last_capture := Some img |})
  | None => (None, sc)
  end.

(** [ScreenCapture.get_for_ai]. *)
Definition get_for_ai (sc : ScreenCapture) : option (list byte) :=
  match _last_capture sc with
  | None => None
  | Some img => Some (encode_jpeg img)
  end.

(** [ScreenCapture.clear]. *)
Definition clear (sc : ScreenCapture) : ScreenCapture :=
  {| _last_capture := None |}.

End Screen.

Arguments _last_capture {image} _.
Arguments capture {image} _ _.
Arguments get_for_ai {image} _ _.
Arguments clear {image} _.

(** *** [PostureDetector] *)

Record PostureState : Type := {
  neck_angle : Q;
  is_good_posture : bool;
  face_detected : bool;
  is_enabled : bool
}.

Record PostureDetector : Type := {
  neck_angle_threshold : Q;
  check_interval : Q;
  on_bad_posture : bool;
  on_posture_corrected : bool;
  _running : bool;
  _last_check : Q;
  _last_angle : Q;
  _was_bad_posture : bool
}.

(** Invocations of the two callbacks. *)
Inductive PostureEvent : Type :=
| BadPosture (angle : Q)
| PostureCorrected.

(** [PostureDetector.check_posture].  [now] is the clock reading and
    [detection] the [(neck_angle, face_detected)] that [_detect_posture]
    would return from the camera. *)
Definition check_posture (now : Q) (detection : Q * bool)
           (p : PostureDetector)
  : PostureState * PostureDetector * list PostureEvent :=
  if negb (_running p) then
    ({| neck_angle := 0; is_good_posture := true; face_detected := false;
        is_enabled := false |}, p, [])
  else if ltb (now - _last_check p) (check_interval p) then
    ({| neck_angle := _last_angle p;
        is_good_posture := ltb (_last_angle p) (neck_angle_threshold p);
        face_detected := true;
        is_enabled := true |}, p, [])
  else
    let '(angle, detected) := detection in
    let is_bad := gtb angle (neck_angle_threshold p) in
    let evs :=
      if is_bad && negb (_was_bad_posture p) then
        if on_bad_posture p then [BadPosture angle] else []
      else if negb is_bad && _was_bad_posture p then
        if on_posture_corrected p then [PostureCorrected] else []
      else [] in
    ({| neck_angle := angle;
        is_good_posture := negb is_bad;
        face_detected := detected;
        is_enabled := true |},
     {| neck_angle_threshold := neck_angle_threshold p;
        check_interval := check_interval p;
        on_bad_posture := on_bad_posture p;
        on_posture_corrected := on_posture_corrected p;
        _running := _running p;
        _last_check := now;
        _last_angle := angle;
        _was_bad_posture := is_bad |},
     evs).

(** Runs of a posture detector: one [check_posture] per tick. *)
Fixpoint run (p : PostureDetector) (ticks : list (Q * (Q * bool)))
  : PostureDetector * list PostureEvent :=
  match ticks with
  | [] => (p, [])
  | (now, detection) :: rest =>
      let '(_, p', evs) := check_posture now detection p in
      let '(p'', log) := run p' rest in
      (p'', evs ++ log)
  end.

End Vision.

(* ================================================================== *)
(** ** [opensati/ai/intent.py] with its screen capture *)

Module IntentScreen.

Section Screen.

Variable image : Type.
Variable encode_jpeg : image -> list byte.

(** Lines 97-135 of [IntentChecker.check] as far as the checker's own
    [_screen_capture] is concerned: it is asked to capture only when a
    check is due, its JPEG bytes are what the checker analyses, and it is
    cleared once the judgment has been asked.  [grabbed] is what the
    screen would yield. *)
Definition check (now : Q) (grabbed : option image)
           (response : option string)
           (c : Intent.IntentChecker) (sc : Vision.ScreenCapture image)
  : Intent.IntentState * Intent.IntentChecker
    * Vision.ScreenCapture image * list Intent.Event :=
  let due :=
    Intent._running c && truthy (Intent._current_intent c)
    && negb (ltb (now - Intent._last_check c) (Intent.check_interval c)) in
  let sc1 := if due then snd (Vision.capture grabbed sc) else sc in
  let image_bytes := Vision.get_for_ai encode_jpeg sc1 in
  let '(st, c', evs) := Intent.check now image_bytes response c in
  (st, c',
   if due && Intent.has_image image_bytes then Vision.clear sc1 else sc1,
   evs).

(** One [check] per tick. *)
Fixpoint run (c : Intent.IntentChecker) (sc : Vision.ScreenCapture image)
         (ticks : list (Q * option image * option string))
  : Intent.IntentChecker * Vision.ScreenCapture image :=
  match ticks with
  | [] => (c, sc)
  | (now, grabbed, response) :: rest =>
      let '(_, c', sc', _) := check now grabbed response c sc in
      run c' sc' rest
  end.

End Screen.

End IntentScreen.

(* ================================================================== *)
(** ** Vocabulary of the properties *)

(** The spec's words for the windowed rate: the stored events with
    [timestamp > now - window_seconds], counted and divided by
    [window_seconds]. *)
Definition events_in_window (now window_seconds : Q) (times : list Q)
  : list Q :=
  filter (fun t => if Qlt_le_dec (now - window_seconds) t then true else false)
         times.

Definition rate_in_window (now window_seconds : Q) (times : list Q) : Q :=
  inject_Z (Z.of_nat (List.length (events_in_window now window_seconds times)))
  / window_seconds.


(** One evaluation of the arbiter on given sub-scores: the state
    [get_state] builds from them, handed to lines 129-146 of
    [check_and_intervene].  [check_and_intervene] itself is the instance
    where the input score comes from the sensor and the other two are the
    placeholders; this form also covers the levels those placeholders keep
    out of reach. *)
Record Reading : Type := {
  at_now : Q;
  input : Q;
  breathing : Q;
  posture : Q;
  at_fire : Q
}.

Definition evaluate (r : Reading) (d : Detector.StressDetector)
  : bool * Detector.StressDetector * list Detector.Event :=
  Detector.check_and_intervene_on
    (Detector.state_of (at_now r) (input r) (breathing r) (posture r) d)
    (at_fire r) d.

Fixpoint evaluate_all (d : Detector.StressDetector) (rs : list Reading)
  : Detector.StressDetector * list Detector.Outcome :=
  match rs with
  | [] => (d, [])
  | r :: rest =>
      let '(f, d', evs) := evaluate r d in
      let '(d'', outs) := evaluate_all d' rest in
      (d'', {| Detector.fire_time := at_fire r;
               Detector.returned := Ok f;
               Detector.emitted := evs |} :: outs)
  end.

(** The level an evaluation sees. *)
Definition reading_level (r : Reading) : Detector.StressLevel :=
  Detector.level_of (Detector.fuse (input r) (breathing r) (posture r)).

(** The spec's words for the calm-restored rule, along a sequence of
    levels: one event on each tick whose level is CALM while the level
    before it was HIGH or CRITICAL, none on any other tick. *)
Fixpoint calm_transitions (prev : Detector.StressLevel)
         (levels : list Detector.StressLevel) : list nat :=
  match levels with
  | [] => []
  | l :: rest =>
      (match prev, l with
       | Detector.HIGH, Detector.CALM | Detector.CRITICAL, Detector.CALM => 1
       | _, _ => 0
       end)%nat :: calm_transitions l rest
  end.

(** Readings whose levels are CALM, CALM, HIGH, CALM. *)
Definition calm_calm_high_calm : list Reading :=
  [ {| at_now := 1000; input := 20; breathing := 0; posture := 0;
       at_fire := 1000 |};
    {| at_now := 1002; input := 20; breathing := 0; posture := 0;
       at_fire := 1002 |};
    {| at_now := 1004; input := 100; breathing := 100; posture := 0;
       at_fire := 1004 |};
    {| at_now := 1006; input := 20; breathing := 0; posture := 0;
       at_fire := 1006 |} ].

(** A clock that never goes back: in program order, the readings of the
    evaluations from [lb] on are non-decreasing. *)
Fixpoint monotone_clock (lb : Q) (rs : list Reading) : Prop :=
  match rs with
  | [] => True
  | r :: rest =>
      lb <= at_now r /\ at_now r <= at_fire r
      /\ monotone_clock (at_fire r) rest
  end.

(** The input sensor, when there is one, has a non-zero window and a
    non-zero threshold: none of its divisions raises. *)
Definition sensor_ok (d : Detector.StressDetector) : Prop :=
  match Detector._input_sensor d with
  | None => True
  | Some s => ~ Sensors.window_size s == 0 /\ ~ Sensors.stress_threshold s == 0
  end.

(** The detector's level is one of the two lowest. *)
Definition low (l : Detector.StressLevel) : Prop :=
  l = Detector.CALM \/ l = Detector.MODERATE.

(** Number of [CalmRestored] callbacks in a log. *)
Definition calm_restored_count (evs : list Detector.Event) : nat :=
  List.length (filter Detector.is_calm_restored evs).

(** Number of [on_stress_detected] callbacks in a log. *)
Definition stress_detected_count (evs : list Detector.Event) : nat :=
  List.length (filter Detector.is_stress_detected evs).

(** A detector as [StressDetector(settings=Settings(), ...)] builds it,
    with both callbacks installed. *)
Definition example_detector : Detector.StressDetector :=
  {| Detector.settings := default_settings;
     Detector.on_stress_detected := true;
     Detector.on_calm_restored := true;
     Detector._input_sensor :=
       Some {| Sensors.window_size := 10;
               Sensors.baseline_duration := 1800;
               Sensors.stress_threshold := 50;
               Sensors.on_stress_detected := false;
               Sensors._keystroke_times := [];
               Sensors._click_times := [];
               Sensors._baseline_samples := [];
               Sensors._running := false;
               Sensors._start_time := 0 |};
     Detector._last_intervention_time := 0;
     Detector._current_level := Detector.CALM |}.

(** The sensor is started, sixty keys are pressed within one second, and
    the monitoring loop queries and ticks twice. *)
Definition example_actions : list Detector.Action :=
  Detector.Start 999 :: repeat (Detector.KeyPress 1000) 60
  ++ [Detector.GetState 1001 1001; Detector.Tick 1001 1001 1001;
      Detector.GetState 1200 1200; Detector.Tick 1200 1200 1200].

(** *** The intent-mismatch scenario

    Settings with a 30-second [check_interval] and a 120-minute
    [mismatch_threshold]; a checker built from them with the callback
    installed, started, and given the intent "debugging". *)
Definition scenario_settings : Settings :=
  {| sensors_keyboard := true;
     sensors_mouse := true;
     detection_stress_threshold := 50;
     detection_baseline_window := 1800;
     intervention_cooldown := 120;
     intent_check_interval := 30;
     intent_mismatch_threshold := 120 |}.

Definition scenario_checker : Intent.IntentChecker :=
  Intent.set_intent "debugging"
    (snd (Intent.start true (Intent.new scenario_settings true))).

(** The clock at tick [k] of a simulation that starts at [t0] and calls
    [check] every 30 seconds. *)
Definition tick_time (t0 : Q) (k : nat) : Q :=
  t0 + 30 * inject_Z (Z.of_nat k).

Definition scenario_tick (t0 : Q) (img : option (list byte))
           (resp : option string) (k : nat) : Intent.TickInput :=
  {| Intent.at_time := tick_time t0 k;
     Intent.image := img;
     Intent.response := resp |}.

(** 125 minutes of ticks: [k = 0 .. 250], each with the same screen
    capture and the same answer of the backend. *)
Definition scenario_ticks (t0 : Q) (img : option (list byte))
           (resp : option string) : list Intent.TickInput :=
  map (scenario_tick t0 img resp) (seq 0 251).

(** The checker of the scenario after the check of tick [k]. *)
Definition scenario_checker_after (t0 : Q) (e : string) (k : nat)
  : Intent.IntentChecker :=
  {| Intent.check_interval := 30;
     Intent.mismatch_threshold := 120 * 60;
     Intent.on_mismatch_detected := true;
     Intent._current_intent := "debugging";
     Intent._last_check := tick_time t0 k;
     Intent._mismatch_start := Some (tick_time t0 0);
     Intent._last_explanation := e;
     Intent._running := true |}.

(** The judgment is consulted by [check]: the checker runs, has an
    intent, the interval has elapsed and a screen capture is there. *)
Definition consulted (now : Q) (img : option (list byte))
           (c : Intent.IntentChecker) : Prop :=
  Intent._running c = true
  /\ truthy (Intent._current_intent c) = true
  /\ Intent.check_interval c <= now - Intent._last_check c
  /\ Intent.has_image img = true.

(** A checker two hours and a half into a mismatch. *)
Definition late_checker : Intent.IntentChecker :=
  {| Intent.check_interval := 30;
     Intent.mismatch_threshold := 120 * 60;
     Intent.on_mismatch_detected := true;
     Intent._current_intent := "debugging";
     Intent._last_check := 9970;
     Intent._mismatch_start := Some 1000;
     Intent._last_explanation := "SOCIAL MEDIA";
     Intent._running := true |}.

(** *** Bursts of input

    Key presses and (pressed) clicks, in the order the listeners deliver
    them. *)
Definition press_keys (ts : list Q) (s : Sensors.InputSensor)
  : Sensors.InputSensor :=
  fold_left (fun s t => Sensors._on_key_press t s) ts s.

Definition press_clicks (ts : list Q) (s : Sensors.InputSensor)
  : Sensors.InputSensor :=
  fold_left (fun s t => Sensors._on_mouse_click t true s) ts s.

(** The last [n] elements of a list. *)
Definition last_n {A} (n : nat) (l : list A) : list A :=
  skipn (List.length l - n) l.

(** A sensor in the middle of a session. *)
Definition example_sensor_running : Sensors.InputSensor :=
  {| Sensors.window_size := 10;
     Sensors.baseline_duration := 300;
     Sensors.stress_threshold := 50;
     Sensors.on_stress_detected := false;
     Sensors._keystroke_times := [995; 999];
     Sensors._click_times := [998];
     Sensors._baseline_samples := [1 # 5];
     Sensors._running := true;
     Sensors._start_time := 900 |}.

(** The order of the levels. *)
Definition rank (l : Detector.StressLevel) : nat :=
  match l with
  | Detector.CALM => 0
  | Detector.MODERATE => 1
  | Detector.HIGH => 2
  | Detector.CRITICAL => 3
  end.

(** What a caller of [check_and_intervene] can observe of a tick: what it
    returned, the callbacks it invoked, and the level and intervention
    time it left behind. *)
Definition tick_outcome (now now_sensor now_fire : Q)
           (d : Detector.StressDetector)
  : result bool * list Detector.Event * Detector.StressLevel * Q :=
  let '(r, d', evs) :=
    Detector.check_and_intervene now now_sensor now_fire d in
  (r, evs, Detector._current_level d', Detector._last_intervention_time d').

(** A string of ASCII blanks only (the empty string included). *)
Fixpoint blank (s : string) : bool :=
  match s with
  | EmptyString => true
  | String a r => is_space a && blank r
  end.

(** The checker with its last check moved to [now]. *)
Definition checked_at (now : Q) (c : Intent.IntentChecker)
  : Intent.IntentChecker :=
  {| Intent.check_interval := Intent.check_interval c;
     Intent.mismatch_threshold := Intent.mismatch_threshold c;
     Intent.on_mismatch_detected := Intent.on_mismatch_detected c;
     Intent._current_intent := Intent._current_intent c;
     Intent._last_check := now;
     Intent._mismatch_start := Intent._mismatch_start c;
     Intent._last_explanation := Intent._last_explanation c;
     Intent._running := Intent._running c |}.

(** A checker with a one-minute threshold, no mismatch running, and
    three ticks half a minute apart on which the backend says no. *)
Definition quick_checker : Intent.IntentChecker :=
  {| Intent.check_interval := 30;
     Intent.mismatch_threshold := 1 * 60;
     Intent.on_mismatch_detected := true;
     Intent._current_intent := "writing";
     Intent._last_check := 0;
     Intent._mismatch_start := None;
     Intent._last_explanation := EmptyString;
     Intent._running := true |}.

Definition no_at (t : Q) : Intent.TickInput :=
  {| Intent.at_time := t;
     Intent.image := Some [x00];
     Intent.response := Some "NO: games"%string |}.

(** A client that has not probed the backend yet, and a backend that
    lists the two default models. *)
Definition example_client : Ollama.OllamaClient :=
  {| Ollama.model := "llama3";
     Ollama.vision_model := "llava";
     Ollama._available := None |}.

Definition example_listing : Ollama.Probe :=
  Ollama.Listing ["llama3:latest"%string; "llava:7b"%string].

(** A reply of the backend to the sentiment prompt, on two lines. *)
Definition example_sentiment_reply : string :=
  ("SENTIMENT: Aggressive" ++ String "010" "REFRAME: Could we talk?")%string.

(** Bad-posture and posture-corrected callbacks take turns, the first
    being a bad-posture one unless the posture [was_bad] already. *)
Fixpoint alternates (was_bad : bool) (evs : list Vision.PostureEvent)
  : Prop :=
  match evs with
  | [] => True
  | Vision.BadPosture _ :: rest => was_bad = false /\ alternates true rest
  | Vision.PostureCorrected :: rest =>
      was_bad = true /\ alternates false rest
  end.

(** A posture detector in use, with a threshold of 15 degrees. *)
Definition example_posture : Vision.PostureDetector :=
  {| Vision.neck_angle_threshold := 15;
     Vision.check_interval := 10;
     Vision.on_bad_posture := true;
     Vision.on_posture_corrected := true;
     Vision._running := true;
     Vision._last_check := 0;
     Vision._last_angle := 0;
     Vision._was_bad_posture := false |}.

(** An input monitor with the default ten-second window. *)
Definition example_monitor : MacInput.MacInputMonitor :=
  {| MacInput.window_size := 10;
     MacInput._event_times := repeat 995 60;
     MacInput._running := true |}.

(** An audio sensor with the default rates and stream parameters, whose
    chunks are lists of samples. *)
Definition example_audio : Audio.AudioSensor (list Q) :=
  {| Audio.min_rate := 8;
     Audio.max_rate := 20;
     Audio.sample_rate := 44100;
     Audio.chunk_size := 1024;
     Audio.analysis_window := 60;
     Audio.on_stress_detected := true;
     Audio.on_slow_breathing := true;
     Audio._running := true;
     Audio._audio_buffer := [];
     Audio._last_rate := 0 |}.

Definition example_audio_stopped : Audio.AudioSensor (list Q) :=
  {| Audio.min_rate := 8;
     Audio.max_rate := 20;
     Audio.sample_rate := 44100;
     Audio.chunk_size := 1024;
     Audio.analysis_window := 60;
     Audio.on_stress_detected := true;
     Audio.on_slow_breathing := true;
     Audio._running := false;
     Audio._audio_buffer := [];
     Audio._last_rate := 0 |}.

(** Settings with every section away from its defaults. *)
Definition example_file_settings : SettingsFile.Settings :=
  {| SettingsFile.sensors :=
       {| SettingsFile.keyboard := SettingsFile.VBool true;
          SettingsFile.mouse := SettingsFile.VBool false;
          SettingsFile.screen := SettingsFile.VBool true;
          SettingsFile.webcam := SettingsFile.VBool false;
          SettingsFile.microphone := SettingsFile.VBool false |};
     SettingsFile.detection :=
       {| SettingsFile.stress_threshold := SettingsFile.VInt 75;
          SettingsFile.velocity_multiplier := SettingsFile.VFloat (3 # 2);
          SettingsFile.tab_switch_limit := SettingsFile.VInt 40;
          SettingsFile.baseline_window := SettingsFile.VInt 600 |};
     SettingsFile.breathing := SettingsFile.default_breathing;
     SettingsFile.posture := SettingsFile.default_posture;
     SettingsFile.intent :=
       {| SettingsFile.check_interval := SettingsFile.VInt 60;
          SettingsFile.mismatch_threshold := SettingsFile.VInt 120 |};
     SettingsFile.intervention :=
       {| SettingsFile.style := SettingsFile.VStr "blur";
          SettingsFile.fade_duration := SettingsFile.VInt 5;
          SettingsFile.recovery_method := SettingsFile.VStr "breath";
          SettingsFile.cooldown := SettingsFile.VInt 300 |};
     SettingsFile.ai := SettingsFile.default_ai;
     SettingsFile.meeting := SettingsFile.default_meeting;
     SettingsFile.privacy :=
       {| SettingsFile.log_content := SettingsFile.VBool true;
          SettingsFile.screenshot_retention := SettingsFile.VInt 7;
          SettingsFile.network_requests := SettingsFile.VInt 1 |} |}.

(** A file whose first section misspells a key. *)
Definition example_misspelt_file : SettingsFile.mapping :=
  [ ("sensors"%string,
     SettingsFile.VMap [ ("keyboard"%string, SettingsFile.VBool false);
                         ("camera"%string, SettingsFile.VBool true) ]);
    ("intervention"%string,
     SettingsFile.VMap [ ("cooldown"%string, SettingsFile.VInt 300) ]) ].

(** A decompression screen as the application builds it, not shown. *)
Definition example_screen : Decompression.DecompressionScreen :=
  {| Decompression.duration := 60;
     Decompression.meeting_apps :=
       ["zoom.us"%string; "Microsoft Teams"%string; "Slack"%string;
        "Google Meet"%string; "FaceTime"%string];
     Decompression.on_complete := true;
     Decompression.on_skip := true;
     Decompression._window := false;
     Decompression._active := false;
     Decompression._remaining := 0;
     Decompression._was_in_meeting := false;
     Decompression._running := true |}.

(** The same screen while a meeting is known to be going on. *)
Definition example_screen_in_meeting : Decompression.DecompressionScreen :=
  {| Decompression.duration := 60;
     Decompression.meeting_apps :=
       ["zoom.us"%string; "Microsoft Teams"%string; "Slack"%string;
        "Google Meet"%string; "FaceTime"%string];
     Decompression.on_complete := true;
     Decompression.on_skip := true;
     Decompression._window := false;
     Decompression._active := false;
     Decompression._remaining := 0;
     Decompression._was_in_meeting := true;
     Decompression._running := true |}.



(** A sensor with five keystrokes and two clicks in its buffers, one of
    each exactly ten seconds before the clock reading 100. *)
Definition example_sensor_window : Sensors.InputSensor :=
  {| Sensors.window_size := 10;
     Sensors.baseline_duration := 300;
     Sensors.stress_threshold := 50;
     Sensors.on_stress_detected := false;
     Sensors._keystroke_times := [85; 90; 95; 96; 99];
     Sensors._click_times := [90; 91];
     Sensors._baseline_samples := [];
     Sensors._running := true;
     Sensors._start_time := 0 |}.

(* ================================================================== *)
(** * Properties *)

Import Detector.

(** ** The model on concrete inputs *)

Example deque_append_drops_oldest :
  deque_append 3 [1; 2; 3] 4 = [2; 3; 4] /\ deque_append 3 [1] 2 = [1; 2].
Proof. split; reflexivity. Qed.

Example check_intent_match_yes :
  Ollama.check_intent_match (Some "  yes: writing code "%string)
  = (true, "WRITING CODE"%string).
Proof. reflexivity. Qed.

Example check_intent_match_no_colon :
  Ollama.check_intent_match (Some "no"%string) = (false, "NO"%string).
Proof. reflexivity. Qed.

Example check_intent_match_two_colons :
  Ollama.check_intent_match (Some "No: video: trailer"%string)
  = (false, "VIDEO: TRAILER"%string).
Proof. reflexivity. Qed.

(** An answer of blanks only is not an absent answer: it is read as a
    mismatch with an empty explanation. *)
Example check_intent_match_blank :
  Ollama.check_intent_match (Some "   "%string) = (false, EmptyString).
Proof. reflexivity. Qed.

Example level_of_boundaries :
  map level_of [0; 29999 # 1000; 30; 59999 # 1000; 60; 84999 # 1000; 85; 100]
  = [CALM; CALM; MODERATE; MODERATE; HIGH; HIGH; CRITICAL; CRITICAL].
Proof. reflexivity. Qed.

Example example_run_reaches_moderate :
  match fst (get_state 1001 1001
               (fst (run example_detector (firstn 61 example_actions)))) with
  | Ok st => level st = MODERATE /\ score st == 50 /\ input_score st == 100
  | Raise _ => False
  end
  /\ map returned (snd (run example_detector example_actions))
     = [Ok false; Ok false].
Proof. vm_compute. repeat split; discriminate. Qed.

(** ** Comparisons and arithmetic helpers *)

Lemma ltb_lt (x y : Q) : ltb x y = true <-> x < y.
Proof.
  unfold ltb. rewrite negb_true_iff, <- not_true_iff_false, Qle_bool_iff.
  split; [apply Qnot_le_lt | apply Qlt_not_le].
Qed.

Lemma ltb_ge (x y : Q) : ltb x y = false <-> y <= x.
Proof.
  unfold ltb. rewrite negb_false_iff. apply Qle_bool_iff.
Qed.

Lemma gtb_gt (x y : Q) : gtb x y = true <-> y < x.
Proof. apply ltb_lt. Qed.

Lemma gtb_le (x y : Q) : gtb x y = false <-> x <= y.
Proof. apply ltb_ge. Qed.

Lemma geb_ge (x y : Q) : geb x y = true <-> y <= x.
Proof. apply Qle_bool_iff. Qed.

Lemma ltb_cases (x y : Q) :
  (ltb x y = true /\ x < y) \/ (ltb x y = false /\ y <= x).
Proof.
  destruct (ltb x y) eqn:E; [left | right]; split; trivial.
  - now apply ltb_lt.
  - now apply ltb_ge.
Qed.

Lemma truediv_ok (x y : Q) : ~ y == 0 -> truediv x y = Ok (x / y).
Proof.
  intros H. unfold truediv.
  destruct (Qeq_bool y 0) eqn:E; trivial.
  apply Qeq_bool_iff in E. contradiction.
Qed.

Lemma truediv_zero (x y : Q) : y == 0 -> truediv x y = Raise ZeroDivisionError.
Proof.
  intros H. unfold truediv. now rewrite (Qeq_eq_bool _ _ H).
Qed.

Lemma truediv_inv (x y q : Q) : truediv x y = Ok q -> ~ y == 0 /\ q = x / y.
Proof.
  unfold truediv. destruct (Qeq_bool y 0) eqn:E; [discriminate |].
  intros [= <-]. split; trivial. now apply Qeq_bool_neq.
Qed.

Lemma min_le_l (a b : Q) : Py.min a b <= a.
Proof.
  unfold Py.min. destruct (ltb_cases b a) as [[-> H] | [-> H]].
  - now apply Qlt_le_weak.
  - apply Qle_refl.
Qed.

Lemma min_spec (a b : Q) : Py.min a b == Qmin b a.
Proof.
  unfold Py.min. destruct (ltb_cases b a) as [[-> H] | [-> H]].
  - symmetry. apply Q.min_l. now apply Qlt_le_weak.
  - symmetry. now apply Q.min_r.
Qed.

(** ** The level thresholds *)

Lemma level_of_cases (s : Q) :
  (s < 30 /\ level_of s = CALM) \/
  (30 <= s /\ s < 60 /\ level_of s = MODERATE) \/
  (60 <= s /\ s < 85 /\ level_of s = HIGH) \/
  (85 <= s /\ level_of s = CRITICAL).
Proof.
  unfold level_of.
  destruct (ltb_cases s 30) as [[-> H1] | [-> H1]]; [now left | right].
  destruct (ltb_cases s 60) as [[-> H2] | [-> H2]]; [now left | right].
  destruct (ltb_cases s 85) as [[-> H3] | [-> H3]]; [now left | now right].
Qed.

Lemma get_state_inv (now now_sensor : Q) (d d' : StressDetector)
      (st : DetectorState) :
  get_state now now_sensor d = (Ok st, d') ->
  exists i : Q,
    st = state_of now i 0 0 d
    /\ match _input_sensor d with
       | None => i = 0 /\ d' = d
       | Some s =>
           exists sst s',
             Sensors.get_state now_sensor s = (Ok sst, s')
             /\ i = Sensors.current_stress_score sst
             /\ d' = with_sensor d (Some s')
       end.
Proof.
  unfold get_state. destruct (_input_sensor d) as [s |].
  - destruct (Sensors.get_state now_sensor s) as [[sst | e] s'] eqn:E;
      cbn; [| discriminate].
    intros [= <- <-]. eexists; split; [reflexivity |].
    now exists sst, s'.
  - intros [= <- <-]. now exists 0.
Qed.



(** ** The weighted fusion *)



(** ** The input sensor *)

Lemma count_recent_from (ws : Q) (times : list Q) (a : Z) :
  fold_left (fun acc t => if gtb t ws then (acc + 1)%Z else acc) times a
  = (a + Sensors.count_recent ws times)%Z.
Proof.
  unfold Sensors.count_recent. revert a.
  induction times as [| t times IH]; intros a; cbn [fold_left].
  - lia.
  - rewrite IH. rewrite (IH (if gtb t ws then _ else _)).
    destruct (gtb t ws); lia.
Qed.

Lemma count_recent_cons (ws t : Q) (times : list Q) :
  Sensors.count_recent ws (t :: times)
  = ((if gtb t ws then 1 else 0) + Sensors.count_recent ws times)%Z.
Proof.
  unfold Sensors.count_recent at 1. cbn [fold_left].
  rewrite count_recent_from. destruct (gtb t ws); reflexivity.
Qed.

Lemma count_recent_app (ws : Q) (l1 l2 : list Q) :
  Sensors.count_recent ws (l1 ++ l2)
  = (Sensors.count_recent ws l1 + Sensors.count_recent ws l2)%Z.
Proof.
  induction l1 as [| t l1 IH]; [reflexivity |].
  cbn [app]. rewrite !count_recent_cons, IH. lia.
Qed.

Lemma count_recent_nonneg (ws : Q) (times : list Q) :
  (0 <= Sensors.count_recent ws times)%Z.
Proof.
  induction times as [| t times IH]; [reflexivity |].
  rewrite count_recent_cons. destruct (gtb t ws); lia.
Qed.

Lemma count_recent_in_window (now w : Q) (times : list Q) :
  Sensors.count_recent (now - w) times
  = Z.of_nat (List.length (events_in_window now w times)).
Proof.
  unfold events_in_window.
  induction times as [| t times IH]; [reflexivity |].
  rewrite count_recent_cons, IH. cbn [filter].
  destruct (Qlt_le_dec (now - w) t) as [H | H].
  - apply gtb_gt in H. rewrite H. cbn [List.length]. lia.
  - apply gtb_le in H. rewrite H. reflexivity.
Qed.

Lemma sensor_get_state_inv (now : Q) (s s' : Sensors.InputSensor)
      (st : Sensors.SensorState) :
  Sensors.get_state now s = (Ok st, s') ->
  let ws := now - Sensors.window_size s in
  let n := inject_Z (Sensors.count_recent ws (Sensors._keystroke_times s)) in
  ~ Sensors.window_size s == 0
  /\ ~ Sensors.stress_threshold s == 0
  /\ Sensors.keystrokes_per_second st = n / Sensors.window_size s
  /\ Sensors.mouse_clicks_per_second st
     = inject_Z (Sensors.count_recent ws (Sensors._click_times s))
       / Sensors.window_size s
  /\ Sensors.current_stress_score st
     = Py.min 100 (n / Sensors.stress_threshold s * 100).
Proof.
  unfold Sensors.get_state.
  destruct (truediv (inject_Z (Sensors.count_recent _ (Sensors._keystroke_times s)))
                    (Sensors.window_size s)) as [kps |] eqn:E1;
    [| discriminate].
  destruct (truediv (inject_Z (Sensors.count_recent _ (Sensors._click_times s)))
                    (Sensors.window_size s)) as [cps |] eqn:E2;
    [| discriminate].
  destruct (truediv _ (Sensors.stress_threshold s)) as [ratio |] eqn:E3;
    [| discriminate].
  intros [= <- <-]. cbn.
  apply truediv_inv in E1, E2, E3.
  destruct E1 as [Hw ->], E2 as [_ ->], E3 as [Ht ->]. intuition.
Qed.

Lemma sensor_get_state_total (now : Q) (s : Sensors.InputSensor) :
  ~ Sensors.window_size s == 0 ->
  ~ Sensors.stress_threshold s == 0 ->
  exists st s', Sensors.get_state now s = (Ok st, s').
Proof.
  intros Hw Ht. unfold Sensors.get_state.
  rewrite !(truediv_ok _ _ Hw), (truediv_ok _ _ Ht). eauto.
Qed.

Lemma sensor_get_state_config (now : Q) (s : Sensors.InputSensor) :
  let s' := snd (Sensors.get_state now s) in
  Sensors.window_size s' = Sensors.window_size s
  /\ Sensors.stress_threshold s' = Sensors.stress_threshold s.
Proof.
  unfold Sensors.get_state.
  destruct (truediv _ (Sensors.window_size s)); [| now cbn].
  destruct (truediv _ (Sensors.window_size s)); [| now cbn].
  destruct (truediv _ (Sensors.stress_threshold s));
    destruct (_ && _); now cbn.
Qed.

Lemma sensor_score_le_100 (now : Q) (s s' : Sensors.InputSensor)
      (st : Sensors.SensorState) :
  Sensors.get_state now s = (Ok st, s') ->
  Sensors.current_stress_score st <= 100.
Proof.
  intros H. apply sensor_get_state_inv in H.
  destruct H as (_ & _ & _ & _ & ->). apply min_le_l.
Qed.

(** C6. [InputSensor.get_state] on a sensor with a non-zero window and
    threshold returns, and its windowed rates are the number of stored
    events with timestamp strictly greater than [now - window_size],
    divided by [window_size]; whenever it returns, the rates are those.
    An event at or before [now - window_size] (in particular one exactly
    on the boundary) does not change the count wherever it sits in the
    buffer, and every event strictly inside the window adds exactly one
    to it. *)
Theorem windowed_rate_counts_strictly_inside :
  forall (now : Q) (s : Sensors.InputSensor),
    (~ Sensors.window_size s == 0 ->
     ~ Sensors.stress_threshold s == 0 ->
     exists st s',
       Sensors.get_state now s = (Ok st, s')
       /\ Sensors.keystrokes_per_second st
          = rate_in_window now (Sensors.window_size s)
                           (Sensors._keystroke_times s)
       /\ Sensors.mouse_clicks_per_second st
          = rate_in_window now (Sensors.window_size s)
                           (Sensors._click_times s))
    /\ (forall st s',
        Sensors.get_state now s = (Ok st, s') ->
        Sensors.keystrokes_per_second st
        = rate_in_window now (Sensors.window_size s)
                         (Sensors._keystroke_times s)
        /\ Sensors.mouse_clicks_per_second st
           = rate_in_window now (Sensors.window_size s)
                            (Sensors._click_times s))
    /\ (forall (w t : Q) (before after : list Q),
           t <= now - w ->
           Sensors.count_recent (now - w) (before ++ t :: after)
           = Sensors.count_recent (now - w) (before ++ after))
    /\ (forall (w t : Q) (before after : list Q),
           now - w < t ->
           Sensors.count_recent (now - w) (before ++ t :: after)
           = (Sensors.count_recent (now - w) (before ++ after) + 1)%Z)
    /\ (forall (w t : Q) (times : list Q),
           In t (events_in_window now w times)
           <-> In t times /\ now - w < t).
Proof.
  intros now s.
  assert (Hrates : forall st s',
             Sensors.get_state now s = (Ok st, s') ->
             Sensors.keystrokes_per_second st
             = rate_in_window now (Sensors.window_size s)
                              (Sensors._keystroke_times s)
             /\ Sensors.mouse_clicks_per_second st
                = rate_in_window now (Sensors.window_size s)
                                 (Sensors._click_times s)).
  { intros st s' H. apply sensor_get_state_inv in H.
    destruct H as (_ & _ & -> & -> & _).
    unfold rate_in_window. now rewrite !count_recent_in_window. }
  split; [| split; [exact Hrates | repeat split]].
  - intros Hw Ht.
    destruct (sensor_get_state_total now s Hw Ht) as (st & s' & E).
    exists st, s'. split; [exact E | exact (Hrates st s' E)].
  - intros w t before after H.
    rewrite !count_recent_app, count_recent_cons.
    apply gtb_le in H. rewrite H. lia.
  - intros w t before after H.
    rewrite !count_recent_app, count_recent_cons.
    apply gtb_gt in H. rewrite H. lia.
  - unfold events_in_window in H. apply filter_In in H. tauto.
  - unfold events_in_window in H. apply filter_In in H.
    destruct H as [_ H]. destruct (Qlt_le_dec (now - w) t); [trivial | discriminate].
  - intros [H1 H2]. unfold events_in_window. apply filter_In. split; trivial.
    destruct (Qlt_le_dec (now - w) t) as [_ | H]; trivial.
    exfalso. apply (Qlt_not_le _ _ H2 H).
Qed.

Lemma windowed_rate_counts_strictly_inside_witness :
  (exists st s',
      Sensors.get_state 100 example_sensor_window = (Ok st, s')
      /\ Sensors.keystrokes_per_second st == 3 # 10
      /\ Sensors.mouse_clicks_per_second st == 1 # 10)
  /\ Sensors.count_recent (100 - 10) ([85; 95] ++ 90 :: [99])
     = Sensors.count_recent (100 - 10) ([85; 95] ++ [99])
  /\ Sensors.count_recent (100 - 10) ([85; 95] ++ (901 # 10) :: [99])
     = (Sensors.count_recent (100 - 10)%Q ([85; 95] ++ [99])%Q + 1)%Z.
Proof.
  destruct (windowed_rate_counts_strictly_inside 100 example_sensor_window)
    as (Hret & _ & Hout & Hin & _).
  split; [| split].
  - destruct Hret as (st & s' & E & Hk & Hc).
    + intros H. discriminate H.
    + intros H. discriminate H.
    + exists st, s'. split; [exact E |].
      rewrite Hk, Hc. split; reflexivity.
  - apply Hout. lra.
  - apply Hin. lra.
Defined.







(** ** The detector *)

Lemma elevated_low (l : StressLevel) : elevated l = false <-> low l.
Proof.
  unfold low. destruct l; cbn; split; intros H; trivial;
    try discriminate; try tauto; destruct H; discriminate.
Qed.

Lemma get_state_settings (now now_sensor : Q) (d : StressDetector) :
  let d' := snd (get_state now now_sensor d) in
  settings d' = settings d
  /\ _last_intervention_time d' = _last_intervention_time d
  /\ _current_level d' = _current_level d
  /\ on_calm_restored d' = on_calm_restored d
  /\ on_stress_detected d' = on_stress_detected d.
Proof.
  unfold get_state. destruct (_input_sensor d) as [s |]; [| now cbn].
  destruct (Sensors.get_state now_sensor s) as [[sst | e] s']; now cbn.
Qed.

(** No state that [get_state] returns has a score above 50. *)
Lemma get_state_score_le_50 (now now_sensor : Q) (d d' : StressDetector)
      (st : DetectorState) :
  get_state now now_sensor d = (Ok st, d') ->
  score st <= 50 /\ low (level st).
Proof.
  intros H. apply get_state_inv in H. destruct H as [i [-> Hs]]. cbn.
  assert (Hi : i <= 100).
  { destruct (_input_sensor d) as [s |].
    - destruct Hs as (sst & s' & E & -> & _).
      now apply sensor_score_le_100 in E.
    - destruct Hs as [-> _]. lra. }
  assert (Hf : fuse i 0 0 <= 50) by (unfold fuse; lra).
  split; trivial.
  destruct (level_of_cases (fuse i 0 0))
    as [[_ E] | [(_ & _ & E) | [(H & _ & _) | (H & _)]]];
    unfold low; rewrite ?E; try tauto; lra.
Qed.

Lemma check_and_intervene_on_low (state : DetectorState) (now_fire : Q)
      (d : StressDetector) :
  low (_current_level d) -> low (level state) ->
  check_and_intervene_on state now_fire d
  = (false,
     {| settings := settings d;
        on_stress_detected := on_stress_detected d;
        on_calm_restored := on_calm_restored d;
        _input_sensor := _input_sensor d;
        _last_intervention_time := _last_intervention_time d;
        _current_level := level state |}, []).
Proof.
  intros Hd Hs. apply elevated_low in Hd, Hs.
  unfold check_and_intervene_on. now rewrite Hd, Hs.
Qed.

(** What a tick does to a detector whose level is low. *)
Lemma check_and_intervene_low (now now_sensor now_fire : Q)
      (d : StressDetector) :
  low (_current_level d) ->
  let '(r, d', evs) := check_and_intervene now now_sensor now_fire d in
  evs = [] /\ r <> Ok true /\ low (_current_level d')
  /\ ((exists st d1, get_state now now_sensor d = (Ok st, d1)) -> r = Ok false).
Proof.
  intros Hd. unfold check_and_intervene.
  pose proof (get_state_settings now now_sensor d) as Hset.
  destruct (get_state now now_sensor d) as [[st | e] d1] eqn:E.
  - cbn in Hset. destruct Hset as (_ & _ & Hl & _).
    apply get_state_score_le_50 in E. destruct E as [_ Hlow].
    rewrite check_and_intervene_on_low by (rewrite ?Hl; trivial).
    cbn. repeat split; trivial. discriminate.
  - cbn in Hset. destruct Hset as (_ & _ & Hl & _).
    repeat split; try discriminate; rewrite ?Hl; trivial.
    intros (st & d2 & [=]).
Qed.

Lemma get_state_total (now now_sensor : Q) (d : StressDetector) :
  sensor_ok d -> exists st d1, get_state now now_sensor d = (Ok st, d1).
Proof.
  unfold sensor_ok, get_state. destruct (_input_sensor d) as [s |].
  - intros [Hw Ht].
    destruct (sensor_get_state_total now_sensor s Hw Ht) as (sst & s' & ->).
    cbn. eauto.
  - eauto.
Qed.

Lemma sensor_ok_get_state (now now_sensor : Q) (d : StressDetector) :
  sensor_ok d -> sensor_ok (snd (get_state now now_sensor d)).
Proof.
  unfold sensor_ok, get_state. destruct (_input_sensor d) as [s |] eqn:Es.
  - intros [Hw Ht].
    pose proof (sensor_get_state_config now_sensor s) as Hc.
    destruct (Sensors.get_state now_sensor s) as [[sst | e] s'];
      cbn in *; destruct Hc as [-> ->]; now split.
  - intros _. cbn. now rewrite Es.
Qed.

Lemma sensor_ok_check_and_intervene (now now_sensor now_fire : Q)
      (d : StressDetector) :
  sensor_ok d ->
  sensor_ok (snd (fst (check_and_intervene now now_sensor now_fire d))).
Proof.
  intros H. apply (sensor_ok_get_state now now_sensor) in H.
  unfold check_and_intervene.
  destruct (get_state now now_sensor d) as [[st | e] d1]; cbn in *; trivial.
  unfold check_and_intervene_on. destruct (_ && _); cbn; trivial.
Qed.

Lemma sensor_ok_on_sensor (f : Sensors.InputSensor -> Sensors.InputSensor)
      (d : StressDetector) :
  (forall s, Sensors.window_size (f s) = Sensors.window_size s
             /\ Sensors.stress_threshold (f s) = Sensors.stress_threshold s) ->
  sensor_ok d -> sensor_ok (on_sensor f d).
Proof.
  intros Hf. unfold sensor_ok, on_sensor. cbn.
  destruct (_input_sensor d) as [s |]; cbn; trivial.
  destruct (Hf s) as [-> ->]. trivial.
Qed.

Lemma _on_mouse_click_config (t : Q) (p : bool) (s : Sensors.InputSensor) :
  Sensors.window_size (Sensors._on_mouse_click t p s) = Sensors.window_size s
  /\ Sensors.stress_threshold (Sensors._on_mouse_click t p s)
     = Sensors.stress_threshold s.
Proof. destruct p; now cbn. Qed.

Lemma start_config (t : Q) (s : Sensors.InputSensor) :
  Sensors.window_size (Sensors.start t s) = Sensors.window_size s
  /\ Sensors.stress_threshold (Sensors.start t s) = Sensors.stress_threshold s.
Proof. unfold Sensors.start. destruct (Sensors._running s); now cbn. Qed.

Lemma run_low (acts : list Action) :
  forall d : StressDetector,
    low (_current_level d) ->
    low (_current_level (fst (run d acts)))
    /\ Forall (fun o => emitted o = [] /\ returned o <> Ok true)
              (snd (run d acts))
    /\ (sensor_ok d ->
        sensor_ok (fst (run d acts))
        /\ Forall (fun o => returned o = Ok false) (snd (run d acts))).
Proof.
  induction acts as [| a acts IH]; intros d Hd.
  - cbn. repeat split; trivial; constructor.
  - assert (Hs : forall f,
               (forall s, Sensors.window_size (f s) = Sensors.window_size s
                          /\ Sensors.stress_threshold (f s)
                             = Sensors.stress_threshold s) ->
               low (_current_level (fst (run (on_sensor f d) acts)))
               /\ Forall (fun o => emitted o = [] /\ returned o <> Ok true)
                         (snd (run (on_sensor f d) acts))
               /\ (sensor_ok d ->
                   sensor_ok (fst (run (on_sensor f d) acts))
                   /\ Forall (fun o => returned o = Ok false)
                             (snd (run (on_sensor f d) acts)))).
    { intros f Hf. destruct (IH (on_sensor f d) Hd) as (H1 & H2 & H3).
      split; [exact H1 | split; [exact H2 |]].
      intros Hok. apply H3. now apply sensor_ok_on_sensor. }
    destruct a as [t | | t | t p | now now_sensor | now now_sensor now_fire];
      cbn [run].
    + apply Hs, start_config.
    + apply Hs. intros s. now cbn.
    + apply Hs. intros s. now cbn.
    + apply Hs, _on_mouse_click_config.
    + pose proof (get_state_settings now now_sensor d) as Hg.
      cbv zeta in Hg. destruct Hg as (_ & _ & Hl & _).
      assert (Hd' : low (_current_level (snd (get_state now now_sensor d))))
        by now rewrite Hl.
      destruct (IH _ Hd') as (H1 & H2 & H3).
      split; [exact H1 | split; [exact H2 |]].
      intros Hok. apply H3. now apply sensor_ok_get_state.
    + pose proof (check_and_intervene_low now now_sensor now_fire d Hd) as Hc.
      pose proof (sensor_ok_check_and_intervene now now_sensor now_fire d)
        as Hk.
      destruct (check_and_intervene now now_sensor now_fire d)
        as [[r d1] evs].
      destruct Hc as (He & Hr & Hl & Ht). cbn in Hk.
      destruct (IH d1 Hl) as (H1 & H2 & H3).
      destruct (run d1 acts) as [d2 outs]. cbn in *.
      repeat split; trivial.
      * constructor; trivial. now cbn.
      * now apply H3, Hk.
      * constructor; [cbn | now apply H3, Hk].
        apply Ht. now apply get_state_total.
Qed.

Lemma new_inv (st : Settings) (on_stress on_calm : bool) (d : StressDetector) :
  Detector.new st on_stress on_calm = Ok d ->
  settings d = st
  /\ _current_level d = CALM
  /\ _last_intervention_time d = 0
  /\ (~ detection_stress_threshold st == 0 -> sensor_ok d).
Proof.
  unfold Detector.new, Sensors.new, sensor_ok.
  destruct (sensors_keyboard st || sensors_mouse st); cbn;
    intros [= <-]; cbn;
    (split; [reflexivity | split; [reflexivity | split; [reflexivity |]]]);
    intros Ht; trivial.
  split; [intros H0; discriminate H0 | exact Ht].
Qed.

(** C5. A detector built by its constructor never leaves the two lowest
    levels: after any run of key presses, clicks and ticks, every state
    [get_state] returns has a composite score of at most 50 and level
    CALM or MODERATE; no tick returned [True] and no tick invoked
    [on_stress_detected] or [on_calm_restored]; and with a non-zero
    [stress_threshold] every tick did return, with [False]. *)
Theorem detector_never_leaves_low_levels :
  forall (st : Settings) (on_stress on_calm : bool) (d0 : StressDetector)
         (acts : list Action),
    Detector.new st on_stress on_calm = Ok d0 ->
    (forall now now_sensor s d',
        get_state now now_sensor (fst (run d0 acts)) = (Ok s, d') ->
        score s <= 50 /\ low (level s))
    /\ low (_current_level (fst (run d0 acts)))
    /\ Forall (fun o => emitted o = [] /\ returned o <> Ok true)
              (snd (run d0 acts))
    /\ (~ detection_stress_threshold st == 0 ->
        Forall (fun o => returned o = Ok false) (snd (run d0 acts))).
Proof.
  intros st on_stress on_calm d0 acts Hnew.
  apply new_inv in Hnew. destruct Hnew as (_ & Hl & _ & Hok).
  assert (Hlow : low (_current_level d0)) by (rewrite Hl; now left).
  destruct (run_low acts d0 Hlow) as (H1 & H2 & H3).
  repeat split; trivial.
  - eapply get_state_score_le_50; eauto.
  - eapply get_state_score_le_50; eauto.
  - intros Ht. now apply H3, Hok.
Qed.

Lemma detector_never_leaves_low_levels_witness :
  Forall (fun o => emitted o = [] /\ returned o <> Ok true)
         (snd (run example_detector example_actions))
  /\ Forall (fun o => returned o = Ok false)
            (snd (run example_detector example_actions)).
Proof.
  assert (Hnew : Detector.new default_settings true true = Ok example_detector)
    by reflexivity.
  destruct (detector_never_leaves_low_levels
              default_settings true true example_detector example_actions Hnew)
    as (_ & _ & H2 & H3).
  split; [exact H2 | apply H3].
  cbn. intros H. discriminate H.
Defined.

(** ** The cooldown *)

Lemma evaluate_inv (r : Reading) (d : StressDetector) :
  let '(f, d', evs) := evaluate r d in
  settings d' = settings d
  /\ on_calm_restored d' = on_calm_restored d
  /\ _current_level d'
     = level_of (fuse (input r) (breathing r) (posture r))
  /\ ((f = true
       /\ elevated (level_of (fuse (input r) (breathing r) (posture r))) = true
       /\ intervention_cooldown (settings d)
          < at_now r - _last_intervention_time d
       /\ _last_intervention_time d' = at_fire r)
      \/ (f = false
          /\ _last_intervention_time d' = _last_intervention_time d
          /\ stress_detected_count evs = 0%nat)).
Proof.
  unfold evaluate, check_and_intervene_on, state_of.
  cbn [level can_intervene score].
  destruct (elevated (level_of _)); cbn [andb].
  - destruct (gtb _ _) eqn:G; cbn.
    + repeat split; trivial. left. apply gtb_gt in G. now repeat split.
    + repeat split; trivial. right. repeat split; trivial.
      unfold stress_detected_count.
      destruct (elevated (_current_level d) && _); reflexivity.
  - cbn. repeat split; trivial. right. repeat split; trivial.
    unfold stress_detected_count.
    destruct (elevated (_current_level d) && _); reflexivity.
Qed.

(** [check_and_intervene] is [evaluate] on the sensor's score and the two
    placeholders. *)
Lemma check_and_intervene_as_evaluate (now now_sensor now_fire : Q)
      (d d' : StressDetector) (st : DetectorState) :
  get_state now now_sensor d = (Ok st, d') ->
  check_and_intervene now now_sensor now_fire d
  = (let '(f, d'', evs) :=
       evaluate {| at_now := now; input := input_score st; breathing := 0;
                   posture := 0; at_fire := now_fire |} d' in
     (Ok f, d'', evs)).
Proof.
  intros H. unfold check_and_intervene. rewrite H.
  pose proof (get_state_settings now now_sensor d) as Hset.
  rewrite H in Hset. cbn in Hset. destruct Hset as (Hs & Hl & _).
  apply get_state_inv in H. destruct H as [i [-> _]].
  unfold evaluate, state_of. cbn [input_score at_now input breathing posture at_fire].
  now rewrite Hs, Hl.
Qed.

(** Every intervention of a run fires more than a cooldown after a
    reference instant [L] that lies behind both the clock and the
    detector's last intervention. *)
Lemma evaluate_all_after (rs : list Reading) :
  forall (d : StressDetector) (lb L : Q),
    monotone_clock lb rs ->
    L <= lb -> L <= _last_intervention_time d ->
    Forall (fun b => intervention_cooldown (settings d) < b - L)
           (intervention_times (snd (evaluate_all d rs))).
Proof.
  induction rs as [| r rs IH]; intros d lb L Hm Hlb Hl.
  - constructor.
  - cbn [evaluate_all monotone_clock] in *. destruct Hm as (H1 & H2 & Hm).
    pose proof (evaluate_inv r d) as Hc.
    destruct (evaluate r d) as [[f d1] evs].
    destruct Hc as (Hs & _ & _ & Hc).
    assert (IH' := IH d1 (at_fire r) L Hm). rewrite Hs in IH'.
    destruct (evaluate_all d1 rs) as [d2 outs]. cbn [snd] in *.
    unfold intervention_times in *. cbn [filter].
    destruct Hc as [(-> & _ & Hc & Hf) | (-> & Hf & _)]; cbn.
    + constructor; [lra | apply IH'; rewrite ?Hf; lra].
    + apply IH'; rewrite ?Hf; lra.
Qed.

Lemma evaluate_all_apart (rs : list Reading) :
  forall (d : StressDetector) (lb : Q),
    monotone_clock lb rs ->
    ForallOrdPairs (fun a b => intervention_cooldown (settings d) < b - a)
                   (intervention_times (snd (evaluate_all d rs))).
Proof.
  induction rs as [| r rs IH]; intros d lb Hm.
  - constructor.
  - cbn [evaluate_all monotone_clock] in *. destruct Hm as (H1 & H2 & Hm).
    pose proof (evaluate_inv r d) as Hc.
    destruct (evaluate r d) as [[f d1] evs].
    destruct Hc as (Hs & _ & _ & Hc).
    assert (IH' := IH d1 (at_fire r) Hm).
    assert (Ha := evaluate_all_after rs d1 (at_fire r) (at_fire r) Hm).
    rewrite Hs in IH', Ha.
    destruct (evaluate_all d1 rs) as [d2 outs]. cbn [snd] in *.
    unfold intervention_times in *. cbn [filter].
    destruct Hc as [(-> & _ & Hc & Hf) | (-> & Hf & _)]; cbn; trivial.
    constructor; trivial. apply Ha; rewrite ?Hf; lra.
Qed.

(** C1. The cooldown is a hard floor.  [check_and_intervene] is the
    evaluation of the state built from the sensor's score; and for such
    evaluations at any sub-scores (so at any level, CRITICAL included):
    if one reads the clock at [t1] for [can_intervene] and at [f1 >= t1]
    for the stored intervention time and fires, then the next one,
    reading [t2] with [t2 - t1 < cooldown], does not fire and does not
    invoke [on_stress_detected]; and in every run under a clock that
    never goes back, any two interventions are more than [cooldown]
    seconds apart. *)
Theorem cooldown_is_a_hard_floor :
  (forall (now now_sensor now_fire : Q) (d d' : StressDetector)
          (st : DetectorState),
      get_state now now_sensor d = (Ok st, d') ->
      check_and_intervene now now_sensor now_fire d
      = (let '(f, d'', evs) :=
           evaluate {| at_now := now; input := input_score st;
                       breathing := 0; posture := 0;
                       at_fire := now_fire |} d' in
         (Ok f, d'', evs)))
  /\ (forall (d : StressDetector) (r1 r2 : Reading),
         at_now r1 <= at_fire r1 ->
         at_now r2 - at_now r1 < intervention_cooldown (settings d) ->
         fst (fst (evaluate r1 d)) = true ->
         fst (fst (evaluate r2 (snd (fst (evaluate r1 d))))) = false
         /\ stress_detected_count
              (snd (evaluate r2 (snd (fst (evaluate r1 d))))) = 0%nat)
  /\ (forall (d : StressDetector) (lb : Q) (rs : list Reading),
         monotone_clock lb rs ->
         ForallOrdPairs
           (fun a b => intervention_cooldown (settings d) < b - a)
           (intervention_times (snd (evaluate_all d rs)))).
Proof.
  split; [| split].
  - intros now now_sensor now_fire d d' st.
    apply check_and_intervene_as_evaluate.
  - intros d r1 r2 Hf Hc Hfired.
    pose proof (evaluate_inv r1 d) as H1.
    destruct (evaluate r1 d) as [[f1 d1] evs1].
    cbn in Hfired |- *. subst f1.
    destruct H1 as (Hs & _ & _ & [(_ & _ & _ & Hl) | (Hn & _)]);
      [| discriminate].
    pose proof (evaluate_inv r2 d1) as H2.
    destruct (evaluate r2 d1) as [[f2 d2] evs2].
    cbn. destruct H2 as (_ & _ & _ & [(_ & _ & H2 & _) | (Hn & _ & He)]).
    + rewrite Hs, Hl in H2. lra.
    + now split.
  - intros d lb rs. apply evaluate_all_apart.
Qed.

(** Two CRITICAL readings one minute apart, with the default cooldown of
    two minutes: the first fires, the second does not. *)
Lemma cooldown_is_a_hard_floor_witness :
  fst (fst (evaluate
              {| at_now := 1000; input := 100; breathing := 100;
                 posture := 100; at_fire := 1000 |} example_detector)) = true
  /\ fst (fst (evaluate
                 {| at_now := 1060; input := 100; breathing := 100;
                    posture := 100; at_fire := 1060 |}
                 (snd (fst (evaluate
                              {| at_now := 1000; input := 100;
                                 breathing := 100; posture := 100;
                                 at_fire := 1000 |} example_detector)))))
     = false.
Proof.
  destruct cooldown_is_a_hard_floor as (_ & H & _).
  split; [reflexivity |].
  apply (H example_detector
           {| at_now := 1000; input := 100; breathing := 100;
              posture := 100; at_fire := 1000 |}
           {| at_now := 1060; input := 100; breathing := 100;
              posture := 100; at_fire := 1060 |}).
  - cbn. lra.
  - cbn. lra.
  - reflexivity.
Defined.

(** ** Calm restored *)

Lemma evaluate_calm_restored (r : Reading) (d : StressDetector) :
  on_calm_restored d = true ->
  calm_restored_count (snd (evaluate r d))
  = match _current_level d, reading_level r with
    | HIGH, CALM | CRITICAL, CALM => 1%nat
    | _, _ => 0%nat
    end.
Proof.
  intros Hcb. unfold evaluate, check_and_intervene_on, state_of, reading_level.
  cbn [level can_intervene score]. rewrite Hcb.
  destruct (_current_level d);
    destruct (level_of (fuse (input r) (breathing r) (posture r)));
    cbn [elevated StressLevel_eqb orb andb];
    repeat match goal with
           | |- context [gtb ?a ?b] => destruct (gtb a b)
           end;
    cbn [andb snd]; destruct (on_stress_detected d); reflexivity.
Qed.

Lemma evaluate_all_calm_restored (rs : list Reading) :
  forall d : StressDetector,
    on_calm_restored d = true ->
    map (fun o => calm_restored_count (emitted o)) (snd (evaluate_all d rs))
    = calm_transitions (_current_level d) (map reading_level rs).
Proof.
  induction rs as [| r rs IH]; intros d Hcb; [reflexivity |].
  cbn [evaluate_all map calm_transitions].
  pose proof (evaluate_calm_restored r d Hcb) as Hc.
  pose proof (evaluate_inv r d) as Hi.
  destruct (evaluate r d) as [[f d1] evs].
  destruct Hi as (_ & Hcb1 & Hl & _). rewrite Hcb in Hcb1.
  specialize (IH d1 Hcb1). rewrite Hl in IH.
  destruct (evaluate_all d1 rs) as [d2 outs].
  cbn [snd map emitted] in *. now rewrite Hc, IH.
Qed.

(** C7. With the [on_calm_restored] callback installed,
    [check_and_intervene] invokes it on a tick if and only if the
    previous level was HIGH or CRITICAL and the current level is CALM,
    and then exactly once.  Along any sequence of evaluations the ticks
    that emit it are exactly those transitions; in particular, for the
    levels CALM, CALM, HIGH, CALM starting from a CALM detector, it is
    emitted once, on the fourth tick. *)
Theorem calm_restored_iff_transition_into_calm :
  forall d : StressDetector,
    on_calm_restored d = true ->
    (forall now now_sensor now_fire st d',
        get_state now now_sensor d = (Ok st, d') ->
        (In CalmRestored (snd (check_and_intervene now now_sensor now_fire d))
         <-> elevated (_current_level d) = true /\ level st = CALM)
        /\ (calm_restored_count
              (snd (check_and_intervene now now_sensor now_fire d)) <= 1)%nat)
    /\ (forall r : Reading,
           calm_restored_count (snd (evaluate r d)) = 1%nat
           <-> elevated (_current_level d) = true /\ reading_level r = CALM)
    /\ (forall rs : list Reading,
           map (fun o => calm_restored_count (emitted o))
               (snd (evaluate_all d rs))
           = calm_transitions (_current_level d) (map reading_level rs))
    /\ (forall r1 r2 r3 r4 : Reading,
           _current_level d = CALM ->
           map reading_level [r1; r2; r3; r4] = [CALM; CALM; HIGH; CALM] ->
           map (fun o => calm_restored_count (emitted o))
               (snd (evaluate_all d [r1; r2; r3; r4]))
           = [0; 0; 0; 1]%nat).
Proof.
  intros d Hcb. split; [| split; [| split]].
  - intros now now_sensor now_fire st d' H.
    rewrite (check_and_intervene_as_evaluate _ _ now_fire _ _ _ H).
    pose proof (get_state_settings now now_sensor d) as Hset.
    rewrite H in Hset. cbn in Hset.
    destruct Hset as (_ & _ & Hl & Hcb' & _). rewrite Hcb in Hcb'.
    apply get_state_inv in H. destruct H as [i [-> _]].
    set (r := {| at_now := now; input := _ |}).
    pose proof (evaluate_calm_restored r d' Hcb') as Hc.
    assert (Hin : forall evs : list Event,
               In CalmRestored evs <-> calm_restored_count evs <> 0%nat).
    { intros evs. unfold calm_restored_count.
      induction evs as [| [l q |] evs IH]; cbn.
      - intuition.
      - rewrite <- IH. intuition discriminate.
      - intuition discriminate. }
    destruct (evaluate r d') as [[f d2] evs]. cbn [snd] in *.
    rewrite Hin, Hc, Hl. unfold reading_level, r, state_of. cbn.
    destruct (_current_level d); destruct (level_of (fuse i 0 0)); cbn;
      intuition (try discriminate; try lia).
  - intros r. rewrite (evaluate_calm_restored r d Hcb).
    destruct (_current_level d); destruct (reading_level r); cbn;
      intuition discriminate.
  - intros rs. now apply evaluate_all_calm_restored.
  - intros r1 r2 r3 r4 Hl Hlv.
    rewrite (evaluate_all_calm_restored _ d Hcb), Hl, Hlv. reflexivity.
Qed.

Lemma calm_restored_iff_transition_into_calm_witness :
  map reading_level calm_calm_high_calm = [CALM; CALM; HIGH; CALM]
  /\ map (fun o => calm_restored_count (emitted o))
         (snd (evaluate_all example_detector calm_calm_high_calm))
     = [0; 0; 0; 1]%nat.
Proof.
  split; [reflexivity |].
  destruct (calm_restored_iff_transition_into_calm example_detector eq_refl)
    as (_ & _ & _ & H).
  apply (H _ _ _ _ eq_refl). reflexivity.
Defined.

(** ** Construction of the input sensor *)

(** C10 (as stated, refuted). Constructing an [InputSensor] with
    [window_size = 0] does not fail: the constructor returns a sensor, and
    it is the later [get_state] that raises [ZeroDivisionError]. *)
Lemma zero_window_is_not_rejected_at_construction :
  exists s : Sensors.InputSensor,
    Sensors.new 0 300 50 = Ok s
    /\ fst (Sensors.get_state 1000 s) = Raise ZeroDivisionError.
Proof. eexists. split; reflexivity. Qed.

(** C10 (amended). The constructor of [InputSensor] validates nothing:
    every [window_size], zero included, yields a sensor with that window;
    and on a sensor whose window is zero every [get_state] raises
    [ZeroDivisionError], leaving the sensor as it was. *)
Theorem zero_window_raises_in_get_state :
  (forall w b t : Q,
      exists s, Sensors.new w b t = Ok s /\ Sensors.window_size s = w)
  /\ (forall (now : Q) (s : Sensors.InputSensor),
         Sensors.window_size s == 0 ->
         Sensors.get_state now s = (Raise ZeroDivisionError, s)).
Proof.
  split.
  - intros w b t. eexists. split; reflexivity.
  - intros now s Hw. unfold Sensors.get_state.
    now rewrite (truediv_zero _ _ Hw).
Qed.

Lemma zero_window_raises_in_get_state_witness :
  Sensors.get_state 1000
    {| Sensors.window_size := 0;
       Sensors.baseline_duration := 300;
       Sensors.stress_threshold := 50;
       Sensors.on_stress_detected := false;
       Sensors._keystroke_times := [995; 999];
       Sensors._click_times := [];
       Sensors._baseline_samples := [];
       Sensors._running := true;
       Sensors._start_time := 900 |}
  = (Raise ZeroDivisionError,
     {| Sensors.window_size := 0;
        Sensors.baseline_duration := 300;
        Sensors.stress_threshold := 50;
        Sensors.on_stress_detected := false;
        Sensors._keystroke_times := [995; 999];
        Sensors._click_times := [];
        Sensors._baseline_samples := [];
        Sensors._running := true;
        Sensors._start_time := 900 |}).
Proof.
  destruct zero_window_raises_in_get_state as [_ H].
  apply H. reflexivity.
Defined.

(** ** The intent judgment *)

Lemma check_quiet_on_match (now : Q) (img : option (list byte))
      (resp : option string) (c : Intent.IntentChecker) :
  fst (Ollama.check_intent_match resp) = true ->
  let '(st, c', evs) := Intent.check now img resp c in
  evs = []
  /\ (Intent._mismatch_start c = None -> Intent._mismatch_start c' = None)
  /\ (consulted now img c ->
      Intent._mismatch_start c' = None
      /\ Intent.last_match st = true
      /\ Intent.mismatch_duration st = 0).
Proof.
  intros Hm. unfold Intent.check, consulted.
  destruct (Intent._running c); cbn [negb orb].
  2: { split; [reflexivity | split; [trivial |]].
       intros (H1 & _). discriminate H1. }
  destruct (truthy (Intent._current_intent c)); cbn [negb].
  2: { split; [reflexivity | split; [trivial |]].
       intros (_ & H2 & _). discriminate H2. }
  destruct (ltb_cases (now - Intent._last_check c) (Intent.check_interval c))
    as [[-> L] | [-> L]].
  { split; [reflexivity | split; [trivial |]].
    intros (_ & _ & H3 & _). exfalso. lra. }
  destruct (Intent.has_image img); cbn [negb].
  2: { split; [reflexivity | split; [trivial |]].
       intros (_ & _ & _ & H4). discriminate H4. }
  destruct (Ollama.check_intent_match resp) as [m e]. cbn in Hm. subst m.
  cbn. repeat split; trivial.
Qed.

(** C9. The intent judgment fails open.  When the analysis is
    unavailable, fails or answers nothing, [check_intent_match] returns
    [(True, "Could not analyze")]; and a [check] that gets such a judgment
    invokes no callback, starts no mismatch period, and, when the judgment
    was consulted at all, ends the running one. *)
Theorem intent_judgment_fails_open :
  forall resp : option string,
    resp = None \/ resp = Some EmptyString ->
    Ollama.check_intent_match resp = (true, "Could not analyze"%string)
    /\ (forall reply, Ollama.analyze_image false reply = None)
    /\ (forall now img c,
           let '(st, c', evs) := Intent.check now img resp c in
           evs = []
           /\ (Intent._mismatch_start c = None ->
               Intent._mismatch_start c' = None)
           /\ (consulted now img c ->
               Intent._mismatch_start c' = None
               /\ Intent.last_match st = true
               /\ Intent.mismatch_duration st = 0)).
Proof.
  intros resp Hr.
  assert (E : Ollama.check_intent_match resp
              = (true, "Could not analyze"%string))
    by (destruct Hr as [-> | ->]; reflexivity).
  split; [exact E | split; [reflexivity |]].
  intros now img c. apply check_quiet_on_match. now rewrite E.
Qed.

Lemma intent_judgment_fails_open_witness :
  consulted 10000 (Some [x00]) late_checker
  /\ snd (Intent.check 10000 (Some [x00])
                       (Ollama.analyze_image false (Some "NO: games"%string))
                       late_checker) = []
  /\ Intent._mismatch_start
       (snd (fst (Intent.check 10000 (Some [x00])
                    (Ollama.analyze_image false (Some "NO: games"%string))
                    late_checker))) = None.
Proof.
  assert (Hc : consulted 10000 (Some [x00]) late_checker).
  { unfold consulted. cbn. repeat split. lra. }
  destruct (intent_judgment_fails_open None (or_introl eq_refl))
    as (_ & _ & H).
  specialize (H 10000 (Some [x00]) late_checker).
  change (Ollama.analyze_image false (Some "NO: games"%string))
    with (@None string).
  destruct (Intent.check 10000 (Some [x00]) None late_checker)
    as [[st c'] evs].
  destruct H as (He & _ & Hk). cbn.
  split; [exact Hc | split; [exact He | apply (Hk Hc)]].
Defined.

(** ** The intent-mismatch scenario *)

Lemma inject_nat_succ (k : nat) :
  inject_Z (Z.of_nat (S k)) == inject_Z (Z.of_nat k) + 1.
Proof.
  rewrite Nat2Z.inj_succ. unfold Z.succ. rewrite inject_Z_plus. reflexivity.
Qed.

Lemma tick_time_next (t0 : Q) (k : nat) :
  ltb (tick_time t0 (S k) - tick_time t0 k) 30 = false.
Proof.
  apply ltb_ge. unfold tick_time. rewrite inject_nat_succ. lra.
Qed.

Lemma tick_time_threshold (t0 : Q) (k : nat) :
  geb (tick_time t0 k - tick_time t0 0) (120 * 60) = (240 <=? k)%nat.
Proof.
  apply eq_true_iff_eq. rewrite geb_ge, Nat.leb_le.
  unfold tick_time. change (inject_Z (Z.of_nat 0)) with 0.
  assert (H : (240 <= k)%nat <-> 240 <= inject_Z (Z.of_nat k)).
  { change 240 with (inject_Z (Z.of_nat 240)).
    rewrite <- Zle_Qle. lia. }
  rewrite H. split; intros; lra.
Qed.

Lemma scenario_checker_unfold :
  scenario_checker
  = {| Intent.check_interval := 30;
       Intent.mismatch_threshold := 120 * 60;
       Intent.on_mismatch_detected := true;
       Intent._current_intent := "debugging";
       Intent._last_check := 0;
       Intent._mismatch_start := None;
       Intent._last_explanation := EmptyString;
       Intent._running := true |}.
Proof. reflexivity. Qed.

(** The first tick consults the judgment and starts the mismatch period. *)
Lemma scenario_first_check (t0 : Q) (img : option (list byte))
      (resp : option string) (e : string) :
  30 <= t0 ->
  Intent.has_image img = true ->
  Ollama.check_intent_match resp = (false, e) ->
  snd (fst (Intent.check (tick_time t0 0) img resp scenario_checker))
  = scenario_checker_after t0 e 0
  /\ snd (Intent.check (tick_time t0 0) img resp scenario_checker) = [].
Proof.
  intros Ht Himg Hj. rewrite scenario_checker_unfold.
  unfold Intent.check.
  cbn [Intent._running Intent._current_intent Intent._last_check
       Intent.check_interval Intent._mismatch_start negb orb truthy].
  assert (L : ltb (tick_time t0 0 - 0) 30 = false).
  { apply ltb_ge. unfold tick_time. change (inject_Z (Z.of_nat 0)) with 0.
    lra. }
  rewrite L, Himg, Hj. cbn [negb]. split; reflexivity.
Qed.

(** Every later tick consults it again, and invokes the callback as soon
    as two hours have passed since the first tick. *)
Lemma scenario_next_check (t0 : Q) (img : option (list byte))
      (resp : option string) (e : string) (k : nat) :
  Intent.has_image img = true ->
  Ollama.check_intent_match resp = (false, e) ->
  snd (fst (Intent.check (tick_time t0 (S k)) img resp
                         (scenario_checker_after t0 e k)))
  = scenario_checker_after t0 e (S k)
  /\ snd (Intent.check (tick_time t0 (S k)) img resp
                       (scenario_checker_after t0 e k))
     = if (240 <=? S k)%nat
       then [Intent.MismatchDetected "debugging" e] else [].
Proof.
  intros Himg Hj. unfold Intent.check, scenario_checker_after.
  cbn [Intent._running Intent._current_intent Intent._last_check
       Intent.check_interval Intent._mismatch_start
       Intent.mismatch_threshold Intent.on_mismatch_detected
       negb orb truthy].
  rewrite tick_time_next, Himg, Hj, tick_time_threshold. cbn [negb].
  destruct (240 <=? S k)%nat; split; reflexivity.
Qed.

Lemma scenario_run_from (t0 : Q) (img : option (list byte))
      (resp : option string) (e : string) :
  Intent.has_image img = true ->
  Ollama.check_intent_match resp = (false, e) ->
  forall (n k : nat),
    snd (Intent.run (scenario_checker_after t0 e k)
                    (map (scenario_tick t0 img resp) (seq (S k) n)))
    = map (fun j => (tick_time t0 j, Intent.MismatchDetected "debugging" e))
          (filter (fun j => (240 <=? j)%nat) (seq (S k) n)).
Proof.
  intros Himg Hj. induction n as [| n IH]; intros k; [reflexivity |].
  cbn [seq map Intent.run filter].
  cbn [scenario_tick Intent.at_time Intent.image Intent.response].
  destruct (scenario_next_check t0 img resp e k Himg Hj) as [Hc He].
  destruct (Intent.check (tick_time t0 (S k)) img resp
                         (scenario_checker_after t0 e k)) as [[st c'] evs].
  cbn [fst snd] in Hc, He. subst c' evs.
  specialize (IH (S k)).
  destruct (Intent.run _ _) as [c'' log]. cbn [snd] in *. rewrite IH.
  destruct (240 <=? S k)%nat; reflexivity.
Qed.

(** C4 (as stated, refuted). In the scenario (started at clock reading
    1000, the backend answering "NO: social media" throughout) the
    callback is invoked eleven times, not once: on every check from the
    120-minute mark to the end of the 125 minutes. *)
Lemma mismatch_callback_fires_more_than_once :
  List.length
    (snd (Intent.run scenario_checker
            (scenario_ticks 1000 (Some [x00])
                            (Some "NO: social media"%string))))
  <> 1%nat.
Proof. vm_compute. discriminate. Qed.

(** C4 (amended). In the scenario the callback is never invoked before
    the 120-minute mark and is invoked on every check from that mark on:
    with ticks every 30 seconds over 125 minutes, the first of them
    consulting the judgment, that is on the eleven ticks 240 to 250, the
    first of which is exactly 7200 seconds after the first tick. *)
Theorem mismatch_callback_fires_from_threshold_on :
  forall (t0 : Q) (img : option (list byte)) (resp : option string)
         (e : string),
    30 <= t0 ->
    Intent.has_image img = true ->
    Ollama.check_intent_match resp = (false, e) ->
    snd (Intent.run scenario_checker (scenario_ticks t0 img resp))
    = map (fun k => (tick_time t0 k, Intent.MismatchDetected "debugging" e))
          (seq 240 11)
    /\ tick_time t0 240 == t0 + 120 * 60.
Proof.
  intros t0 img resp e Ht Himg Hj. split.
  - unfold scenario_ticks.
    change (seq 0 251) with (0%nat :: seq 1 250).
    cbn [map Intent.run].
    cbn [scenario_tick Intent.at_time Intent.image Intent.response].
    destruct (scenario_first_check t0 img resp e Ht Himg Hj) as [Hc He].
    destruct (Intent.check (tick_time t0 0) img resp scenario_checker)
      as [[st c'] evs].
    cbn [fst snd] in Hc, He. subst c' evs.
    pose proof (scenario_run_from t0 img resp e Himg Hj 250 0) as Hr.
    destruct (Intent.run _ _) as [c'' log]. cbn [snd] in *.
    rewrite Hr. reflexivity.
  - unfold tick_time. change (inject_Z (Z.of_nat 240)) with 240. lra.
Qed.

Lemma mismatch_callback_fires_from_threshold_on_witness :
  snd (Intent.run scenario_checker
         (scenario_ticks 1000 (Some [x00]) (Some "NO: social media"%string)))
  = map (fun k => (tick_time 1000 k,
                   Intent.MismatchDetected "debugging" "SOCIAL MEDIA"))
        (seq 240 11).
Proof.
  apply (mismatch_callback_fires_from_threshold_on
           1000 (Some [x00]) (Some "NO: social media"%string)
           "SOCIAL MEDIA").
  - lra.
  - reflexivity.
  - reflexivity.
Defined.

(* ================================================================== *)
(** * Further properties of the modelled code *)

(** ** The bounded buffers of the input sensor *)

Lemma deque_append_length {A} (cap : nat) (dq : list A) (x : A) :
  List.length (deque_append cap dq x) = Nat.min (S (List.length dq)) cap.
Proof.
  unfold deque_append. rewrite length_skipn, !length_app.
  cbn [List.length]. lia.
Qed.

Lemma deque_append_fold {A} (cap : nat) (xs : list A) :
  forall dq : list A,
    (List.length dq <= cap)%nat ->
    fold_left (deque_append cap) xs dq = last_n cap (dq ++ xs).
Proof.
  unfold last_n.
  induction xs as [| a xs IH]; intros dq H.
  - cbn. rewrite app_nil_r.
    replace (List.length dq - cap)%nat with 0%nat by lia. reflexivity.
  - cbn [fold_left]. rewrite IH by (rewrite deque_append_length; lia).
    unfold deque_append.
    set (b := (List.length (dq ++ [a]) - cap)%nat).
    assert (Hb : (b <= List.length (dq ++ [a]))%nat) by (unfold b; lia).
    assert (E : skipn b (dq ++ [a]) ++ xs = skipn b (dq ++ a :: xs)).
    { replace (dq ++ a :: xs) with ((dq ++ [a]) ++ xs)
        by (rewrite <- app_assoc; reflexivity).
      rewrite (skipn_app b (dq ++ [a]) xs).
      replace (b - List.length (dq ++ [a]))%nat with 0%nat by lia.
      reflexivity. }
    rewrite E, skipn_skipn, length_skipn. f_equal.
    unfold b in *. rewrite !length_app in *. cbn [List.length] in *. lia.
Qed.

Lemma press_keys_buffer (ts : list Q) :
  forall s : Sensors.InputSensor,
    Sensors._keystroke_times (press_keys ts s)
    = fold_left (deque_append 1000) ts (Sensors._keystroke_times s)
    /\ Sensors._click_times (press_keys ts s) = Sensors._click_times s.
Proof.
  unfold press_keys. induction ts as [| t ts IH]; intros s; [now cbn |].
  cbn [fold_left]. destruct (IH (Sensors._on_key_press t s)) as [-> ->].
  now cbn.
Qed.

Lemma press_clicks_buffer (ts : list Q) :
  forall s : Sensors.InputSensor,
    Sensors._click_times (press_clicks ts s)
    = fold_left (deque_append 500) ts (Sensors._click_times s)
    /\ Sensors._keystroke_times (press_clicks ts s)
       = Sensors._keystroke_times s.
Proof.
  unfold press_clicks. induction ts as [| t ts IH]; intros s; [now cbn |].
  cbn [fold_left]. destruct (IH (Sensors._on_mouse_click t true s)) as [-> ->].
  now cbn.
Qed.

(** X1. The timestamp buffers are bounded queues: after any burst of key
    presses the keystroke buffer holds exactly the last 1000 timestamps
    recorded (the oldest are dropped first), and after any burst of
    clicks the click buffer holds exactly the last 500; a mouse release
    records nothing. *)
Theorem input_buffers_keep_the_latest :
  forall (s : Sensors.InputSensor) (ts : list Q),
    (List.length (Sensors._keystroke_times s) <= 1000)%nat ->
    (List.length (Sensors._click_times s) <= 500)%nat ->
    Sensors._keystroke_times (press_keys ts s)
    = last_n 1000 (Sensors._keystroke_times s ++ ts)
    /\ (List.length (Sensors._keystroke_times (press_keys ts s)) <= 1000)%nat
    /\ Sensors._click_times (press_clicks ts s)
       = last_n 500 (Sensors._click_times s ++ ts)
    /\ (List.length (Sensors._click_times (press_clicks ts s)) <= 500)%nat
    /\ (forall t, Sensors._on_mouse_click t false s = s).
Proof.
  intros s ts Hk Hc.
  destruct (press_keys_buffer ts s) as [Ek _].
  destruct (press_clicks_buffer ts s) as [Ec _].
  rewrite Ek, Ec, !deque_append_fold by trivial.
  unfold last_n. rewrite !length_skipn.
  repeat split; try lia. 
Qed.

Lemma input_buffers_keep_the_latest_witness :
  Sensors._keystroke_times
    (press_keys (repeat 7 1001)
       {| Sensors.window_size := 10;
          Sensors.baseline_duration := 300;
          Sensors.stress_threshold := 50;
          Sensors.on_stress_detected := false;
          Sensors._keystroke_times := [1; 2; 3];
          Sensors._click_times := [];
          Sensors._baseline_samples := [];
          Sensors._running := true;
          Sensors._start_time := 0 |})
  = last_n 1000 ([1; 2; 3] ++ repeat 7 1001).
Proof.
  apply (input_buffers_keep_the_latest
           {| Sensors.window_size := 10;
              Sensors.baseline_duration := 300;
              Sensors.stress_threshold := 50;
              Sensors.on_stress_detected := false;
              Sensors._keystroke_times := [1; 2; 3];
              Sensors._click_times := [];
              Sensors._baseline_samples := [];
              Sensors._running := true;
              Sensors._start_time := 0 |} (repeat 7 1001)); cbn; lia.
Defined.

Lemma count_recent_le_length (ws : Q) (times : list Q) :
  (Sensors.count_recent ws times <= Z.of_nat (List.length times))%Z.
Proof.
  induction times as [| t times IH]; [reflexivity |].
  rewrite count_recent_cons. cbn [List.length].
  destruct (gtb t ws); lia.
Qed.

Lemma count_recent_all_inside (ws : Q) (times : list Q) :
  Forall (fun t => ws < t) times ->
  Sensors.count_recent ws times = Z.of_nat (List.length times).
Proof.
  induction 1 as [| t times Ht _ IH]; [reflexivity |].
  rewrite count_recent_cons, IH. apply gtb_gt in Ht. rewrite Ht.
  cbn [List.length]. lia.
Qed.

Lemma Forall_skipn {A} (P : A -> Prop) (n : nat) (l : list A) :
  Forall P l -> Forall P (skipn n l).
Proof.
  intros H. rewrite <- (firstn_skipn n l) in H.
  now apply Forall_app in H.
Qed.

(** X2. The capacity of the buffer caps what the sensor can see: on a
    buffer of at most 1000 timestamps the reported keystroke rate is at
    most [1000 / window_size]; and when a burst of more than 1000 key
    presses falls strictly inside the window of a sensor whose buffer
    was empty, [get_state] counts 1000 of them, not all. *)
Theorem keystroke_count_saturates_at_capacity :
  forall (now : Q) (s : Sensors.InputSensor),
    (List.length (Sensors._keystroke_times s) <= 1000)%nat ->
    0 < Sensors.window_size s ->
    (forall st s',
        Sensors.get_state now s = (Ok st, s') ->
        0 <= Sensors.keystrokes_per_second st
        /\ Sensors.keystrokes_per_second st <= 1000 / Sensors.window_size s)
    /\ (forall ts : list Q,
           Sensors._keystroke_times s = [] ->
           Forall (fun t => now - Sensors.window_size s < t) ts ->
           Sensors.count_recent
             (now - Sensors.window_size s)
             (Sensors._keystroke_times (press_keys ts s))
           = Z.of_nat (Nat.min (List.length ts) 1000)).
Proof.
  intros now s Hlen Hw. split.
  - intros st s' H. apply sensor_get_state_inv in H.
    destruct H as (_ & _ & -> & _).
    set (n := Sensors.count_recent _ _).
    assert (H0 : (0 <= n)%Z) by apply count_recent_nonneg.
    assert (H1 : (n <= 1000)%Z).
    { pose proof (count_recent_le_length
                    (now - Sensors.window_size s)
                    (Sensors._keystroke_times s)). fold n in H. lia. }
    rewrite Zle_Qle in H0, H1.
    change (inject_Z 0) with 0 in H0. change (inject_Z 1000) with 1000 in H1.
    split.
    + apply Qle_shift_div_l; trivial. lra.
    + apply Qle_shift_div_l; trivial.
      unfold Qdiv. rewrite <- Qmult_assoc, (Qmult_comm (/ _)), Qmult_inv_r; lra.
  - intros ts He Hin.
    destruct (press_keys_buffer ts s) as [-> _].
    rewrite deque_append_fold by (rewrite He; cbn; lia).
    rewrite He. cbn [app]. unfold last_n.
    rewrite count_recent_all_inside by now apply Forall_skipn.
    rewrite length_skipn. lia.
Qed.

Lemma keystroke_count_saturates_at_capacity_witness :
  Sensors.count_recent
    (1000 - 10)
    (Sensors._keystroke_times
       (press_keys (repeat 999 1200)
          {| Sensors.window_size := 10;
             Sensors.baseline_duration := 300;
             Sensors.stress_threshold := 50;
             Sensors.on_stress_detected := false;
             Sensors._keystroke_times := [];
             Sensors._click_times := [];
             Sensors._baseline_samples := [];
             Sensors._running := true;
             Sensors._start_time := 0 |}))
  = Z.of_nat (Nat.min (List.length (repeat 999 1200)) 1000).
Proof.
  pose (s0 := {| Sensors.window_size := 10;
                 Sensors.baseline_duration := 300;
                 Sensors.stress_threshold := 50;
                 Sensors.on_stress_detected := false;
                 Sensors._keystroke_times := [];
                 Sensors._click_times := [];
                 Sensors._baseline_samples := [];
                 Sensors._running := true;
                 Sensors._start_time := 0 |}).
  assert (H1 : (List.length (Sensors._keystroke_times s0) <= 1000)%nat)
    by (cbn; lia).
  assert (H2 : 0 < Sensors.window_size s0) by (cbn; lra).
  destruct (keystroke_count_saturates_at_capacity 1000 s0 H1 H2) as [_ H].
  apply (H (repeat 999 1200) eq_refl).
  apply Forall_forall. intros t Ht. apply repeat_spec in Ht. subst t.
  cbn. lra.
Defined.

(** ** What a query does to the sensor *)

Lemma sensor_after_query (now : Q) (s : Sensors.InputSensor) :
  snd (Sensors.get_state now s)
  = if Qeq_bool (Sensors.window_size s) 0 then s
    else if ltb (now - Sensors._start_time s) (Sensors.baseline_duration s)
            && (0 <? Sensors.count_recent (now - Sensors.window_size s)
                                          (Sensors._keystroke_times s))%Z
         then Sensors.with_baseline_samples s
                (Sensors._baseline_samples s
                 ++ [inject_Z (Sensors.count_recent
                                 (now - Sensors.window_size s)
                                 (Sensors._keystroke_times s))
                     / Sensors.window_size s])
         else s.
Proof.
  unfold Sensors.get_state, truediv.
  destruct (Qeq_bool (Sensors.window_size s) 0); [reflexivity |].
  destruct (Qeq_bool (Sensors.stress_threshold s) 0); reflexivity.
Qed.

(** X3. [InputSensor.get_state] changes nothing of the sensor but its
    baseline samples, and those only during calibration while keys are
    being typed: then it appends one sample, the keystroke rate it
    reports.  After the calibration period, or with no keystroke in the
    window, or when it raises on a zero window, the sensor is left
    exactly as it was. *)
Theorem sensor_query_only_samples_the_baseline :
  forall (now : Q) (s : Sensors.InputSensor),
    (snd (Sensors.get_state now s) = s
     \/ (snd (Sensors.get_state now s)
         = Sensors.with_baseline_samples s
             (Sensors._baseline_samples s
              ++ [inject_Z (Sensors.count_recent
                              (now - Sensors.window_size s)
                              (Sensors._keystroke_times s))
                  / Sensors.window_size s])
         /\ now - Sensors._start_time s < Sensors.baseline_duration s
         /\ (0 < Sensors.count_recent (now - Sensors.window_size s)
                                      (Sensors._keystroke_times s))%Z))
    /\ (Sensors.baseline_duration s <= now - Sensors._start_time s ->
        snd (Sensors.get_state now s) = s)
    /\ (Sensors.count_recent (now - Sensors.window_size s)
                             (Sensors._keystroke_times s) = 0%Z ->
        snd (Sensors.get_state now s) = s)
    /\ (Sensors.window_size s == 0 -> snd (Sensors.get_state now s) = s)
    /\ Sensors._keystroke_times (snd (Sensors.get_state now s))
       = Sensors._keystroke_times s
    /\ Sensors._click_times (snd (Sensors.get_state now s))
       = Sensors._click_times s.
Proof.
  intros now s. rewrite !sensor_after_query.
  set (n := Sensors.count_recent _ (Sensors._keystroke_times s)).
  destruct (Qeq_bool (Sensors.window_size s) 0) eqn:Ew.
  { repeat split; try (intros; reflexivity). now left. }
  apply Qeq_bool_neq in Ew.
  destruct (ltb_cases (now - Sensors._start_time s)
                      (Sensors.baseline_duration s)) as [[-> L] | [-> L]];
    destruct (0 <? n)%Z eqn:En; cbn [andb].
  all: try (apply Z.ltb_lt in En).
  all: try (apply Z.ltb_ge in En).
  all: repeat split; try (intros; reflexivity);
    try (intros; exfalso; lra); try (intros; exfalso; lia);
    try (intros; contradiction).
  all: try (now left).
  right. now repeat split.
Qed.

Lemma sensor_query_only_samples_the_baseline_witness :
  snd (Sensors.get_state 1000
         {| Sensors.window_size := 10;
            Sensors.baseline_duration := 300;
            Sensors.stress_threshold := 50;
            Sensors.on_stress_detected := false;
            Sensors._keystroke_times := [995; 999];
            Sensors._click_times := [];
            Sensors._baseline_samples := [1];
            Sensors._running := true;
            Sensors._start_time := 100 |})
  = {| Sensors.window_size := 10;
       Sensors.baseline_duration := 300;
       Sensors.stress_threshold := 50;
       Sensors.on_stress_detected := false;
       Sensors._keystroke_times := [995; 999];
       Sensors._click_times := [];
       Sensors._baseline_samples := [1];
       Sensors._running := true;
       Sensors._start_time := 100 |}.
Proof.
  destruct (sensor_query_only_samples_the_baseline 1000
           {| Sensors.window_size := 10;
              Sensors.baseline_duration := 300;
              Sensors.stress_threshold := 50;
              Sensors.on_stress_detected := false;
              Sensors._keystroke_times := [995; 999];
              Sensors._click_times := [];
              Sensors._baseline_samples := [1];
              Sensors._running := true;
              Sensors._start_time := 100 |}) as (_ & H & _).
  apply H. cbn [Sensors.baseline_duration Sensors._start_time]. lra.
Defined.

(** ** Calibration and the sensor's own trigger *)

Lemma sensor_get_state_ok (now : Q) (s : Sensors.InputSensor) :
  ~ Sensors.window_size s == 0 ->
  ~ Sensors.stress_threshold s == 0 ->
  exists b : Q,
    Sensors.get_state now s
    = (Ok {| Sensors.keystrokes_per_second :=
               inject_Z (Sensors.count_recent (now - Sensors.window_size s)
                                              (Sensors._keystroke_times s))
               / Sensors.window_size s;
             Sensors.mouse_clicks_per_second :=
               inject_Z (Sensors.count_recent (now - Sensors.window_size s)
                                              (Sensors._click_times s))
               / Sensors.window_size s;
             Sensors.current_stress_score :=
               Py.min 100
                 (inject_Z (Sensors.count_recent
                              (now - Sensors.window_size s)
                              (Sensors._keystroke_times s))
                  / Sensors.stress_threshold s * 100);
             Sensors.baseline_typing_speed := b;
             Sensors.is_calibrating :=
               ltb (now - Sensors._start_time s)
                   (Sensors.baseline_duration s) |},
       snd (Sensors.get_state now s)).
Proof.
  intros Hw Ht. unfold Sensors.get_state.
  rewrite !(truediv_ok _ _ Hw), (truediv_ok _ _ Ht). cbn [snd].
  eexists. reflexivity.
Qed.

Lemma sensor_get_state_raises (now : Q) (s : Sensors.InputSensor) :
  (exists st, fst (Sensors.get_state now s) = Ok st)
  \/ fst (Sensors.get_state now s) = Raise ZeroDivisionError.
Proof.
  destruct (Sensors.get_state now s) as [[st | []] s']; cbn; eauto.
Qed.

Lemma sensor_get_state_calibrating (now : Q) (s s' : Sensors.InputSensor)
      (st : Sensors.SensorState) :
  Sensors.get_state now s = (Ok st, s') ->
  Sensors.is_calibrating st
  = ltb (now - Sensors._start_time s) (Sensors.baseline_duration s).
Proof.
  intros H. pose proof H as H'. apply sensor_get_state_inv in H'.
  destruct H' as (Hw & Ht & _).
  destruct (sensor_get_state_ok now s Hw Ht) as [b E].
  rewrite E in H. now injection H as <- _.
Qed.

(** X4. [InputSensor.check_stress] never triggers during calibration:
    it returns no score and does not call back, however fast the typing.
    After calibration, with a positive threshold, it returns the score
    (which is then 100) and calls [on_stress_detected] once if it is
    installed, exactly when the keystroke count in the window has
    reached [stress_threshold]; below the threshold it returns nothing
    and does not call back. *)
Theorem check_stress_is_suppressed_during_calibration :
  forall (now : Q) (s : Sensors.InputSensor),
    (now - Sensors._start_time s < Sensors.baseline_duration s ->
     fst (fst (Sensors.check_stress now s)) <> Ok None ->
     fst (fst (Sensors.check_stress now s)) = Raise ZeroDivisionError)
    /\ (now - Sensors._start_time s < Sensors.baseline_duration s ->
        snd (Sensors.check_stress now s) = [])
    /\ (Sensors.baseline_duration s <= now - Sensors._start_time s ->
        0 < Sensors.stress_threshold s ->
        ~ Sensors.window_size s == 0 ->
        let n := inject_Z (Sensors.count_recent
                             (now - Sensors.window_size s)
                             (Sensors._keystroke_times s)) in
        (Sensors.stress_threshold s <= n ->
         exists sc,
           fst (fst (Sensors.check_stress now s)) = Ok (Some sc)
           /\ sc == 100
           /\ snd (Sensors.check_stress now s)
              = if Sensors.on_stress_detected s then [sc] else [])
        /\ (n < Sensors.stress_threshold s ->
            fst (fst (Sensors.check_stress now s)) = Ok None
            /\ snd (Sensors.check_stress now s) = [])).
Proof.
  intros now s. unfold Sensors.check_stress.
  split; [| split].
  - intros Hc. destruct (Sensors.get_state now s) as [[st | []] s'] eqn:E.
    + rewrite (sensor_get_state_calibrating _ _ _ _ E).
      apply ltb_lt in Hc. rewrite Hc. cbn. intros H. now elim H.
    + now cbn.
  - intros Hc. destruct (Sensors.get_state now s) as [[st | []] s'] eqn:E.
    + rewrite (sensor_get_state_calibrating _ _ _ _ E).
      apply ltb_lt in Hc. now rewrite Hc.
    + reflexivity.
  - intros Hc Ht Hw.
    assert (Ht0 : ~ Sensors.stress_threshold s == 0) by lra.
    destruct (sensor_get_state_ok now s Hw Ht0) as [b ->].
    cbn [Sensors.is_calibrating Sensors.current_stress_score].
    apply ltb_ge in Hc. rewrite Hc.
    set (n := inject_Z (Sensors.count_recent
                          (now - Sensors.window_size s)
                          (Sensors._keystroke_times s))).
    assert (Hn : 0 <= n).
    { unfold n. change 0 with (inject_Z 0). rewrite <- Zle_Qle.
      apply count_recent_nonneg. }
    set (thr := Sensors.stress_threshold s) in *.
    split.
    + intros Hge. assert (H1 : 1 <= n / thr) by (apply Qle_shift_div_l; lra).
      unfold Py.min.
      destruct (ltb_cases (n / thr * 100) 100) as [[-> L] | [-> L]];
        [exfalso; lra |].
      assert (G : geb 100 100 = true) by reflexivity. rewrite G.
      exists 100. cbn. repeat split; reflexivity.
    + intros Hlt. assert (H1 : n / thr < 1) by (apply Qlt_shift_div_r; lra).
      unfold Py.min.
      destruct (ltb_cases (n / thr * 100) 100) as [[-> L] | [-> L]];
        [| exfalso; lra].
      assert (G : geb (n / thr * 100) 100 = false).
      { apply not_true_iff_false. rewrite geb_ge. lra. }
      rewrite G. now cbn.
Qed.

Lemma check_stress_is_suppressed_during_calibration_witness :
  snd (Sensors.check_stress 1000
         {| Sensors.window_size := 10;
            Sensors.baseline_duration := 300;
            Sensors.stress_threshold := 2;
            Sensors.on_stress_detected := true;
            Sensors._keystroke_times := [995; 996; 999];
            Sensors._click_times := [];
            Sensors._baseline_samples := [];
            Sensors._running := true;
            Sensors._start_time := 900 |}) = [].
Proof.
  destruct (check_stress_is_suppressed_during_calibration 1000
         {| Sensors.window_size := 10;
            Sensors.baseline_duration := 300;
            Sensors.stress_threshold := 2;
            Sensors.on_stress_detected := true;
            Sensors._keystroke_times := [995; 996; 999];
            Sensors._click_times := [];
            Sensors._baseline_samples := [];
            Sensors._running := true;
            Sensors._start_time := 900 |}) as (_ & H & _).
  apply H. cbn [Sensors.baseline_duration Sensors._start_time]. lra.
Defined.

(** X5. Starting and restarting.  [start] on a running sensor changes
    nothing (the calibration clock is not reset).  On a sensor that is
    stopped and started again at [t], a query at [now] reports
    [is_calibrating] exactly while [now - t < baseline_duration]: the
    calibration window is opened anew, and since neither [stop] nor
    [start] clears anything, the baseline samples and the buffered
    timestamps of the earlier session are still there. *)
Theorem restart_reopens_calibration_and_keeps_samples :
  forall (t : Q) (s : Sensors.InputSensor),
    (Sensors._running s = true -> Sensors.start t s = s)
    /\ (forall t', Sensors.start t' (Sensors.start t (Sensors.stop s))
                   = Sensors.start t (Sensors.stop s))
    /\ Sensors._baseline_samples (Sensors.start t (Sensors.stop s))
       = Sensors._baseline_samples s
    /\ Sensors._keystroke_times (Sensors.start t (Sensors.stop s))
       = Sensors._keystroke_times s
    /\ (forall now st s',
           Sensors.get_state now (Sensors.start t (Sensors.stop s))
           = (Ok st, s') ->
           (Sensors.is_calibrating st = true
            <-> now - t < Sensors.baseline_duration s)).
Proof.
  intros t s. split; [| split; [| split; [| split]]].
  - intros H. unfold Sensors.start. now rewrite H.
  - reflexivity.
  - reflexivity.
  - reflexivity.
  - intros now st s' H. apply sensor_get_state_calibrating in H.
    rewrite H. cbn [Sensors.start Sensors.stop Sensors._running
                    Sensors._start_time Sensors.baseline_duration].
    apply ltb_lt.
Qed.

Lemma restart_reopens_calibration_and_keeps_samples_witness :
  Sensors.start 5000 example_sensor_running = example_sensor_running.
Proof.
  apply (restart_reopens_calibration_and_keeps_samples
           5000 example_sensor_running).
  reflexivity.
Defined.

Lemma fresh_sensor_reports_zero_aux (w b thr now : Q) :
  ~ w == 0 -> ~ thr == 0 ->
  exists st,
    Sensors.get_state now
      {| Sensors.window_size := w;
         Sensors.baseline_duration := b;
         Sensors.stress_threshold := thr;
         Sensors.on_stress_detected := false;
         Sensors._keystroke_times := [];
         Sensors._click_times := [];
         Sensors._baseline_samples := [];
         Sensors._running := false;
         Sensors._start_time := 0 |}
    = (Ok st,
       {| Sensors.window_size := w;
          Sensors.baseline_duration := b;
          Sensors.stress_threshold := thr;
          Sensors.on_stress_detected := false;
          Sensors._keystroke_times := [];
          Sensors._click_times := [];
          Sensors._baseline_samples := [];
          Sensors._running := false;
          Sensors._start_time := 0 |})
    /\ Sensors.current_stress_score st == 0.
Proof.
  intros Hw Ht.
  unfold Sensors.get_state.
  cbn [Sensors.window_size Sensors.stress_threshold Sensors._keystroke_times
       Sensors._click_times Sensors._start_time Sensors.baseline_duration
       Sensors._baseline_samples].
  change (Sensors.count_recent (now - w) []) with 0%Z.
  rewrite !(truediv_ok _ _ Hw), (truediv_ok _ _ Ht).
  cbn [Z.ltb andb]. rewrite andb_false_r.
  eexists. split; [reflexivity |].
  cbn [Sensors.current_stress_score]. change (inject_Z 0) with 0.
  assert (E2 : 0 / thr * 100 == 0) by (field; trivial).
  unfold Py.min.
  destruct (ltb_cases (0 / thr * 100) 100) as [[-> L] | [-> L]];
    [exact E2 | exfalso; lra].
Qed.

(** X6. A sensor fresh from its constructor (non-zero window and
    threshold) answers every query with zero rates, a zero stress score
    and a zero baseline, and is left unchanged by it.  Its start time
    being 0 until [start] is called, it reports [is_calibrating] only for
    clock readings below [baseline_duration]. *)
Theorem fresh_sensor_reports_zero :
  forall (w b thr now : Q) (s : Sensors.InputSensor),
    Sensors.new w b thr = Ok s ->
    ~ w == 0 -> ~ thr == 0 ->
    exists st,
      Sensors.get_state now s = (Ok st, s)
      /\ Sensors.keystrokes_per_second st == 0
      /\ Sensors.mouse_clicks_per_second st == 0
      /\ Sensors.current_stress_score st == 0
      /\ Sensors.baseline_typing_speed st = 0
      /\ (Sensors.is_calibrating st = true <-> now < b).
Proof.
  intros w b thr now s [= <-] Hw Ht.
  unfold Sensors.get_state.
  cbn [Sensors.window_size Sensors.stress_threshold Sensors._keystroke_times
       Sensors._click_times Sensors._start_time Sensors.baseline_duration
       Sensors._baseline_samples].
  change (Sensors.count_recent (now - w) []) with 0%Z.
  rewrite !(truediv_ok _ _ Hw), (truediv_ok _ _ Ht).
  cbn [Z.ltb andb]. rewrite andb_false_r.
  cbn [Sensors._baseline_samples].
  eexists. split; [reflexivity |].
  cbn [Sensors.keystrokes_per_second Sensors.mouse_clicks_per_second
       Sensors.current_stress_score Sensors.baseline_typing_speed
       Sensors.is_calibrating].
  change (inject_Z 0) with 0.
  assert (E1 : 0 / w == 0) by (field; trivial).
  assert (E2 : 0 / thr * 100 == 0) by (field; trivial).
  split; [exact E1 | split; [exact E1 | split; [| split; [reflexivity |]]]].
  - unfold Py.min.
    destruct (ltb_cases (0 / thr * 100) 100) as [[-> L] | [-> L]];
      [exact E2 | exfalso; lra].
  - rewrite ltb_lt. split; intros; lra.
Qed.

Lemma fresh_sensor_reports_zero_witness :
  exists st,
    Sensors.get_state 1700000000
      {| Sensors.window_size := 10;
         Sensors.baseline_duration := 300;
         Sensors.stress_threshold := 50;
         Sensors.on_stress_detected := false;
         Sensors._keystroke_times := [];
         Sensors._click_times := [];
         Sensors._baseline_samples := [];
         Sensors._running := false;
         Sensors._start_time := 0 |}
    = (Ok st,
       {| Sensors.window_size := 10;
          Sensors.baseline_duration := 300;
          Sensors.stress_threshold := 50;
          Sensors.on_stress_detected := false;
          Sensors._keystroke_times := [];
          Sensors._click_times := [];
          Sensors._baseline_samples := [];
          Sensors._running := false;
          Sensors._start_time := 0 |})
    /\ Sensors.is_calibrating st = false.
Proof.
  edestruct (fresh_sensor_reports_zero 10 300 50 1700000000)
    as (st & E & _ & _ & _ & _ & Hc).
  - reflexivity.
  - intros H. discriminate H.
  - intros H. discriminate H.
  - exists st. split; [exact E |].
    destruct (Sensors.is_calibrating st); [| reflexivity].
    assert (H : 1700000000 < 300) by now apply Hc.
    exfalso. lra.
Defined.

(** ** Fusion and the detector's state *)

Lemma level_of_monotone (s s' : Q) :
  s <= s' -> (rank (level_of s) <= rank (level_of s'))%nat.
Proof.
  intros H.
  destruct (level_of_cases s)
    as [[H1 E] | [(H1 & H2 & E) | [(H1 & H2 & E) | (H1 & E)]]];
    destruct (level_of_cases s')
      as [[H1' E'] | [(H1' & H2' & E') | [(H1' & H2' & E') | (H1' & E')]]];
    rewrite E, E'; cbn; try lia; exfalso; lra.
Qed.

(** X7. The composite score never decreases when a sub-score increases,
    and the level never decreases when the composite score does not:
    raising any of the three signals can only keep or raise the level. *)
Theorem fusion_and_level_are_monotone :
  forall i i' b b' p p' : Q,
    i <= i' -> b <= b' -> p <= p' ->
    fuse i b p <= fuse i' b' p'
    /\ (rank (level_of (fuse i b p)) <= rank (level_of (fuse i' b' p')))%nat
    /\ (forall now d d',
           (rank (level (state_of now i b p d))
            <= rank (level (state_of now i' b' p' d')))%nat).
Proof.
  intros i i' b b' p p' Hi Hb Hp.
  assert (H : fuse i b p <= fuse i' b' p') by (unfold fuse; lra).
  split; [exact H | split].
  - now apply level_of_monotone.
  - intros now d d'. cbn. now apply level_of_monotone.
Qed.

Lemma fusion_and_level_are_monotone_witness :
  (rank (level_of (fuse 100 0 0)) <= rank (level_of (fuse 100 100 0)))%nat.
Proof.
  apply (fusion_and_level_are_monotone 100 100 0 100 0 0); lra.
Defined.

(** X8. A detector fresh from its constructor (non-zero stress
    threshold), queried before any input was recorded, reports level
    CALM and score 0 and is left unchanged; it reports [can_intervene]
    exactly when the clock reading exceeds the cooldown, the last
    intervention time starting at 0. *)
Theorem fresh_detector_is_calm :
  forall (st : Settings) (on_stress on_calm : bool) (d : StressDetector)
         (now now_sensor : Q),
    Detector.new st on_stress on_calm = Ok d ->
    ~ detection_stress_threshold st == 0 ->
    exists s,
      get_state now now_sensor d = (Ok s, d)
      /\ level s = CALM
      /\ score s == 0
      /\ input_score s == 0
      /\ last_intervention s = 0
      /\ (can_intervene s = true <-> intervention_cooldown st < now).
Proof.
  intros st on_stress on_calm d now now_sensor Hnew Ht.
  unfold Detector.new in Hnew.
  assert (Hfin : forall (i : Q) (d0 : StressDetector),
             i == 0 -> settings d0 = st -> _last_intervention_time d0 = 0 ->
             level (state_of now i 0 0 d0) = CALM
             /\ score (state_of now i 0 0 d0) == 0
             /\ input_score (state_of now i 0 0 d0) == 0
             /\ last_intervention (state_of now i 0 0 d0) = 0
             /\ (can_intervene (state_of now i 0 0 d0) = true
                 <-> intervention_cooldown st < now)).
  { intros i d0 Hi Hs Hl. cbn. rewrite Hs, Hl.
    assert (Hf : fuse i 0 0 == 0) by (unfold fuse; lra).
    split; [| split; [exact Hf | split; [exact Hi | split; [reflexivity |]]]].
    - destruct (level_of_cases (fuse i 0 0))
        as [[_ E] | [(H & _) | [(H & _) | (H & _)]]];
        trivial; exfalso; lra.
    - rewrite gtb_gt. split; intros; lra. }
  destruct (sensors_keyboard st || sensors_mouse st).
  - cbn in Hnew. injection Hnew as <-.
    edestruct (fresh_sensor_reports_zero_aux
                 10 (detection_baseline_window st)
                 (detection_stress_threshold st) now_sensor)
      as (sst & E & Hsc); [intros H; discriminate H | exact Ht |].
    unfold get_state. cbn [_input_sensor]. rewrite E. cbn [bind].
    eexists. split; [reflexivity |]. now apply Hfin.
  - cbn in Hnew. injection Hnew as <-.
    unfold get_state. cbn [_input_sensor].
    eexists. split; [reflexivity |]. apply Hfin; reflexivity.
Qed.

Lemma fresh_detector_is_calm_witness :
  exists s,
    get_state 1700000000 1700000000 example_detector = (Ok s, example_detector)
    /\ level s = CALM /\ can_intervene s = true.
Proof.
  edestruct (fresh_detector_is_calm default_settings true true
               example_detector 1700000000 1700000000)
    as (s & E & Hl & _ & _ & _ & Hc).
  - reflexivity.
  - intros H. discriminate H.
  - exists s. split; [exact E | split; [exact Hl |]].
    apply Hc. cbn. lra.
Defined.

Lemma get_state_set_settings (st : Settings) (now now_sensor : Q)
      (d : StressDetector) :
  get_state now now_sensor (set_settings st d)
  = (match fst (get_state now now_sensor d) with
     | Ok s =>
         Ok {| level := level s;
               score := score s;
               input_score := input_score s;
               breathing_score := breathing_score s;
               posture_score := posture_score s;
               last_intervention := last_intervention s;
               can_intervene :=
                 gtb (now - _last_intervention_time d)
                     (intervention_cooldown st) |}
     | Raise e => Raise e
     end,
     set_settings st (snd (get_state now now_sensor d))).
Proof.
  unfold get_state. cbn [set_settings _input_sensor].
  destruct (_input_sensor d) as [s |]; [| reflexivity].
  destruct (Sensors.get_state now_sensor s) as [[sst | e] s']; reflexivity.
Qed.

Lemma fresh_detector_is_calm_aux (now now_sensor : Q) :
  exists s,
    get_state now now_sensor example_detector = (Ok s, example_detector)
    /\ level s = CALM.
Proof.
  edestruct (fresh_sensor_reports_zero_aux 10 1800 50 now_sensor)
    as (sst & E & Hsc); [intros H; discriminate H ..|].
  unfold get_state, example_detector. cbn [_input_sensor]. rewrite E.
  cbn [bind]. eexists. split; [reflexivity |]. cbn.
  set (i := Sensors.current_stress_score sst) in *.
  assert (Hf : fuse i 0 0 == 0) by (unfold fuse; lra).
  destruct (level_of_cases (fuse i 0 0))
    as [[_ E'] | [(H & _) | [(H & _) | (H & _)]]];
    trivial; exfalso; lra.
Qed.

(** X9. Saving the settings replaces the detector's settings object and
    nothing else.  From then on [get_state] judges [can_intervene]
    against the new cooldown, but the level, the composite score and the
    input score are what they were: the input sensor keeps the
    [stress_threshold] it was constructed with. *)
Theorem saved_settings_change_the_cooldown_only :
  forall (st : Settings) (now now_sensor : Q) (d d' : StressDetector)
         (s : DetectorState),
    get_state now now_sensor d = (Ok s, d') ->
    exists s2,
      get_state now now_sensor (set_settings st d)
      = (Ok s2, set_settings st d')
      /\ level s2 = level s
      /\ score s2 = score s
      /\ input_score s2 = input_score s
      /\ can_intervene s2
         = gtb (now - _last_intervention_time d) (intervention_cooldown st)
      /\ _input_sensor (set_settings st d) = _input_sensor d.
Proof.
  intros st now now_sensor d d' s H.
  rewrite get_state_set_settings, H. cbn [fst snd].
  eexists. split; [reflexivity |]. now cbn.
Qed.

Lemma saved_settings_change_the_cooldown_only_witness :
  exists s2,
    fst (get_state 1700000000 1700000000
           (set_settings scenario_settings example_detector)) = Ok s2
    /\ level s2 = CALM.
Proof.
  edestruct (fresh_detector_is_calm_aux 1700000000 1700000000) as (s & E & Hl).
  edestruct (saved_settings_change_the_cooldown_only
               scenario_settings 1700000000 1700000000
               example_detector example_detector s E)
    as (s2 & E2 & Hl2 & _).
  exists s2. rewrite E2. split; [reflexivity | congruence].
Defined.

(** ** The monitoring loop *)

Lemma sensor_score_ignores_baseline (now : Q) (s : Sensors.InputSensor)
      (bs : list Q) :
  bind (fst (Sensors.get_state now (Sensors.with_baseline_samples s bs)))
       (fun st => Ok (Sensors.current_stress_score st))
  = bind (fst (Sensors.get_state now s))
         (fun st => Ok (Sensors.current_stress_score st)).
Proof.
  unfold Sensors.get_state, truediv.
  cbn [Sensors.with_baseline_samples Sensors.window_size
       Sensors.stress_threshold Sensors._keystroke_times
       Sensors._click_times].
  destruct (Qeq_bool (Sensors.window_size s) 0); [reflexivity |].
  destruct (Qeq_bool (Sensors.stress_threshold s) 0); reflexivity.
Qed.

Lemma sensor_score_after_query (now1 now : Q) (s : Sensors.InputSensor) :
  bind (fst (Sensors.get_state now (snd (Sensors.get_state now1 s))))
       (fun st => Ok (Sensors.current_stress_score st))
  = bind (fst (Sensors.get_state now s))
         (fun st => Ok (Sensors.current_stress_score st)).
Proof.
  rewrite sensor_after_query.
  destruct (Qeq_bool (Sensors.window_size s) 0); [reflexivity |].
  destruct (_ && _); [apply sensor_score_ignores_baseline | reflexivity].
Qed.

Lemma tick_outcome_unfold (now now_sensor now_fire : Q) (d : StressDetector) :
  tick_outcome now now_sensor now_fire d
  = match _input_sensor d with
    | None =>
        let '(f, d', evs) :=
          check_and_intervene_on (state_of now 0 0 0 d) now_fire d in
        (Ok f, evs, _current_level d', _last_intervention_time d')
    | Some s =>
        match bind (fst (Sensors.get_state now_sensor s))
                   (fun st => Ok (Sensors.current_stress_score st)) with
        | Raise e =>
            (Raise e, [], _current_level d, _last_intervention_time d)
        | Ok i =>
            let '(f, d', evs) :=
              check_and_intervene_on (state_of now i 0 0 d) now_fire d in
            (Ok f, evs, _current_level d', _last_intervention_time d')
        end
    end.
Proof.
  unfold tick_outcome, check_and_intervene, get_state.
  destruct (_input_sensor d) as [s |].
  - destruct (Sensors.get_state now_sensor s) as [[sst | e] s']; cbn [fst bind].
    + unfold check_and_intervene_on, state_of.
      cbn [with_sensor settings _last_intervention_time _current_level
           on_calm_restored on_stress_detected level can_intervene score].
      destruct (elevated (level_of _) && gtb _ _); reflexivity.
    + reflexivity.
  - unfold check_and_intervene_on. destruct (_ && _); reflexivity.
Qed.

Lemma detector_after_query (now now_sensor : Q) (d : StressDetector) :
  snd (get_state now now_sensor d)
  = match _input_sensor d with
    | Some s => with_sensor d (Some (snd (Sensors.get_state now_sensor s)))
    | None => d
    end.
Proof.
  unfold get_state. destruct (_input_sensor d) as [s |]; [| reflexivity].
  destruct (Sensors.get_state now_sensor s) as [[sst | e] s']; reflexivity.
Qed.

(** X10. The monitoring loop calls [get_state] before every
    [check_and_intervene].  That extra query never changes what the tick
    does: whenever it is made and whatever it does to the sensor's
    baseline, the tick returns the same value, invokes the same
    callbacks and leaves the same level and intervention time as it
    would have without it. *)
Theorem query_before_tick_changes_nothing :
  forall (now1 now_sensor1 now now_sensor now_fire : Q) (d : StressDetector),
    tick_outcome now now_sensor now_fire
                 (snd (get_state now1 now_sensor1 d))
    = tick_outcome now now_sensor now_fire d.
Proof.
  intros now1 now_sensor1 now now_sensor now_fire d.
  rewrite !tick_outcome_unfold, detector_after_query.
  destruct (_input_sensor d) as [s |] eqn:Es.
  - cbn [with_sensor _input_sensor _current_level _last_intervention_time].
    rewrite sensor_score_after_query.
    destruct (bind _ _) as [i | e]; [| reflexivity].
    unfold check_and_intervene_on, state_of.
    cbn [settings _last_intervention_time _current_level
         on_calm_restored on_stress_detected level can_intervene score].
    destruct (elevated (level_of _) && gtb _ _); reflexivity.
  - rewrite Es. reflexivity.
Qed.

(** ** The intent checker *)

Lemma lstrip_blank (s : string) : blank s = true -> lstrip s = EmptyString.
Proof.
  induction s as [| a r IH]; [reflexivity |].
  cbn. destruct (is_space a); [exact IH | discriminate].
Qed.

Lemma strip_blank (s : string) : blank s = true -> strip s = EmptyString.
Proof.
  intros H. unfold strip. now rewrite (lstrip_blank s H).
Qed.

Lemma check_disabled (now : Q) (img : option (list byte))
      (resp : option string) (c : Intent.IntentChecker) :
  Intent._running c = false \/ truthy (Intent._current_intent c) = false ->
  Intent.check now img resp c
  = (Intent.default_state EmptyString false, c, []).
Proof.
  unfold Intent.check. intros [-> | ->]; [reflexivity |].
  now rewrite orb_true_r.
Qed.

(** X11. When checking is off.  A checker that is not running, or whose
    intent is empty, answers every [check] with the disabled state,
    stays exactly as it was and calls nothing, whatever the screen and
    the backend.  That is the case after [clear_intent], after
    [set_intent] with a blank string (the intent is stripped), and for a
    checker whose [start] was refused because the backend was
    unavailable, whatever intent is set afterwards. *)
Theorem disabled_checker_does_nothing :
  forall (now : Q) (img : option (list byte)) (resp : option string)
         (c : Intent.IntentChecker),
    (Intent._running c = false \/ truthy (Intent._current_intent c) = false ->
     Intent.check now img resp c
     = (Intent.default_state EmptyString false, c, []))
    /\ Intent.check now img resp (Intent.clear_intent c)
       = (Intent.default_state EmptyString false, Intent.clear_intent c, [])
    /\ (forall intent,
           blank intent = true ->
           Intent.check now img resp (Intent.set_intent intent c)
           = (Intent.default_state EmptyString false,
              Intent.set_intent intent c, []))
    /\ (forall intent,
           Intent._running c = false ->
           fst (Intent.start false c) = false
           /\ Intent.check now img resp
                (Intent.set_intent intent (snd (Intent.start false c)))
              = (Intent.default_state EmptyString false,
                 Intent.set_intent intent (snd (Intent.start false c)), [])).
Proof.
  intros now img resp c. split; [| split; [| split]].
  - apply check_disabled.
  - apply check_disabled. now right.
  - intros intent Hb. apply check_disabled. right.
    cbn [Intent.set_intent Intent._current_intent].
    now rewrite strip_blank.
  - intros intent Hr. split; [reflexivity |].
    apply check_disabled. now left.
Qed.

Lemma disabled_checker_does_nothing_witness :
  Intent.check 10000 (Some [x00]) (Some "NO: games"%string)
               (Intent.set_intent "   "%string late_checker)
  = (Intent.default_state EmptyString false,
     Intent.set_intent "   "%string late_checker, []).
Proof.
  destruct (disabled_checker_does_nothing
              10000 (Some [x00]) (Some "NO: games"%string) late_checker)
    as (_ & _ & H & _).
  apply H. reflexivity.
Defined.

(** X12. A throttled check is a query.  On a running checker with an
    intent, a [check] made less than [check_interval] after the last one
    returns exactly what [get_state] returns at that instant, leaves the
    checker as it was and calls nothing: neither the screen nor the
    backend is looked at. *)
Theorem throttled_check_is_get_state :
  forall (now : Q) (img : option (list byte)) (resp : option string)
         (c : Intent.IntentChecker),
    Intent._running c = true ->
    truthy (Intent._current_intent c) = true ->
    now - Intent._last_check c < Intent.check_interval c ->
    Intent.check now img resp c = (Intent.get_state now c, c, []).
Proof.
  intros now img resp c Hr Hi Ht.
  unfold Intent.check, Intent.get_state. rewrite Hr, Hi. cbn [negb orb].
  apply ltb_lt in Ht. now rewrite Ht.
Qed.

Lemma throttled_check_is_get_state_witness :
  Intent.check 9980 None None late_checker
  = (Intent.get_state 9980 late_checker, late_checker, []).
Proof.
  apply throttled_check_is_get_state; reflexivity.
Defined.

Lemma check_consulted (now : Q) (img : option (list byte))
      (resp : option string) (c : Intent.IntentChecker) :
  consulted now img c ->
  Intent.check now img resp c
  = (let '(matches, explanation) := Ollama.check_intent_match resp in
     let '(mismatch_start, evs) :=
       if matches then (None, [])
       else
         match Intent._mismatch_start c with
         | None => (Some now, [])
         | Some t0 =>
             (Some t0,
              if geb (now - t0) (Intent.mismatch_threshold c)
                 && Intent.on_mismatch_detected c
              then [Intent.MismatchDetected (Intent._current_intent c)
                                            explanation]
              else [])
         end in
     ({| Intent.current_intent := Intent._current_intent c;
         Intent.last_check_time := now;
         Intent.last_match := matches;
         Intent.last_explanation := explanation;
         Intent.mismatch_duration := Intent.duration_since now mismatch_start;
         Intent.is_enabled := true |},
      {| Intent.check_interval := Intent.check_interval c;
         Intent.mismatch_threshold := Intent.mismatch_threshold c;
         Intent.on_mismatch_detected := Intent.on_mismatch_detected c;
         Intent._current_intent := Intent._current_intent c;
         Intent._last_check := now;
         Intent._mismatch_start := mismatch_start;
         Intent._last_explanation := explanation;
         Intent._running := Intent._running c |},
      evs)).
Proof.
  intros (Hr & Hi & Ht & Him). unfold Intent.check.
  rewrite Hr, Hi, Him. cbn [negb orb].
  apply ltb_ge in Ht. now rewrite Ht.
Qed.

Lemma check_not_consulted (now : Q) (img : option (list byte))
      (resp : option string) (c : Intent.IntentChecker) :
  ~ consulted now img c ->
  snd (Intent.check now img resp c) = []
  /\ Intent._mismatch_start (snd (fst (Intent.check now img resp c)))
     = Intent._mismatch_start c
  /\ Intent.mismatch_threshold (snd (fst (Intent.check now img resp c)))
     = Intent.mismatch_threshold c.
Proof.
  intros Hn. unfold Intent.check, consulted in *.
  destruct (Intent._running c); cbn [negb orb]; [| now cbn].
  destruct (truthy (Intent._current_intent c)); cbn [negb]; [| now cbn].
  destruct (ltb_cases (now - Intent._last_check c) (Intent.check_interval c))
    as [[-> L] | [-> L]]; [now cbn |].
  destruct (Intent.has_image img); cbn [negb]; [| now cbn].
  exfalso. apply Hn. now repeat split.
Qed.

Lemma consulted_dec (now : Q) (img : option (list byte))
      (c : Intent.IntentChecker) :
  consulted now img c \/ ~ consulted now img c.
Proof.
  unfold consulted.
  destruct (Intent._running c); [| right; intros (H & _); discriminate].
  destruct (truthy (Intent._current_intent c));
    [| right; intros (_ & H & _); discriminate].
  destruct (Intent.has_image img);
    [| right; intros (_ & _ & _ & H); discriminate].
  destruct (Qlt_le_dec (now - Intent._last_check c) (Intent.check_interval c))
    as [L | L].
  - right. intros (_ & _ & H & _). lra.
  - left. now repeat split.
Qed.

(** X13. When the mismatch callback fires.  A [check] invokes
    [on_mismatch_detected] at most once, with the current intent and the
    explanation of the judgment; and it invokes it exactly when the
    judgment was consulted (running, intent set, interval elapsed,
    screenshot there), said "no match", a mismatch period was already
    running from some [t0] with [now - t0 >= mismatch_threshold], and
    the callback is installed.  In particular the check that starts a
    mismatch period never fires. *)
Theorem mismatch_callback_fires_iff :
  forall (now : Q) (img : option (list byte)) (resp : option string)
         (c : Intent.IntentChecker),
    (snd (Intent.check now img resp c) = []
     \/ snd (Intent.check now img resp c)
        = [Intent.MismatchDetected (Intent._current_intent c)
                                   (snd (Ollama.check_intent_match resp))])
    /\ (snd (Intent.check now img resp c) <> []
        <-> consulted now img c
            /\ fst (Ollama.check_intent_match resp) = false
            /\ Intent.on_mismatch_detected c = true
            /\ exists t0,
                 Intent._mismatch_start c = Some t0
                 /\ Intent.mismatch_threshold c <= now - t0).
Proof.
  intros now img resp c.
  destruct (consulted_dec now img c) as [Hc | Hc].
  - rewrite (check_consulted _ _ _ _ Hc).
    destruct (Ollama.check_intent_match resp) as [m e]. cbn [fst snd].
    destruct m.
    { split; [now left |]. split; [intros H; now elim H |].
      intros (_ & H & _). discriminate H. }
    destruct (Intent._mismatch_start c) as [t0 |].
    2: { split; [now left |]. split; [intros H; now elim H |].
         intros (_ & _ & _ & t0 & H & _). discriminate H. }
    destruct (geb (now - t0) (Intent.mismatch_threshold c)) eqn:G;
      destruct (Intent.on_mismatch_detected c); cbn [andb snd].
    + apply geb_ge in G. split; [now right |].
      split; [| intros _ H; discriminate H].
      intros _.
      split; [exact Hc | split; [reflexivity | split; [reflexivity |]]].
      exists t0. now split.
    + split; [now left |]. split; [intros H; now elim H |].
      intros (_ & _ & H & _). discriminate H.
    + split; [now left |]. split; [intros H; now elim H |].
      intros (_ & _ & _ & t1 & [= <-] & H).
      apply geb_ge in H. congruence.
    + split; [now left |]. split; [intros H; now elim H |].
      intros (_ & _ & H & _). discriminate H.
  - destruct (check_not_consulted now img resp c Hc) as (-> & _).
    split; [now left |]. split; [intros H; now elim H |].
    intros (H & _). contradiction.
Qed.

Lemma check_effects (now : Q) (img : option (list byte))
      (resp : option string) (c : Intent.IntentChecker) :
  Intent.mismatch_threshold (snd (fst (Intent.check now img resp c)))
  = Intent.mismatch_threshold c
  /\ (Intent._mismatch_start (snd (fst (Intent.check now img resp c))) = None
      \/ Intent._mismatch_start (snd (fst (Intent.check now img resp c)))
         = Intent._mismatch_start c
      \/ Intent._mismatch_start (snd (fst (Intent.check now img resp c)))
         = Some now).
Proof.
  destruct (consulted_dec now img c) as [Hc | Hc].
  - rewrite (check_consulted _ _ _ _ Hc).
    destruct (Ollama.check_intent_match resp) as [[|] e]; cbn; [tauto |].
    destruct (Intent._mismatch_start c); cbn; tauto.
  - destruct (check_not_consulted now img resp c Hc) as (_ & -> & ->). tauto.
Qed.

Lemma check_fires_inv (now : Q) (img : option (list byte))
      (resp : option string) (c : Intent.IntentChecker) (e : Intent.Event) :
  In e (snd (Intent.check now img resp c)) ->
  exists t0,
    Intent._mismatch_start c = Some t0
    /\ Intent.mismatch_threshold c <= now - t0.
Proof.
  destruct (consulted_dec now img c) as [Hc | Hc].
  - rewrite (check_consulted _ _ _ _ Hc).
    destruct (Ollama.check_intent_match resp) as [[|] ex]; cbn; [tauto |].
    destruct (Intent._mismatch_start c) as [t0 |]; cbn; [| tauto].
    destruct (geb (now - t0) (Intent.mismatch_threshold c)) eqn:G;
      cbn; [| tauto].
    intros _. exists t0. apply geb_ge in G. now split.
  - destruct (check_not_consulted now img resp c Hc) as (-> & _).
    intros [].
Qed.

Lemma run_log_bound (ticks : list Intent.TickInput) :
  forall (c : Intent.IntentChecker) (t : Q) (e : Intent.Event),
    In (t, e) (snd (Intent.run c ticks)) ->
    exists pre i post t0,
      ticks = pre ++ i :: post
      /\ Intent.at_time i = t
      /\ Intent.mismatch_threshold c <= t - t0
      /\ (Intent._mismatch_start c = Some t0
          \/ In t0 (map Intent.at_time pre)).
Proof.
  induction ticks as [| i rest IH]; intros c t e Hin; [destruct Hin |].
  cbn [Intent.run] in Hin.
  pose proof (check_effects (Intent.at_time i) (Intent.image i)
                            (Intent.response i) c) as [Hthr Hms].
  pose proof (check_fires_inv (Intent.at_time i) (Intent.image i)
                              (Intent.response i) c) as Hf.
  destruct (Intent.check (Intent.at_time i) (Intent.image i)
                         (Intent.response i) c) as [[st c'] evs].
  cbn [fst snd] in Hthr, Hms, Hf.
  specialize (IH c').
  destruct (Intent.run c' rest) as [c'' log]. cbn [snd] in *.
  apply in_app_or in Hin. destruct Hin as [Hin | Hin].
  - apply in_map_iff in Hin. destruct Hin as (e0 & [= <- <-] & He0).
    destruct (Hf e0 He0) as (t0 & Hs & Hle).
    exists [], i, rest, t0. repeat split; trivial. now left.
  - destruct (IH t e Hin) as (pre & i' & post & t0 & -> & Ht & Hle & Hor).
    exists (i :: pre), i', post.
    destruct Hor as [Hs | Hp].
    + destruct Hms as [Hn | [Hsame | Hnew]].
      * congruence.
      * exists t0. rewrite <- Hthr. repeat split; trivial.
        left. congruence.
      * exists t0. rewrite <- Hthr. repeat split; trivial.
        right. left. congruence.
    + exists t0. rewrite <- Hthr. repeat split; trivial.
      right. now right.
Qed.

(** X14. The debounce holds along every run.  Starting from a checker
    with no mismatch running (as [set_intent] and [clear_intent] leave
    it), whatever the ticks, the screens and the answers of the backend,
    every invocation of the mismatch callback happens on a tick that
    comes at least [mismatch_threshold] after an earlier tick of the
    same run. *)
Theorem mismatch_callback_needs_an_earlier_tick :
  forall (c : Intent.IntentChecker) (ticks : list Intent.TickInput)
         (t : Q) (e : Intent.Event),
    Intent._mismatch_start c = None ->
    In (t, e) (snd (Intent.run c ticks)) ->
    exists pre i post t0,
      ticks = pre ++ i :: post
      /\ Intent.at_time i = t
      /\ In t0 (map Intent.at_time pre)
      /\ Intent.mismatch_threshold c <= t - t0.
Proof.
  intros c ticks t e Hn Hin.
  destruct (run_log_bound ticks c t e Hin)
    as (pre & i & post & t0 & E & Ht & Hle & [Hs | Hp]); [congruence |].
  now exists pre, i, post, t0.
Qed.

Lemma mismatch_callback_needs_an_earlier_tick_witness :
  exists pre i post t0,
    [no_at 1000; no_at 1030; no_at 1060] = pre ++ i :: post
    /\ Intent.at_time i = 1060
    /\ In t0 (map Intent.at_time pre)
    /\ Intent.mismatch_threshold quick_checker <= 1060 - t0.
Proof.
  apply (mismatch_callback_needs_an_earlier_tick
           quick_checker [no_at 1000; no_at 1030; no_at 1060]
           1060 (Intent.MismatchDetected "writing" "GAMES")).
  - reflexivity.
  - vm_compute. left. reflexivity.
Defined.

(** X15. A failed screen capture uses up the interval.  When a check is
    due but the screen capture hands over nothing, the check records the
    time, reports the default enabled state, keeps a running mismatch as
    it is and calls nothing; and every check made less than
    [check_interval] after it is throttled, so the judgment is not asked
    again before a full interval has passed. *)
Theorem failed_capture_uses_up_the_interval :
  forall (now : Q) (img : option (list byte)) (resp : option string)
         (c : Intent.IntentChecker),
    Intent._running c = true ->
    truthy (Intent._current_intent c) = true ->
    Intent.check_interval c <= now - Intent._last_check c ->
    Intent.has_image img = false ->
    Intent.check now img resp c
    = (Intent.default_state (Intent._current_intent c) true,
       checked_at now c, [])
    /\ (forall now' img' resp',
           now' - now < Intent.check_interval c ->
           Intent.check now' img' resp' (checked_at now c)
           = (Intent.get_state now' (checked_at now c), checked_at now c, [])).
Proof.
  intros now img resp c Hr Hi Ht Him. split.
  - unfold Intent.check, checked_at. rewrite Hr, Hi, Him. cbn [negb orb].
    apply ltb_ge in Ht. now rewrite Ht.
  - intros now' img' resp' Hlt.
    unfold Intent.check, Intent.get_state, checked_at.
    cbn [Intent._running Intent._current_intent Intent._last_check
         Intent.check_interval].
    rewrite Hr, Hi. cbn [negb orb].
    apply ltb_lt in Hlt. now rewrite Hlt.
Qed.

Lemma failed_capture_uses_up_the_interval_witness :
  Intent.check 10000 None (Some "NO: games"%string) late_checker
  = (Intent.default_state "debugging" true, checked_at 10000 late_checker, []).
Proof.
  apply (failed_capture_uses_up_the_interval
           10000 None (Some "NO: games"%string) late_checker);
    try reflexivity.
  cbn [late_checker Intent._last_check Intent.check_interval]. lra.
Defined.

(** ** The backend client *)

Example analyze_sentiment_two_lines :
  Ollama.analyze_sentiment (Some example_sentiment_reply)
  = ("aggressive"%string, Some "Could we talk?"%string).
Proof. reflexivity. Qed.

Example count_words_runs :
  map count_words ["a b  c"%string; "  one "%string; ""%string; "   "%string]
  = [3; 1; 0; 0]%nat.
Proof. reflexivity. Qed.

Example is_available_by_substring :
  fst (Ollama.is_available example_listing example_client) = true
  /\ fst (Ollama.is_available (Ollama.Listing ["mistral"%string])
                              example_client) = false.
Proof. split; reflexivity. Qed.

Lemma is_available_cached (probe : Ollama.Probe) (c : Ollama.OllamaClient) :
  exists a,
    Ollama.is_available probe c = (a, snd (Ollama.is_available probe c))
    /\ Ollama._available (snd (Ollama.is_available probe c)) = Some a.
Proof.
  unfold Ollama.is_available.
  destruct (Ollama._available c) as [a |] eqn:E.
  - exists a. now split.
  - destruct probe; eexists; split; reflexivity.
Qed.

(** X16. The availability of the backend is decided once.  The first
    [is_available] caches its answer, and from then on [is_available]
    returns that answer without looking at the backend again, the client
    staying as it is.  So when the first probe fails (package missing,
    request raising, or none of the two models listed), [chat] and
    [analyze_image] return nothing for the rest of the client's life,
    even once the backend answers; the intent judgment then always reads
    "match" and the sentiment analysis always reads "neutral" without a
    reframe. *)
Theorem availability_is_decided_once :
  forall (probe1 : Ollama.Probe) (c : Ollama.OllamaClient),
    (forall probe2,
        Ollama.is_available probe2 (snd (Ollama.is_available probe1 c))
        = Ollama.is_available probe1 c)
    /\ (fst (Ollama.is_available probe1 c) = false ->
        forall probe2 reply,
          Ollama.chat probe2 reply (snd (Ollama.is_available probe1 c))
          = (None, snd (Ollama.is_available probe1 c))
          /\ Ollama.analyze_image_on
               probe2 reply (snd (Ollama.is_available probe1 c))
             = (None, snd (Ollama.is_available probe1 c))
          /\ fst (Ollama.check_intent_match_on
                    probe2 reply (snd (Ollama.is_available probe1 c)))
             = (true, "Could not analyze"%string)
          /\ fst (Ollama.analyze_sentiment_on
                    probe2 reply (snd (Ollama.is_available probe1 c)))
             = ("neutral"%string, None)).
Proof.
  intros probe1 c.
  destruct (is_available_cached probe1 c) as (a & E & Hc).
  assert (H2 : forall probe2,
             Ollama.is_available probe2 (snd (Ollama.is_available probe1 c))
             = (a, snd (Ollama.is_available probe1 c))).
  { intros probe2. unfold Ollama.is_available at 1. now rewrite Hc. }
  split.
  - intros probe2. rewrite H2. now rewrite <- E.
  - intros Hf probe2 reply. rewrite E in Hf. cbn in Hf. subst a.
    unfold Ollama.analyze_sentiment_on, Ollama.check_intent_match_on,
      Ollama.analyze_image_on, Ollama.chat.
    rewrite !H2. repeat split.
Qed.

Lemma availability_is_decided_once_witness :
  Ollama.chat example_listing (Some "hello"%string)
              (snd (Ollama.is_available Ollama.ProbeFailed example_client))
  = (None, snd (Ollama.is_available Ollama.ProbeFailed example_client)).
Proof.
  destruct (availability_is_decided_once Ollama.ProbeFailed example_client)
    as [_ H].
  apply (H eq_refl example_listing (Some "hello"%string)).
Defined.

(** ** Strings *)

Open Scope string_scope.

Lemma append_assoc_s (s1 s2 s3 : string) :
  (s1 ++ s2) ++ s3 = s1 ++ (s2 ++ s3).
Proof. induction s1 as [| a s1 IH]; cbn; [reflexivity | now rewrite IH]. Qed.

Lemma append_nil_r_s (s : string) : s ++ "" = s.
Proof. induction s as [| a s IH]; cbn; [reflexivity | now rewrite IH]. Qed.

Lemma rev_onto_app (s : string) :
  forall acc, Py.rev_onto s acc = Py.rev s ++ acc.
Proof.
  unfold Py.rev. induction s as [| a s IH]; intros acc; [reflexivity |].
  cbn. rewrite IH, (IH (String a "")), append_assoc_s. reflexivity.
Qed.

Lemma rev_app_s (s1 s2 : string) :
  Py.rev (s1 ++ s2) = Py.rev s2 ++ Py.rev s1.
Proof.
  induction s1 as [| a s1 IH].
  - cbn. now rewrite append_nil_r_s.
  - unfold Py.rev in *. cbn. rewrite rev_onto_app, (rev_onto_app s1).
    unfold Py.rev. rewrite IH, append_assoc_s. reflexivity.
Qed.

Lemma blank_app (s1 s2 : string) : blank (s1 ++ s2) = blank s1 && blank s2.
Proof.
  induction s1 as [| a s1 IH]; cbn; [reflexivity |].
  now rewrite IH, andb_assoc.
Qed.

Lemma blank_rev (s : string) : blank (Py.rev s) = blank s.
Proof.
  induction s as [| a s IH]; [reflexivity |].
  change (String a s) with (String a "" ++ s) at 1.
  rewrite rev_app_s, blank_app, IH. cbn. now rewrite andb_true_r, andb_comm.
Qed.

Lemma lstrip_app_blank (ws s : string) :
  blank ws = true -> lstrip (ws ++ s) = lstrip s.
Proof.
  induction ws as [| a ws IH]; cbn; [reflexivity |].
  destruct (is_space a); [exact IH | discriminate].
Qed.

Lemma rstrip_app_blank (s ws : string) :
  blank ws = true -> rstrip (s ++ ws) = rstrip s.
Proof.
  intros H. unfold rstrip. rewrite rev_app_s, lstrip_app_blank; trivial.
  now rewrite blank_rev.
Qed.

Lemma rstrip_lstrip_app_blank (r ws : string) :
  blank ws = true -> rstrip (lstrip (r ++ ws)) = rstrip (lstrip r).
Proof.
  intros H. induction r as [| a r IH].
  - cbn [append]. now rewrite (lstrip_blank ws H).
  - cbn [append lstrip]. destruct (is_space a); [exact IH |].
    change (String a (r ++ ws)) with (String a r ++ ws).
    now apply rstrip_app_blank.
Qed.

Lemma strip_pad (ws r ws' : string) :
  blank ws = true -> blank ws' = true ->
  strip (ws ++ r ++ ws') = strip r.
Proof.
  intros H H'. unfold strip.
  rewrite lstrip_app_blank by trivial. now apply rstrip_lstrip_app_blank.
Qed.

Lemma is_space_upper (a : ascii) : is_space (upper_ascii a) = is_space a.
Proof. destruct a as [[] [] [] [] [] [] [] []]; reflexivity. Qed.

Lemma upper_ascii_idem (a : ascii) :
  upper_ascii (upper_ascii a) = upper_ascii a.
Proof. destruct a as [[] [] [] [] [] [] [] []]; reflexivity. Qed.

Lemma lower_ascii_idem (a : ascii) :
  lower_ascii (lower_ascii a) = lower_ascii a.
Proof. destruct a as [[] [] [] [] [] [] [] []]; reflexivity. Qed.

Lemma upper_idem (s : string) : upper (upper s) = upper s.
Proof.
  induction s as [| a s IH]; cbn; [reflexivity |].
  now rewrite upper_ascii_idem, IH.
Qed.

Lemma lower_idem (s : string) : lower (lower s) = lower s.
Proof.
  induction s as [| a s IH]; cbn; [reflexivity |].
  now rewrite lower_ascii_idem, IH.
Qed.

Lemma upper_lstrip (s : string) : upper (lstrip s) = lstrip (upper s).
Proof.
  induction s as [| a s IH]; [reflexivity |].
  cbn. rewrite is_space_upper. destruct (is_space a); [exact IH | reflexivity].
Qed.

Lemma upper_rev_onto (s : string) :
  forall acc, upper (Py.rev_onto s acc) = Py.rev_onto (upper s) (upper acc).
Proof.
  induction s as [| a s IH]; intros acc; [reflexivity |].
  cbn. now rewrite IH.
Qed.

Lemma upper_strip (s : string) : upper (strip s) = strip (upper s).
Proof.
  unfold strip, rstrip, Py.rev.
  now rewrite upper_rev_onto, upper_lstrip, upper_rev_onto, upper_lstrip.
Qed.

Lemma truthy_upper (s : string) : truthy (upper s) = truthy s.
Proof. destruct s; reflexivity. Qed.

Lemma truthy_pad (ws r ws' : string) :
  truthy r = true -> truthy (ws ++ r ++ ws') = true.
Proof. destruct ws, r; cbn; trivial; discriminate. Qed.

Lemma check_intent_match_normal (r : string) :
  truthy r = true ->
  Ollama.check_intent_match (Some r)
  = (startswith (upper (strip r)) "YES",
     if contains ":" (upper (strip r))
     then strip (split1_last ":" (upper (strip r)))
     else upper (strip r)).
Proof. intros H. unfold Ollama.check_intent_match. now rewrite H. Qed.

(** X17. The intent judgment reads the answer of the backend without
    regard to letter case or to blanks around it: two non-empty answers
    that differ only in the case of their ASCII letters and in leading
    and trailing blanks get the same verdict and the same explanation. *)
Theorem intent_judgment_ignores_case_and_padding :
  forall r r' ws ws' : string,
    truthy r = true ->
    upper r' = upper r ->
    blank ws = true -> blank ws' = true ->
    Ollama.check_intent_match (Some (ws ++ r' ++ ws'))
    = Ollama.check_intent_match (Some r).
Proof.
  intros r r' ws ws' Hr Hu Hw Hw'.
  assert (Hr' : truthy r' = true).
  { rewrite <- truthy_upper, Hu, truthy_upper. exact Hr. }
  rewrite !check_intent_match_normal by (trivial; now apply truthy_pad).
  rewrite strip_pad by trivial.
  now rewrite !upper_strip, Hu.
Qed.

Lemma intent_judgment_ignores_case_and_padding_witness :
  Ollama.check_intent_match (Some "  Yes: Writing Code  ")
  = Ollama.check_intent_match (Some "YES: writing code").
Proof.
  apply (intent_judgment_ignores_case_and_padding
           "YES: writing code" "Yes: Writing Code" "  " "  ");
    reflexivity.
Defined.

Close Scope string_scope.

(** ** Sentiment analysis *)

Lemma sentiment_step_invariant (acc : string * option string)
      (line : string) :
  (lower (fst acc) = fst acc
   /\ forall r, snd acc = Some r -> lower r <> "none"%string) ->
  lower (fst (Ollama.sentiment_step acc line))
  = fst (Ollama.sentiment_step acc line)
  /\ forall r, snd (Ollama.sentiment_step acc line) = Some r ->
               lower r <> "none"%string.
Proof.
  destruct acc as [s rf]. cbn [fst snd]. intros [Hs Hr].
  unfold Ollama.sentiment_step.
  destruct (startswith line "SENTIMENT:").
  - cbn [fst snd]. split; [apply lower_idem | exact Hr].
  - destruct (startswith line "REFRAME:"); [| now split].
    destruct (String.eqb_spec
                (lower (strip (split1_last ":" line))) "none"%string)
      as [E | E]; cbn [negb fst snd]; [now split |].
    split; [exact Hs |]. intros r [= <-]. exact E.
Qed.

Lemma sentiment_fold_invariant (lines : list string) :
  forall acc : string * option string,
    (lower (fst acc) = fst acc
     /\ forall r, snd acc = Some r -> lower r <> "none"%string) ->
    lower (fst (fold_left Ollama.sentiment_step lines acc))
    = fst (fold_left Ollama.sentiment_step lines acc)
    /\ forall r, snd (fold_left Ollama.sentiment_step lines acc) = Some r ->
                 lower r <> "none"%string.
Proof.
  induction lines as [| l lines IH]; intros acc H; [exact H |].
  cbn [fold_left]. apply IH. now apply sentiment_step_invariant.
Qed.

(** X18. What [analyze_sentiment] can return.  Without an answer from
    the backend (none, or an empty one) it returns [("neutral", None)].
    Whatever the answer, the sentiment it returns is in lower case, and
    the reframe it returns is never the word "none" in any letter case:
    such a REFRAME line is read as "no suggestion". *)
Theorem analyze_sentiment_normalises_its_answer :
  forall response : option string,
    (response = None \/ response = Some EmptyString ->
     Ollama.analyze_sentiment response = ("neutral"%string, None))
    /\ lower (fst (Ollama.analyze_sentiment response))
       = fst (Ollama.analyze_sentiment response)
    /\ (forall r, snd (Ollama.analyze_sentiment response) = Some r ->
                  lower r <> "none"%string).
Proof.
  intros response. split.
  - intros [-> | ->]; reflexivity.
  - unfold Ollama.analyze_sentiment.
    destruct response as [r |]; [| split; [reflexivity | discriminate]].
    destruct (truthy r); cbn [negb];
      [| split; [reflexivity | discriminate]].
    apply sentiment_fold_invariant. split; [reflexivity | discriminate].
Qed.

Lemma analyze_sentiment_normalises_its_answer_witness :
  Ollama.analyze_sentiment (Ollama.analyze_image false (Some "x"%string))
  = ("neutral"%string, None).
Proof.
  destruct (analyze_sentiment_normalises_its_answer None) as [H _].
  apply H. now left.
Defined.

Lemma analyze_off (text : string) (response : option string)
      (a : Sentiment.SentimentAnalyzer) :
  Sentiment._enabled a = false \/ blank text = true ->
  Sentiment.analyze text response a
  = (Sentiment.default_result EmptyString, []).
Proof.
  unfold Sentiment.analyze. intros [-> | H]; [reflexivity |].
  rewrite (strip_blank text H). cbn. now rewrite orb_true_r.
Qed.

(** X19. When the sentiment analyzer speaks up.  While it is not started
    (or after [stop], or when [start] was refused), and for blank text,
    [analyze] returns the default result and calls nothing; text of
    fewer than five words is returned as neutral without the backend's
    answer being used.  Otherwise the callback is invoked at most once,
    with the text and the suggested reframe, and exactly when the
    returned sentiment is one of the trigger sentiments, a reframe was
    suggested and the callback is installed; [needs_reframe] says the
    same, callback or not. *)
Theorem sentiment_callback_needs_trigger_and_reframe :
  forall (text : string) (response : option string)
         (a : Sentiment.SentimentAnalyzer),
    (Sentiment._enabled a = false \/ blank text = true ->
     Sentiment.analyze text response a
     = (Sentiment.default_result EmptyString, []))
    /\ (forall available,
           Sentiment.analyze text response
             (snd (Sentiment.start available (Sentiment.stop a)))
           = if available then Sentiment.analyze text response
                                 (Sentiment.with_enabled true a)
             else (Sentiment.default_result EmptyString, []))
    /\ (Sentiment._enabled a = true ->
        truthy (strip text) = true ->
        (count_words text < 5)%nat ->
        Sentiment.analyze text response a
        = (Sentiment.default_result text, []))
    /\ (Sentiment._enabled a = true ->
        truthy (strip text) = true ->
        (5 <= count_words text)%nat ->
        let result := fst (Sentiment.analyze text response a) in
        Sentiment.sentiment result = fst (Ollama.analyze_sentiment response)
        /\ Sentiment.suggested_reframe result
           = snd (Ollama.analyze_sentiment response)
        /\ (Sentiment.needs_reframe result = true
            <-> str_in (Sentiment.sentiment result)
                       (Sentiment.trigger_sentiments a) = true
                /\ exists r, Sentiment.suggested_reframe result = Some r)
        /\ (snd (Sentiment.analyze text response a) = []
            \/ exists r,
                 Sentiment.suggested_reframe result = Some r
                 /\ snd (Sentiment.analyze text response a) = [(text, r)])
        /\ (snd (Sentiment.analyze text response a) <> []
            <-> Sentiment.needs_reframe result = true
                /\ Sentiment.on_aggressive_detected a = true)).
Proof.
  intros text response a. split; [apply analyze_off | split; [| split]].
  - intros [|]; [reflexivity |]. apply analyze_off. now left.
  - intros He Ht Hc. unfold Sentiment.analyze. rewrite He, Ht. cbn [negb orb].
    apply Nat.ltb_lt in Hc. now rewrite Hc.
  - intros He Ht Hc. unfold Sentiment.analyze. rewrite He, Ht. cbn [negb orb].
    apply Nat.ltb_ge in Hc. rewrite Hc.
    destruct (Ollama.analyze_sentiment response) as [s rf]. cbn [fst snd].
    cbn [Sentiment.sentiment Sentiment.suggested_reframe
         Sentiment.needs_reframe].
    split; [reflexivity | split; [reflexivity |]].
    destruct rf as [r |]; cbn [Sentiment.is_some];
      rewrite ?andb_true_r, ?andb_false_r;
      destruct (str_in s (Sentiment.trigger_sentiments a));
      destruct (Sentiment.on_aggressive_detected a); cbn [andb];
      (split; [| split]);
      try (first [now left | right; exists r; now split]);
      split; intros;
      repeat match goal with
             | H : _ /\ _ |- _ => destruct H
             | H : exists _, _ |- _ => destruct H
             end;
      try discriminate; try congruence; eauto.
Qed.

Lemma sentiment_callback_needs_trigger_and_reframe_witness :
  Sentiment.analyze "you never listen to anything I say"%string
                    (Some example_sentiment_reply)
                    (Sentiment.new None true)
  = (Sentiment.default_result EmptyString, []).
Proof.
  destruct (sentiment_callback_needs_trigger_and_reframe
              "you never listen to anything I say"%string
              (Some example_sentiment_reply) (Sentiment.new None true))
    as [H _].
  apply H. now left.
Defined.

Example analyze_triggers_on_aggressive :
  Sentiment.analyze "you never listen to anything I say"%string
                    (Some example_sentiment_reply)
                    (Sentiment.with_enabled true (Sentiment.new None true))
  = ({| Sentiment.sentiment := "aggressive";
        Sentiment.original_text := "you never listen to anything I say";
        Sentiment.suggested_reframe := Some "Could we talk?"%string;
        Sentiment.needs_reframe := true |},
     [("you never listen to anything I say"%string,
       "Could we talk?"%string)]).
Proof. reflexivity. Qed.

(** ** Posture *)

Lemma check_posture_step (now : Q) (detection : Q * bool)
      (p : Vision.PostureDetector) :
  Vision.on_bad_posture p = true ->
  Vision.on_posture_corrected p = true ->
  let '(_, p', evs) := Vision.check_posture now detection p in
  Vision.on_bad_posture p' = true
  /\ Vision.on_posture_corrected p' = true
  /\ Vision.neck_angle_threshold p' = Vision.neck_angle_threshold p
  /\ ((evs = [] /\ Vision._was_bad_posture p' = Vision._was_bad_posture p)
      \/ (evs = [Vision.BadPosture (fst detection)]
          /\ Vision._was_bad_posture p = false
          /\ Vision._was_bad_posture p' = true
          /\ Vision.neck_angle_threshold p < fst detection)
      \/ (evs = [Vision.PostureCorrected]
          /\ Vision._was_bad_posture p = true
          /\ Vision._was_bad_posture p' = false)).
Proof.
  intros Hb Hc. unfold Vision.check_posture.
  destruct (Vision._running p); cbn [negb]; [| now repeat split; trivial; left].
  destruct (ltb (now - Vision._last_check p) (Vision.check_interval p));
    [now repeat split; trivial; left |].
  destruct detection as [angle detected]. rewrite Hb, Hc. cbn [fst].
  destruct (gtb angle (Vision.neck_angle_threshold p)) eqn:G;
    destruct (Vision._was_bad_posture p); cbn.
  - repeat split; trivial. now left.
  - repeat split; trivial. right. left. apply gtb_gt in G. now repeat split.
  - repeat split; trivial. right. right. now repeat split.
  - repeat split; trivial. now left.
Qed.

Lemma posture_run_alternates (ticks : list (Q * (Q * bool))) :
  forall p : Vision.PostureDetector,
    Vision.on_bad_posture p = true ->
    Vision.on_posture_corrected p = true ->
    alternates (Vision._was_bad_posture p) (snd (Vision.run p ticks))
    /\ Forall (fun e => match e with
                        | Vision.BadPosture a =>
                            Vision.neck_angle_threshold p < a
                        | Vision.PostureCorrected => True
                        end) (snd (Vision.run p ticks)).
Proof.
  induction ticks as [| [now detection] ticks IH]; intros p Hb Hc.
  - cbn. split; [trivial | constructor].
  - cbn [Vision.run].
    pose proof (check_posture_step now detection p Hb Hc) as Hs.
    destruct (Vision.check_posture now detection p) as [[st p'] evs].
    destruct Hs as (Hb' & Hc' & Ht & Hs).
    destruct (IH p' Hb' Hc') as [Ha Hf]. rewrite Ht in Hf.
    destruct (Vision.run p' ticks) as [p'' log]. cbn [snd] in *.
    destruct Hs as [(-> & Hw) | [(-> & Hw & Hw' & Hgt) | (-> & Hw & Hw')]].
    + cbn [app]. rewrite <- Hw. now split.
    + cbn [app alternates]. rewrite Hw' in Ha. split; [now split |].
      constructor; trivial.
    + cbn [app alternates]. rewrite Hw' in Ha. split; [now split |].
      constructor; trivial.
Qed.

(** X20. The posture callbacks are edge-triggered.  With both callbacks
    installed, along any run of [check_posture] the invocations of
    [on_bad_posture] and [on_posture_corrected] take turns (never two of
    the same kind in a row), the first one being [on_bad_posture] unless
    the posture was already bad; and every [on_bad_posture] is called
    with an angle above the threshold. *)
Theorem posture_callbacks_alternate :
  forall (p : Vision.PostureDetector) (ticks : list (Q * (Q * bool))),
    Vision.on_bad_posture p = true ->
    Vision.on_posture_corrected p = true ->
    alternates (Vision._was_bad_posture p) (snd (Vision.run p ticks))
    /\ Forall (fun e => match e with
                        | Vision.BadPosture a =>
                            Vision.neck_angle_threshold p < a
                        | Vision.PostureCorrected => True
                        end) (snd (Vision.run p ticks)).
Proof. intros p ticks. apply posture_run_alternates. Qed.

Lemma posture_callbacks_alternate_witness :
  alternates false
    (snd (Vision.run example_posture
            [(100, (20, true)); (110, (25, true)); (120, (5, true));
             (125, (30, true)); (130, (30, true))]))
  /\ snd (Vision.run example_posture
            [(100, (20, true)); (110, (25, true)); (120, (5, true));
             (125, (30, true)); (130, (30, true))])
     = [Vision.BadPosture 20; Vision.PostureCorrected; Vision.BadPosture 30].
Proof.
  split; [| reflexivity].
  apply (posture_callbacks_alternate example_posture); reflexivity.
Defined.

Lemma check_posture_measured (now angle : Q) (detected : bool)
      (p : Vision.PostureDetector) :
  Vision._running p = true ->
  Vision.check_interval p <= now - Vision._last_check p ->
  exists evs,
    Vision.check_posture now (angle, detected) p
    = ({| Vision.neck_angle := angle;
          Vision.is_good_posture :=
            negb (gtb angle (Vision.neck_angle_threshold p));
          Vision.face_detected := detected;
          Vision.is_enabled := true |},
       {| Vision.neck_angle_threshold := Vision.neck_angle_threshold p;
          Vision.check_interval := Vision.check_interval p;
          Vision.on_bad_posture := Vision.on_bad_posture p;
          Vision.on_posture_corrected := Vision.on_posture_corrected p;
          Vision._running := true;
          Vision._last_check := now;
          Vision._last_angle := angle;
          Vision._was_bad_posture :=
            gtb angle (Vision.neck_angle_threshold p) |},
       evs).
Proof.
  intros Hr Hi. unfold Vision.check_posture. rewrite Hr. cbn [negb].
  apply ltb_ge in Hi. rewrite Hi. eexists. reflexivity.
Qed.

Lemma check_posture_throttled (now : Q) (detection : Q * bool)
      (p : Vision.PostureDetector) :
  Vision._running p = true ->
  now - Vision._last_check p < Vision.check_interval p ->
  Vision.check_posture now detection p
  = ({| Vision.neck_angle := Vision._last_angle p;
        Vision.is_good_posture :=
          ltb (Vision._last_angle p) (Vision.neck_angle_threshold p);
        Vision.face_detected := true;
        Vision.is_enabled := true |}, p, []).
Proof.
  intros Hr Hi. unfold Vision.check_posture. rewrite Hr. cbn [negb].
  apply ltb_lt in Hi. now rewrite Hi.
Qed.

(** X21. A throttled posture check can contradict the measurement it
    repeats.  After a check that measured [angle], every check made less
    than [check_interval] later returns the same angle without measuring
    or calling back, but it reports good posture only for
    [angle < threshold] where the measuring check reported it for
    [angle <= threshold], and it always reports a detected face, whether
    or not the measurement found one. *)
Theorem throttled_posture_check_repeats_the_angle :
  forall (now now' : Q) (detection detection' : Q * bool)
         (p : Vision.PostureDetector),
    Vision._running p = true ->
    Vision.check_interval p <= now - Vision._last_check p ->
    now' - now < Vision.check_interval p ->
    let first := Vision.check_posture now detection p in
    let second :=
      Vision.check_posture now' detection' (snd (fst first)) in
    Vision.neck_angle (fst (fst first)) = fst detection
    /\ Vision.face_detected (fst (fst first)) = snd detection
    /\ (Vision.is_good_posture (fst (fst first)) = true
        <-> fst detection <= Vision.neck_angle_threshold p)
    /\ Vision.neck_angle (fst (fst second)) = fst detection
    /\ Vision.face_detected (fst (fst second)) = true
    /\ (Vision.is_good_posture (fst (fst second)) = true
        <-> fst detection < Vision.neck_angle_threshold p)
    /\ snd (fst second) = snd (fst first)
    /\ snd second = [].
Proof.
  intros now now' [angle detected] detection' p Hr Hi Hlt. cbv zeta.
  destruct (check_posture_measured now angle detected p Hr Hi) as [evs ->].
  cbn [fst snd].
  rewrite check_posture_throttled by (cbn; trivial).
  cbn [fst snd Vision.neck_angle Vision.face_detected
       Vision.is_good_posture Vision._last_angle
       Vision.neck_angle_threshold].
  repeat split; trivial.
  - intros H. apply negb_true_iff, gtb_le in H. exact H.
  - intros H. apply negb_true_iff, gtb_le. exact H.
  - apply ltb_lt.
  - apply ltb_lt.
Qed.

Lemma throttled_posture_check_repeats_the_angle_witness :
  Vision.is_good_posture
    (fst (fst (Vision.check_posture 100 (15, false) example_posture))) = true
  /\ Vision.is_good_posture
       (fst (fst (Vision.check_posture 105 (0, true)
              (snd (fst (Vision.check_posture 100 (15, false)
                                              example_posture))))))
     = false
  /\ Vision.face_detected
       (fst (fst (Vision.check_posture 105 (0, true)
              (snd (fst (Vision.check_posture 100 (15, false)
                                              example_posture))))))
     = true.
Proof.
  assert (H1 : Vision._running example_posture = true) by reflexivity.
  assert (H2 : Vision.check_interval example_posture
               <= 100 - Vision._last_check example_posture)
    by (cbn; lra).
  assert (H3 : 105 - 100 < Vision.check_interval example_posture)
    by (cbn; lra).
  destruct (throttled_posture_check_repeats_the_angle
              100 105 (15, false) (0, true) example_posture H1 H2 H3)
    as (_ & _ & Hg & _ & Hf & Hg' & _).
  split; [apply Hg; cbn; lra | split; [| exact Hf]].
  apply not_true_iff_false. intros H. apply Hg' in H. cbn in H. lra.
Defined.

(** ** The checker's screen capture *)

Lemma intent_screen_check_clears
      (image : Type) (encode_jpeg : image -> list byte)
      (now : Q) (grabbed : option image) (response : option string)
      (c : Intent.IntentChecker) (sc : Vision.ScreenCapture image) :
  (forall img, encode_jpeg img <> []) ->
  Vision._last_capture sc = None ->
  Vision._last_capture
    (snd (fst (IntentScreen.check image encode_jpeg now grabbed response c sc)))
  = None.
Proof.
  intros Henc Hsc. unfold IntentScreen.check.
  destruct (Intent._running c && truthy (Intent._current_intent c)
            && negb (ltb (now - Intent._last_check c)
                         (Intent.check_interval c))).
  - destruct grabbed as [img |]; cbn [Vision.capture snd].
    + unfold Vision.get_for_ai. cbn [Vision._last_capture].
      destruct (Intent.check now (Some (encode_jpeg img)) response c)
        as [[st c'] evs].
      cbn [fst snd andb]. specialize (Henc img).
      destruct (encode_jpeg img); [now elim Henc | reflexivity].
    + unfold Vision.get_for_ai. rewrite Hsc.
      destruct (Intent.check now None response c) as [[st c'] evs].
      cbn. exact Hsc.
  - destruct (Intent.check now (Vision.get_for_ai encode_jpeg sc) response c)
      as [[st c'] evs].
    cbn. exact Hsc.
Qed.

(** X22. No screenshot outlives the check that took it.  As long as the
    JPEG encoder never yields an empty byte string, a checker whose
    screen capture starts out empty has an empty screen capture again
    after every [check], whatever the clock, the screen and the backend
    do; and what such a check hands to the judgment is the screenshot
    grabbed in that very check, never an older one. *)
Theorem screenshot_is_cleared_after_every_check :
  forall (image : Type) (encode_jpeg : image -> list byte),
    (forall img, encode_jpeg img <> []) ->
    forall (c : Intent.IntentChecker) (sc : Vision.ScreenCapture image),
      Vision._last_capture sc = None ->
      (forall ticks,
          Vision._last_capture
            (snd (IntentScreen.run image encode_jpeg c sc ticks)) = None)
      /\ (forall now grabbed response,
             fst (fst (IntentScreen.check
                         image encode_jpeg now grabbed response c sc))
             = fst (Intent.check now (option_map encode_jpeg grabbed)
                                 response c)
             /\ snd (IntentScreen.check
                       image encode_jpeg now grabbed response c sc)
                = snd (Intent.check now (option_map encode_jpeg grabbed)
                                    response c)).
Proof.
  intros image encode_jpeg Henc c sc Hsc. split.
  - intros ticks. revert c sc Hsc.
    induction ticks as [| [[now grabbed] response] ticks IH];
      intros c sc Hsc; [exact Hsc |].
    cbn [IntentScreen.run].
    pose proof (intent_screen_check_clears
                  image encode_jpeg now grabbed response c sc Henc Hsc) as H.
    destruct (IntentScreen.check image encode_jpeg now grabbed response c sc)
      as [[[st c'] sc'] evs].
    cbn [fst snd] in H. now apply IH.
  - intros now grabbed response. unfold IntentScreen.check.
    destruct (Intent._running c && truthy (Intent._current_intent c)
              && negb (ltb (now - Intent._last_check c)
                           (Intent.check_interval c))) eqn:Hdue.
    + assert (E : Vision.get_for_ai encode_jpeg
                    (snd (Vision.capture grabbed sc))
                  = option_map encode_jpeg grabbed).
      { destruct grabbed as [img |]; cbn; [reflexivity |].
        unfold Vision.get_for_ai. now rewrite Hsc. }
      rewrite E.
      destruct (Intent.check now (option_map encode_jpeg grabbed) response c)
        as [[st c'] evs]. now cbn.
    + assert (E : Intent.check now (Vision.get_for_ai encode_jpeg sc)
                               response c
                  = Intent.check now (option_map encode_jpeg grabbed)
                                 response c).
      { unfold Intent.check.
        destruct (Intent._running c); [| reflexivity].
        destruct (truthy (Intent._current_intent c)); [| reflexivity].
        cbn [andb negb orb] in *.
        apply negb_false_iff in Hdue. now rewrite Hdue. }
      rewrite E.
      destruct (Intent.check now (option_map encode_jpeg grabbed) response c)
        as [[st c'] evs]. now cbn.
Qed.

Lemma screenshot_is_cleared_after_every_check_witness :
  Vision._last_capture
    (snd (IntentScreen.run
            (list byte) (fun img => x00 :: img)
            late_checker {| Vision._last_capture := None |}
            [(10000, Some [x01; x02], Some "NO: games"%string);
             (10040, None, None)]))
  = None.
Proof.
  assert (Henc : forall img : list byte, x00 :: img <> [])
    by (intros img H; discriminate H).
  destruct (screenshot_is_cleared_after_every_check
              (list byte) (fun img => x00 :: img) Henc
              late_checker {| Vision._last_capture := None |} eq_refl)
    as [H _].
  apply H.
Defined.

(** ** The other signal sources *)

(** X23. The input intensity of the macOS monitor is a score between 0
    and 100: with a positive window, [get_intensity] returns
    [min(100, 20 * events_per_second)], which is never negative, never
    above 100, and equal to 100 exactly from five events per second on;
    with a zero window it raises [ZeroDivisionError]. *)
Theorem mac_intensity_is_a_score :
  forall (now : Q) (m : MacInput.MacInputMonitor),
    (0 < MacInput.window_size m ->
     exists v,
       MacInput.get_intensity now m = Ok v
       /\ 0 <= v /\ v <= 100
       /\ (v == 100
           <-> 5 * MacInput.window_size m
               <= inject_Z (Sensors.count_recent
                              (now - MacInput.window_size m)
                              (MacInput._event_times m))))
    /\ (MacInput.window_size m == 0 ->
        MacInput.get_intensity now m = Raise ZeroDivisionError).
Proof.
  intros now m. split.
  - intros Hw. unfold MacInput.get_intensity, MacInput.get_events_per_second.
    rewrite truediv_ok by lra. cbn [bind].
    set (n := inject_Z _). set (w := MacInput.window_size m) in *.
    assert (Hn : 0 <= n).
    { unfold n. change 0 with (inject_Z 0). rewrite <- Zle_Qle.
      apply count_recent_nonneg. }
    assert (Hr : 0 <= n / w) by (apply Qle_shift_div_l; lra).
    eexists. split; [reflexivity |].
    assert (Hiff : 5 <= n / w <-> 5 * w <= n).
    { split; intros H.
      - apply (Qmult_le_compat_r _ _ w) in H; [| lra].
        assert (E : n / w * w == n) by (field; lra). lra.
      - apply Qle_shift_div_l; trivial. }
    unfold Py.min.
    destruct (ltb_cases (n / w * 20) 100) as [[-> L] | [-> L]].
    + split; [lra | split; [lra |]]. rewrite <- Hiff. split; intros; lra.
    + split; [lra | split; [lra |]]. rewrite <- Hiff.
      split; intros; [lra | reflexivity].
  - intros Hw. unfold MacInput.get_intensity, MacInput.get_events_per_second.
    now rewrite (truediv_zero _ _ Hw).
Qed.

Lemma mac_intensity_is_a_score_witness :
  exists v, MacInput.get_intensity 1000 example_monitor = Ok v /\ v == 100.
Proof.
  destruct (mac_intensity_is_a_score 1000 example_monitor) as [H _].
  destruct H as (v & E & _ & _ & Hv).
  - cbn. lra.
  - exists v. split; [exact E |]. apply Hv. vm_compute. discriminate.
Defined.

Lemma slice_from_last {A} (m : Z) (l : list A) :
  (0 < m)%Z -> slice_from (- m) l = last_n (Z.to_nat m) l.
Proof.
  intros Hm. unfold slice_from, last_n.
  assert (E : (- m <? 0)%Z = true) by (apply Z.ltb_lt; lia).
  rewrite E. f_equal. lia.
Qed.

(** X24. The audio buffer is trimmed to the analysis window, except when
    the window is empty.  On a running sensor whose buffer holds at most
    [max_chunks = (sample_rate * analysis_window) // chunk_size] chunks,
    with [max_chunks] positive, the stream callback leaves the last
    [max_chunks] chunks in the buffer; with [max_chunks = 0] it trims
    nothing, so every callback makes the buffer one chunk longer; with
    [chunk_size = 0] it raises after having appended the chunk.  On a
    stopped sensor it appends nothing and tells the stream to
    complete. *)
Theorem audio_buffer_is_trimmed_to_the_window :
  forall (chunk : Type) (audio_data : chunk) (a : Audio.AudioSensor chunk),
    (Audio._running chunk a = false ->
     Audio._audio_callback chunk audio_data a = (Ok Audio.paComplete, a))
    /\ (Audio._running chunk a = true ->
        (Audio.chunk_size chunk a = 0%Z ->
         Audio._audio_callback chunk audio_data a
         = (Raise ZeroDivisionError,
            Audio.with_buffer chunk
              (Audio._audio_buffer chunk a ++ [audio_data]) a))
        /\ (Audio.chunk_size chunk a <> 0%Z ->
            let max_chunks :=
              (Audio.sample_rate chunk a * Audio.analysis_window chunk a
               / Audio.chunk_size chunk a)%Z in
            fst (Audio._audio_callback chunk audio_data a)
            = Ok Audio.paContinue
            /\ ((0 < max_chunks)%Z ->
                (Z.of_nat (List.length (Audio._audio_buffer chunk a))
                 <= max_chunks)%Z ->
                Audio._audio_buffer chunk
                  (snd (Audio._audio_callback chunk audio_data a))
                = last_n (Z.to_nat max_chunks)
                         (Audio._audio_buffer chunk a ++ [audio_data])
                /\ (Z.of_nat
                      (List.length
                         (Audio._audio_buffer chunk
                            (snd (Audio._audio_callback chunk audio_data a))))
                    <= max_chunks)%Z)
            /\ (max_chunks = 0%Z ->
                Audio._audio_buffer chunk
                  (snd (Audio._audio_callback chunk audio_data a))
                = Audio._audio_buffer chunk a ++ [audio_data]))).
Proof.
  intros chunk audio_data a. split.
  - intros Hr. unfold Audio._audio_callback. now rewrite Hr.
  - intros Hr. unfold Audio._audio_callback, floordiv. rewrite Hr.
    cbn [negb]. split.
    + intros ->. reflexivity.
    + intros Hc. apply Z.eqb_neq in Hc. rewrite Hc. cbv zeta.
      set (m := (Audio.sample_rate chunk a * Audio.analysis_window chunk a
                 / Audio.chunk_size chunk a)%Z).
      cbn [Audio.with_buffer Audio._audio_buffer].
      set (b := Audio._audio_buffer chunk a ++ [audio_data]).
      assert (Hlen : List.length b
                     = S (List.length (Audio._audio_buffer chunk a))).
      { unfold b. rewrite length_app. cbn. lia. }
      destruct (m <? Z.of_nat (List.length b))%Z eqn:E;
        cbn [fst snd Audio.with_buffer Audio._audio_buffer].
      * apply Z.ltb_lt in E. split; [reflexivity | split].
        -- intros Hm Hle. rewrite slice_from_last by trivial.
           split; [reflexivity |]. unfold last_n. rewrite length_skipn. lia.
        -- intros Hm. rewrite Hm. reflexivity.
      * apply Z.ltb_ge in E. split; [reflexivity | split].
        -- intros Hm Hle. unfold last_n.
           replace (List.length b - Z.to_nat m)%nat with 0%nat by lia.
           split; [reflexivity | lia].
        -- intros _. reflexivity.
Qed.

Lemma audio_buffer_is_trimmed_to_the_window_witness :
  Audio._audio_callback (list Q) [1]
    (Audio.with_buffer (list Q) [[0]] (example_audio_stopped))
  = (Ok Audio.paComplete,
     Audio.with_buffer (list Q) [[0]] (example_audio_stopped)).
Proof.
  apply (audio_buffer_is_trimmed_to_the_window (list Q) [1]
           (Audio.with_buffer (list Q) [[0]] example_audio_stopped)).
  reflexivity.
Defined.

Example audio_buffer_with_empty_window_grows :
  Audio._audio_buffer (list Q)
    (snd (Audio._audio_callback (list Q) [3]
            {| Audio.min_rate := 8;
               Audio.max_rate := 20;
               Audio.sample_rate := 44100;
               Audio.chunk_size := 1024;
               Audio.analysis_window := 0;
               Audio.on_stress_detected := true;
               Audio.on_slow_breathing := true;
               Audio._running := true;
               Audio._audio_buffer := [[1]; [2]];
               Audio._last_rate := 0 |}))
  = [[1]; [2]; [3]].
Proof. reflexivity. Qed.

Lemma check_breathing_cases (chunk : Type) (estimate : option (Q * Q))
      (a : Audio.AudioSensor chunk) :
  (fst (fst (Audio.check_breathing chunk estimate a)) = None
   /\ snd (Audio.check_breathing chunk estimate a) = []
   /\ (Audio._running chunk a = false
       \/ estimate = None
       \/ exists rate conf,
            estimate = Some (rate, conf)
            /\ (conf <= 1 # 2
                \/ (Audio.min_rate chunk a <= rate
                    /\ rate <= Audio.max_rate chunk a))))
  \/ (exists rate conf,
        Audio._running chunk a = true
        /\ estimate = Some (rate, conf)
        /\ 1 # 2 < conf
        /\ Audio.max_rate chunk a < rate
        /\ fst (fst (Audio.check_breathing chunk estimate a))
           = Some (Py.min 100 ((rate - Audio.max_rate chunk a) / 10 * 100))
        /\ snd (Audio.check_breathing chunk estimate a)
           = if Audio.on_stress_detected chunk a
             then [Audio.StressDetected rate] else [])
  \/ (exists rate conf,
        Audio._running chunk a = true
        /\ estimate = Some (rate, conf)
        /\ 1 # 2 < conf
        /\ rate <= Audio.max_rate chunk a
        /\ rate < Audio.min_rate chunk a
        /\ fst (fst (Audio.check_breathing chunk estimate a)) = Some 50
        /\ snd (Audio.check_breathing chunk estimate a)
           = if Audio.on_slow_breathing chunk a
             then [Audio.SlowBreathing rate] else []).
Proof.
  unfold Audio.check_breathing, Audio.get_state, gtb.
  destruct (Audio._running chunk a); cbn [negb];
    [| left; cbn; repeat split; now left].
  destruct estimate as [[rate conf] |];
    [| left; cbn; repeat split; right; now left].
  cbn [Audio.is_enabled Audio.confidence Audio.is_stressed
       Audio.is_too_slow Audio.breaths_per_minute negb orb].
  destruct (ltb_cases conf (1 # 2)) as [[E1 L1] | [E1 L1]]; rewrite E1.
  { left. cbn. repeat split. right. right. exists rate, conf.
    split; [reflexivity | left; lra]. }
  destruct (ltb_cases (1 # 2) conf) as [[E2 L2] | [E2 L2]]; rewrite E2;
    rewrite ?andb_true_r, ?andb_false_r.
  2: { left. cbn. repeat split. right. right. exists rate, conf.
       split; [reflexivity | left; lra]. }
  destruct (ltb_cases (Audio.max_rate chunk a) rate) as [[E3 L3] | [E3 L3]];
    rewrite E3.
  { right. left. exists rate, conf. cbn. now repeat split. }
  destruct (ltb_cases rate (Audio.min_rate chunk a)) as [[E4 L4] | [E4 L4]];
    rewrite E4.
  { right. right. exists rate, conf. cbn. now repeat split. }
  left. cbn. repeat split. right. right. exists rate, conf.
  split; [reflexivity | right; now split].
Qed.

(** X25. What [check_breathing] returns.  It returns a score only for a
    running sensor whose estimate has a confidence above one half and a
    rate outside the band from [min_rate] to [max_rate]; the score is
    then above 0 and at most 100 (it is [min(100, 10 * (rate - max_rate))]
    above the band and 50 below it), and the matching callback, if
    installed, is invoked once with the rate.  In every other case it
    returns nothing and calls nothing. *)
Theorem breathing_score_is_in_range :
  forall (chunk : Type) (estimate : option (Q * Q))
         (a : Audio.AudioSensor chunk),
    (forall sc,
        fst (fst (Audio.check_breathing chunk estimate a)) = Some sc ->
        0 < sc /\ sc <= 100
        /\ Audio._running chunk a = true
        /\ exists rate conf,
             estimate = Some (rate, conf)
             /\ 1 # 2 < conf
             /\ ((Audio.max_rate chunk a < rate
                  /\ sc = Py.min 100
                            ((rate - Audio.max_rate chunk a) / 10 * 100)
                  /\ snd (Audio.check_breathing chunk estimate a)
                     = if Audio.on_stress_detected chunk a
                       then [Audio.StressDetected rate] else [])
                 \/ (rate < Audio.min_rate chunk a
                     /\ rate <= Audio.max_rate chunk a
                     /\ sc = 50
                     /\ snd (Audio.check_breathing chunk estimate a)
                        = if Audio.on_slow_breathing chunk a
                          then [Audio.SlowBreathing rate] else [])))
    /\ (fst (fst (Audio.check_breathing chunk estimate a)) = None ->
        snd (Audio.check_breathing chunk estimate a) = [])
    /\ (forall rate conf,
           estimate = Some (rate, conf) ->
           conf <= 1 # 2
           \/ (Audio.min_rate chunk a <= rate
               /\ rate <= Audio.max_rate chunk a) ->
           fst (fst (Audio.check_breathing chunk estimate a)) = None).
Proof.
  intros chunk estimate a.
  destruct (check_breathing_cases chunk estimate a)
    as [(Hn & He & Hc)
       | [(rate & conf & Hr & -> & Hconf & Hgt & Hs & He)
         | (rate & conf & Hr & -> & Hconf & Hle & Hlt & Hs & He)]].
  - rewrite Hn, He. split; [discriminate | split; trivial].
  - rewrite Hs, He. split; [| split; [discriminate |]].
    + intros sc [= <-].
      assert (Hpos : 0 < (rate - Audio.max_rate chunk a) / 10 * 100).
      { assert (0 < (rate - Audio.max_rate chunk a) / 10)
          by (apply Qlt_shift_div_l; lra). lra. }
      split; [| split; [apply min_le_l | split; [exact Hr |]]].
      * unfold Py.min. destruct (ltb _ 100); lra.
      * exists rate, conf. split; [reflexivity | split; [exact Hconf |]].
        left. now repeat split.
    + intros rate' conf' [= <- <-] [H | [_ H]]; exfalso; lra.
  - rewrite Hs, He. split; [| split; [discriminate |]].
    + intros sc [= <-].
      split; [lra | split; [lra | split; [exact Hr |]]].
      exists rate, conf. split; [reflexivity | split; [exact Hconf |]].
      right. now repeat split.
    + intros rate' conf' [= <- <-] [H | [H _]]; exfalso; lra.
Qed.

Lemma breathing_score_is_in_range_witness :
  fst (fst (Audio.check_breathing (list Q) (Some (14, 9 # 10)) example_audio))
  = None.
Proof.
  destruct (breathing_score_is_in_range (list Q) (Some (14, 9 # 10))
                                        example_audio) as (_ & _ & H).
  apply (H 14 (9 # 10) eq_refl). right. cbn. lra.
Defined.

Example breathing_scores :
  map (fun e => fst (fst (Audio.check_breathing (list Q) e example_audio)))
      [Some (25, 9 # 10); Some (40, 9 # 10); Some (5, 9 # 10);
       Some (25, 1 # 2); None]
  = [Some (Py.min 100 ((25 - 20) / 10 * 100));
     Some 100; Some 50; None; None].
Proof. reflexivity. Qed.

(** ** Loading and saving the settings *)

(** X26. Saving and loading again.  What [save] writes and [load] reads
    back keeps the sensors, detection, intervention and AI sections of
    the settings exactly; the breathing, posture, intent and meeting
    sections are not written, so they come back as their defaults, and
    so do the privacy settings. *)
Theorem settings_round_trip_keeps_four_sections :
  forall s : SettingsFile.Settings,
    SettingsFile.load_data (SettingsFile.save_data s)
    = {| SettingsFile.sensors := SettingsFile.sensors s;
         SettingsFile.detection := SettingsFile.detection s;
         SettingsFile.breathing := SettingsFile.default_breathing;
         SettingsFile.posture := SettingsFile.default_posture;
         SettingsFile.intent := SettingsFile.default_intent;
         SettingsFile.intervention := SettingsFile.intervention s;
         SettingsFile.ai := SettingsFile.ai s;
         SettingsFile.meeting := SettingsFile.default_meeting;
         SettingsFile.privacy := SettingsFile.default_privacy |}.
Proof.
  intros [[] [] [] [] [] [] [] [] []]. reflexivity.
Qed.

Example settings_round_trip_loses_the_intent_section :
  SettingsFile.intent
    (SettingsFile.load_data (SettingsFile.save_data example_file_settings))
  = SettingsFile.default_intent
  /\ SettingsFile.intent example_file_settings <> SettingsFile.default_intent.
Proof. split; [reflexivity | discriminate]. Qed.

Lemma check_kwargs_unknown (fields : list string)
      (kw : SettingsFile.mapping) (key : string) (v : SettingsFile.value) :
  In (key, v) kw -> str_in key fields = false ->
  SettingsFile.check_kwargs fields kw = Some SettingsFile.TypeError.
Proof.
  intros Hin Hk. unfold SettingsFile.check_kwargs.
  destruct (forallb _ kw) eqn:E; [| reflexivity].
  rewrite forallb_forall in E. specialize (E _ Hin). cbn in E. congruence.
Qed.

(** X27. One bad section ends the loading.  The sections are read in the
    order sensors, detection, breathing, posture, intent, intervention,
    ai, meeting, and the first one that cannot be constructed stops the
    loading without an error.  So a sensors section with a key that is
    not a field of [SensorConfig] makes [load] return the defaults
    altogether, whatever else the file holds; and an intervention section
    with such a key leaves the AI and meeting settings at their defaults
    as well, whatever the file says about them. *)
Theorem bad_section_discards_the_rest :
  forall (data kw : SettingsFile.mapping) (key : string)
         (v : SettingsFile.value),
    In (key, v) kw ->
    (SettingsFile.lookup "sensors" data = Some (SettingsFile.VMap kw) ->
     str_in key ["keyboard"; "mouse"; "screen"; "webcam"; "microphone"]%string
     = false ->
     SettingsFile.load_data data = SettingsFile.default_settings)
    /\ (SettingsFile.lookup "intervention" data = Some (SettingsFile.VMap kw) ->
        str_in key ["style"; "fade_duration"; "recovery_method";
                    "cooldown"]%string = false ->
        SettingsFile.intervention (SettingsFile.load_data data)
        = SettingsFile.default_intervention
        /\ SettingsFile.ai (SettingsFile.load_data data)
           = SettingsFile.default_ai
        /\ SettingsFile.meeting (SettingsFile.load_data data)
           = SettingsFile.default_meeting).
Proof.
  intros data kw key v Hin. split.
  - intros Hl Hk. unfold SettingsFile.load_data.
    unfold SettingsFile.load_section at 1. rewrite Hl.
    unfold SettingsFile.make_sensors. cbn [SettingsFile.as_kwargs].
    now rewrite (check_kwargs_unknown _ kw key v Hin Hk).
  - intros Hl Hk.
    assert (E : SettingsFile.load_section
                  "intervention" SettingsFile.make_intervention data
                  SettingsFile.default_intervention
                = inl SettingsFile.TypeError).
    { unfold SettingsFile.load_section. rewrite Hl.
      unfold SettingsFile.make_intervention. cbn [SettingsFile.as_kwargs].
      now rewrite (check_kwargs_unknown _ kw key v Hin Hk). }
    unfold SettingsFile.load_data.
    cbn [SettingsFile.sensors SettingsFile.detection SettingsFile.breathing
         SettingsFile.posture SettingsFile.intent SettingsFile.intervention
         SettingsFile.ai SettingsFile.meeting SettingsFile.privacy
         SettingsFile.default_settings].
    destruct (SettingsFile.load_section "sensors" _ _ _); [now cbn |].
    destruct (SettingsFile.load_section "detection" _ _ _); [now cbn |].
    destruct (SettingsFile.load_section "breathing" _ _ _); [now cbn |].
    destruct (SettingsFile.load_section "posture" _ _ _); [now cbn |].
    destruct (SettingsFile.load_section "intent" _ _ _); [now cbn |].
    rewrite E. now cbn.
Qed.

Lemma bad_section_discards_the_rest_witness :
  SettingsFile.load_data example_misspelt_file = SettingsFile.default_settings.
Proof.
  destruct (bad_section_discards_the_rest
              example_misspelt_file
              [ ("keyboard"%string, SettingsFile.VBool false);
                ("camera"%string, SettingsFile.VBool true) ]
              "camera"%string (SettingsFile.VBool true)) as [H _].
  - right. left. reflexivity.
  - apply H; reflexivity.
Defined.

(** X28. No file changes the privacy settings: whatever mapping [load]
    reads, [log_content], [screenshot_retention] and [network_requests]
    come out as their defaults (off, 0 and 0). *)
Theorem privacy_settings_are_never_loaded :
  forall data : SettingsFile.mapping,
    SettingsFile.privacy (SettingsFile.load_data data)
    = SettingsFile.default_privacy.
Proof.
  intros data. unfold SettingsFile.load_data.
  repeat match goal with
         | |- context [match ?x with inl _ => _ | inr _ => _ end] =>
             destruct x
         end; reflexivity.
Qed.

(* ------------------------------------------------------------------ *)
(** ** The decompression screen *)

(** Process names are matched without regard to case, anywhere in the
    name; a process without a name never counts. *)
Example meeting_is_found_by_substring :
  Decompression._check_meeting_active
    [None; Some "bash"%string; Some "ZOOM.US Helper"%string]
    example_screen = true
  /\ Decompression._check_meeting_active
       [None; Some ""%string; Some "bash"%string] example_screen = false.
Proof. split; vm_compute; reflexivity. Qed.

(** While the countdown has seconds left, the timer keeps firing, says
    nothing and takes one second off at each firing. *)
Lemma fire_running :
  forall k d,
    Decompression._active d = true ->
    Decompression._window d = true ->
    (Z.of_nat k <= Decompression._remaining d)%Z ->
    snd (Decompression.fire k d) = []
    /\ Decompression._active (fst (Decompression.fire k d)) = true
    /\ Decompression._window (fst (Decompression.fire k d)) = true
    /\ Decompression.on_complete (fst (Decompression.fire k d))
       = Decompression.on_complete d
    /\ Decompression._remaining (fst (Decompression.fire k d))
       = (Decompression._remaining d - Z.of_nat k)%Z.
Proof.
  induction k as [|k IH]; intros d Ha Hw Hr.
  - cbn. repeat split; auto. lia.
  - cbn [Decompression.fire]. unfold Decompression._countdown.
    rewrite Ha, Hw. cbn [negb orb].
    destruct (Z.leb_spec (Decompression._remaining d) 0) as [Hle | Hgt];
      [lia |].
    match goal with
    | |- context [Decompression.fire k ?d1] =>
        specialize (IH d1); destruct (Decompression.fire k d1) as [d2 log]
    end.
    cbn [fst snd Decompression._active Decompression._window
         Decompression._remaining Decompression.on_complete] in *.
    destruct IH as (H1 & H2 & H3 & H4 & H5); auto; [lia |].
    repeat split; auto. lia.
Qed.

(** Once more firings are allowed than seconds are left, the countdown
    ends: the screen is hidden and the completion callback runs once. *)
Lemma fire_done :
  forall k d,
    Decompression._active d = true ->
    Decompression._window d = true ->
    (0 <= Decompression._remaining d < Z.of_nat k)%Z ->
    snd (Decompression.fire k d)
    = (if Decompression.on_complete d then [Decompression.Completed] else [])
    /\ Decompression._active (fst (Decompression.fire k d)) = false
    /\ Decompression._window (fst (Decompression.fire k d)) = false.
Proof.
  induction k as [|k IH]; intros d Ha Hw Hr; [cbn in Hr; lia |].
  cbn [Decompression.fire]. unfold Decompression._countdown.
  rewrite Ha, Hw. cbn [negb orb].
  destruct (Z.leb_spec (Decompression._remaining d) 0) as [Hle | Hgt].
  - cbn. repeat split; reflexivity.
  - match goal with
    | |- context [Decompression.fire k ?d1] =>
        specialize (IH d1); destruct (Decompression.fire k d1) as [d2 log]
    end.
    cbn [fst snd Decompression._active Decompression._window
         Decompression._remaining Decompression.on_complete] in *.
    destruct IH as (H1 & H2 & H3); auto; lia.
Qed.

(** A screen that is not active, or has no window, ignores its timer. *)
Lemma fire_idle :
  forall n d,
    Decompression._active d = false \/ Decompression._window d = false ->
    Decompression.fire n d = (d, []).
Proof.
  intros [|n] d H; [reflexivity |].
  cbn [Decompression.fire]. unfold Decompression._countdown.
  destruct H as [H | H]; rewrite H; cbn [negb orb];
    [reflexivity | now rewrite Bool.orb_true_r].
Qed.

(** X29.  Shown from the main thread, a screen of [duration] seconds stays
    up and silent for every number of timer firings below [duration],
    counting down one second per firing; from [duration] firings on it is
    hidden again and the completion callback, when installed, has run
    exactly once. *)
Theorem countdown_completes_exactly_once :
  forall d k,
    Decompression._active d = false ->
    (0 <= Decompression.duration d)%Z ->
    let '(d1, e1, _) := Decompression.show true d in
    let '(d2, log) := Decompression.fire k d1 in
    ((Z.of_nat k < Decompression.duration d)%Z ->
       e1 ++ log = []
       /\ Decompression._active d2 = true
       /\ Decompression._remaining d2
          = (Decompression.duration d - 1 - Z.of_nat k)%Z)
    /\ ((Decompression.duration d <= Z.of_nat k)%Z ->
          e1 ++ log
          = (if Decompression.on_complete d
             then [Decompression.Completed] else [])
          /\ Decompression._active d2 = false
          /\ Decompression._window d2 = false).
Proof.
  intros d k Ha Hd.
  unfold Decompression.show. rewrite Ha.
  unfold Decompression._countdown.
  cbn [negb orb Decompression._active Decompression._window
       Decompression._remaining Decompression.on_complete
       Decompression.duration].
  destruct (Z.leb_spec (Decompression.duration d) 0) as [Hle | Hgt].
  - rewrite fire_idle by (left; reflexivity).
    split; [lia | intros _].
    rewrite app_nil_r. repeat split; reflexivity.
  - match goal with
    | |- context [Decompression.fire k ?d1] =>
        pose proof (fire_running k d1) as Hrun;
        pose proof (fire_done k d1) as Hdone;
        destruct (Decompression.fire k d1) as [d2 log]
    end.
    cbn [fst snd Decompression._active Decompression._window
         Decompression._remaining Decompression.on_complete] in *.
    split; intros Hk.
    + assert (Hrem : (Z.of_nat k <= Decompression.duration d - 1)%Z) by lia.
      destruct (Hrun eq_refl eq_refl Hrem) as (H1 & H2 & _ & _ & H5).
      rewrite H1. repeat split; auto.
    + assert (Hrem : (0 <= Decompression.duration d - 1 < Z.of_nat k)%Z)
        by lia.
      destruct (Hdone eq_refl eq_refl Hrem) as (H1 & H2 & H3).
      rewrite H1. repeat split; auto.
Qed.

Lemma countdown_completes_exactly_once_witness :
  let '(d1, e1, _) := Decompression.show true example_screen in
  let '(d2, log) := Decompression.fire 60 d1 in
  ((Z.of_nat 60 < Decompression.duration example_screen)%Z ->
     e1 ++ log = []
     /\ Decompression._active d2 = true
     /\ Decompression._remaining d2
        = (Decompression.duration example_screen - 1 - Z.of_nat 60)%Z)
  /\ ((Decompression.duration example_screen <= Z.of_nat 60)%Z ->
        e1 ++ log
        = (if Decompression.on_complete example_screen
           then [Decompression.Completed] else [])
        /\ Decompression._active d2 = false
        /\ Decompression._window d2 = false).
Proof.
  apply (countdown_completes_exactly_once example_screen 60);
    [reflexivity | cbn; lia].
Defined.

(** The monitor thread never creates a window and never runs a callback,
    and it never takes the screen out of the active state. *)
Lemma monitor_opens_nothing :
  forall views d,
    Decompression._window d = false ->
    snd (Decompression.monitor views d) = []
    /\ Decompression._window (fst (Decompression.monitor views d)) = false
    /\ (Decompression._active d = true ->
        Decompression._active (fst (Decompression.monitor views d)) = true).
Proof.
  induction views as [|names rest IH]; intros d Hw; [now cbn |].
  cbn [Decompression.monitor].
  destruct (Decompression._running d); [| now cbn].
  unfold Decompression.monitor_step, Decompression.show.
  destruct (Decompression._was_in_meeting d
            && negb (Decompression._check_meeting_active names d));
    [destruct (Decompression._active d) eqn:Ha |];
    match goal with
    | |- context [Decompression.monitor rest ?d1] =>
        specialize (IH d1);
        destruct (Decompression.monitor rest d1) as [d2 log]
    end;
    cbn [fst snd Decompression._active Decompression._window app] in *;
    destruct IH as (H1 & H2 & H3); auto.
Qed.

(** X30.  When the monitor thread sees a meeting end, the screen becomes
    active but gets no window: no callback runs, the timer has nothing to
    count, and every later call of [show], from the main thread too, is
    ignored, whatever the monitor sees afterwards. *)
Theorem meeting_end_latches_the_screen_without_a_window :
  forall names views d,
    Decompression._running d = true ->
    Decompression._window d = false ->
    Decompression._active d = false ->
    Decompression._was_in_meeting d = true ->
    Decompression._check_meeting_active names d = false ->
    let '(d', log) := Decompression.monitor (names :: views) d in
    log = []
    /\ Decompression._active d' = true
    /\ Decompression._window d' = false
    /\ (forall n, Decompression.fire n d' = (d', []))
    /\ (forall b, Decompression.show b d' = (d', [], false)).
Proof.
  intros names views d Hr Hw Ha Hm Hc.
  cbn [Decompression.monitor]. rewrite Hr.
  unfold Decompression.monitor_step, Decompression.show.
  rewrite Hm, Hc, Ha. cbn [andb negb].
  match goal with
  | |- context [Decompression.monitor views ?d1] =>
      pose proof (monitor_opens_nothing views d1) as Hmon;
      destruct (Decompression.monitor views d1) as [d2 log]
  end.
  cbn [fst snd Decompression._active Decompression._window app] in *.
  destruct Hmon as (H1 & H2 & H3); auto.
  specialize (H3 eq_refl).
  repeat split; auto.
  - intros n. apply fire_idle. now right.
  - intros b. unfold Decompression.show. now rewrite H3.
Qed.

Lemma meeting_end_latches_the_screen_without_a_window_witness :
  let '(d', log) :=
    Decompression.monitor
      ([Some "bash"%string] :: [[Some "zoom.us"%string]; [None]])
      example_screen_in_meeting in
  log = []
  /\ Decompression._active d' = true
  /\ Decompression._window d' = false
  /\ (forall n, Decompression.fire n d' = (d', []))
  /\ (forall b, Decompression.show b d' = (d', [], false)).
Proof.
  apply (meeting_end_latches_the_screen_without_a_window
           [Some "bash"%string] [[Some "zoom.us"%string]; [None]]
           example_screen_in_meeting); reflexivity.
Defined.
